(** * P1-Axis risk scoring pipeline: [EOT/scoring.py]

    A shallow embedding of the score calculation of [src/EOT/scoring.py]
    ([_calibrate_score], [_map_to_status_action], [calculate_score]) and
    the properties the specification states about it.

    Number model.  Python's [int] is [Z].  Python's [float] is binary64;
    it is modelled twice.  [Binary64] has the values of the format as
    rationals, with the infinities and NaN beside them, and every
    operation rounds to nearest, ties to even, as the hardware does:
    this is the model for what depends on the digits of a result (the
    calibration formula, sums of durations and of rates).  The rest of
    [scoring.py] is stated over the exact rationals [Q], where [+],
    [*], [/], [abs], [min], [max] are the exact operations: bounds,
    monotonicity and saturation, which rounding to nearest preserves. *)

From Stdlib Require Import ZArith QArith Qround Qabs Qminmax Qpower Lqa Lia.
From Stdlib Require Import List String Bool.
From Stdlib Require Import Sorted Permutation.
Import ListNotations.

Set Warnings "-register-all".

Local Open Scope Z_scope.
Local Open Scope Q_scope.

(** ** Python builtins on floats *)

Module Py.

(** [max(a, b)]: the first maximal argument, i.e. [b] only if [b > a]. *)
Definition max (a b : Q) : Q := if Qle_bool b a then a else b.

(** [min(a, b)]: the first minimal argument, i.e. [b] only if [b < a]. *)
Definition min (a b : Q) : Q := if Qle_bool a b then a else b.

(** [round(x)] with one argument: the nearest integer, a tie going to
    the even neighbour.  [Qfloor (x + 1/2)] rounds a tie upwards; when
    that lands on an odd integer the even neighbour is one below. *)
Definition round (x : Q) : Z :=
  let k := Qfloor (x + (1 # 2)) in
  if Qeq_bool (x + (1 # 2)) (inject_Z k) && Z.odd k then (k - 1)%Z else k.

(** [sum(xs)]: a left fold starting from [0]. *)
Definition sum (xs : list Q) : Q := fold_left Qplus xs 0.

(** [d.get(key)] on a dict kept as an association list in insertion
    order. *)
Fixpoint get {V : Type} (key : string) (d : list (string * V)) : option V :=
  match d with
  | [] => None
  | (k, v) :: rest => if String.eqb key k then Some v else get key rest
  end.

End Py.

(** ** Binary64 arithmetic

    Python's [float] is the IEEE 754 binary64 format: 53 significant
    bits, exponents from -1074 (the least positive value [2^-1074]) up
    to values below [2^1024], the two infinities and NaN.  Every
    operation returns the exact result rounded to the nearest value of
    the format, a tie going to the even significand.  The sign of zero
    cannot be observed by the code modelled here (a division by either
    zero raises, comparisons and [round] treat both alike), so there is
    one zero. *)

Module Binary64.

Inductive float : Type :=
| Finite (q : Q)
| Infinity (negative : bool)
| NaN.

Definition pow2 (e : Z) : Q := 2 ^ e.

(** The position of the leading bit of [x > 0]: the [k] with
    [2^k <= x < 2^(k+1)]. *)
Definition ilog2 (x : Q) : Z :=
  let k := (Z.log2 (Qnum x) - Z.log2 (Zpos (Qden x)))%Z in
  if Qle_bool (pow2 k) x then k else (k - 1)%Z.

(** The exponent of the last significant bit at [x]: 52 places below
    the leading bit, and never below -1074 (the subnormal range). *)
Definition quantum (x : Q) : Z := Z.max (ilog2 (Qabs x) - 52) (-1074).

(** Round to nearest, ties to even, exponent unbounded above. *)
Definition nearest (x : Q) : Q :=
  if Qeq_bool x 0 then 0
  else let e := quantum x in
       Qred (inject_Z (Py.round (x / pow2 e)) * pow2 e).

Definition is_negative (x : Q) : bool := negb (Qle_bool 0 x).

(** The float nearest to [x]; a rounded magnitude of [2^1024] or more
    overflows to an infinity. *)
Definition of_Q (x : Q) : float :=
  let r := nearest x in
  if Qle_bool (pow2 1024) (Qabs r) then Infinity (is_negative r) else Finite r.


Definition abs (a : float) : float :=
  match a with
  | Finite x => Finite (Qabs x)
  | Infinity _ => Infinity false
  | NaN => NaN
  end.

Definition add (a b : float) : float :=
  match a, b with
  | NaN, _ | _, NaN => NaN
  | Finite x, Finite y => of_Q (x + y)
  | Infinity s, Infinity t => if Bool.eqb s t then Infinity s else NaN
  | Infinity s, Finite _ | Finite _, Infinity s => Infinity s
  end.

Definition mul (a b : float) : float :=
  match a, b with
  | NaN, _ | _, NaN => NaN
  | Finite x, Finite y => of_Q (x * y)
  | Infinity s, Infinity t => Infinity (xorb s t)
  | Infinity s, Finite y | Finite y, Infinity s =>
      if Qeq_bool y 0 then NaN else Infinity (xorb s (is_negative y))
  end.

(** The exceptions float arithmetic raises. *)
Inductive Raised : Set := ZeroDivisionError | ValueError | OverflowError.

(** [a / b]: Python raises on a zero divisor, whatever [a] is. *)
Definition truediv (a b : float) : Raised + float :=
  match b with
  | Finite y =>
      if Qeq_bool y 0 then inl ZeroDivisionError
      else inr match a with
               | Finite x => of_Q (x / y)
               | Infinity s => Infinity (xorb s (is_negative y))
               | NaN => NaN
               end
  | Infinity _ => inr match a with Finite _ => Finite 0 | _ => NaN end
  | NaN => inr NaN
  end.

(** [a < b]; every comparison with NaN is false. *)
Definition lt (a b : float) : bool :=
  match a, b with
  | NaN, _ | _, NaN => false
  | Finite x, Finite y => negb (Qle_bool y x)
  | Infinity s, Infinity t => s && negb t
  | Infinity s, Finite _ => s
  | Finite _, Infinity t => negb t
  end.

(** [a <= b]. *)
Definition le (a b : float) : bool :=
  match a, b with
  | NaN, _ | _, NaN => false
  | Finite x, Finite y => Qle_bool x y
  | Infinity s, Infinity t => s || negb t
  | Infinity s, Finite _ => s
  | Finite _, Infinity t => negb t
  end.

Definition gt (a b : float) : bool := lt b a.

(** [max(a, b)] and [min(a, b)]: the first argument unless the second
    is greater (smaller). *)
Definition max (a b : float) : float := if gt b a then b else a.
Definition min (a b : float) : float := if lt b a then b else a.

(** [round(a)]: the nearest integer, ties to even; it raises on an
    infinity and on NaN. *)
Definition round (a : float) : Raised + Z :=
  match a with
  | Finite x => inr (Py.round x)
  | Infinity _ => inl OverflowError
  | NaN => inl ValueError
  end.

(** [sum(xs)]: the items added from left to right to the integer 0, as
    CPython does up to version 3.11. *)
Definition sum (xs : list float) : float := fold_left add xs (Finite 0).

(** [_calibrate_score(score_raw, max_abs_weight)], lines 52-59. *)
Definition _calibrate_score (score_raw max_abs_weight : float) : Raised + Z :=
  let max_abs_weight :=
    if le max_abs_weight (Finite 0) then Finite 1 else max_abs_weight in
  match truediv score_raw max_abs_weight with
  | inl raised => inl raised
  | inr quotient =>
      let normalized := max (min quotient (Finite 1)) (Finite (-(1))) in
      let scaled := mul (add normalized (Finite 1)) (Finite 50) in
      round scaled
  end.

(** [max(1.0, sum(abs(v) for v in w.values()) / 2.0)], line 97. *)
Definition dynamic_max (w : list (string * float)) : Raised + float :=
  match truediv (sum (map (fun kv => abs (snd kv)) w)) (Finite 2) with
  | inl raised => inl raised
  | inr half => inr (max (Finite 1) half)
  end.

(** The calibrator as section 4.4 words it, in the same arithmetic. *)
Module Formula.

Definition sum_abs (w : list (string * float)) : float :=
  fold_left (fun acc kv => add acc (abs (snd kv))) w (Finite 0).

Definition greater (a b : float) : float := if lt a b then b else a.


Definition max_abs_weight (w : list (string * float)) : Raised + float :=
  match truediv (sum_abs w) (Finite 2) with
  | inl raised => inl raised
  | inr half => inr (greater (Finite 1) half)
  end.




End Formula.

End Binary64.


(** ** Enums *)

Inductive RiskStatus : Set :=
| LEGITIMO       (* the spec's LEGITIMATE *)
| DESCONFIAVEL   (* the spec's SUSPICIOUS *)
| ALTO_RISCO.    (* the spec's HIGH_RISK *)

Inductive RecommendedAction : Set :=
| ALLOW
| STEP_UP_AUTH
| BLOCK.

(** ** Core functions *)

(** [_calibrate_score(score_raw, max_abs_weight)], lines 52-59, in exact
    arithmetic; [Binary64._calibrate_score] is the same function in
    floats. *)
Definition _calibrate_score (score_raw max_abs_weight : Q) : Z :=
  let max_abs_weight :=
    if Qle_bool max_abs_weight 0 then 1 else max_abs_weight in
  let normalized := Py.max (Py.min (score_raw / max_abs_weight) 1) (-(1)) in
  let scaled := (normalized + 1) * 50 in
  Py.round scaled.

(** [_map_to_status_action(score)], lines 62-68. *)
Definition _map_to_status_action (score : Z) : RiskStatus * RecommendedAction :=
  if (75 <=? score)%Z then (LEGITIMO, ALLOW)
  else if (50 <=? score)%Z then (DESCONFIAVEL, STEP_UP_AUTH)
  else (ALTO_RISCO, BLOCK).

(** ** Data model *)

(** A value of a [Dict[str, Any]] payload: what JSON can carry. *)
Inductive PyValue : Type :=
| PyNone
| PyBool (b : bool)
| PyInt (n : Z)
| PyFloat (x : Q)
| PyStr (s : string)
| PyList (items : list PyValue)
| PyDict (entries : list (string * PyValue)).

(** A dict with string keys, in insertion order. *)
Definition Dict (V : Type) : Type := list (string * V).

Definition Payload : Type := Dict PyValue.

(** A feature is numeric or boolean; in arithmetic a boolean counts as
    [0] or [1], as Python's [bool] does. *)
Inductive FeatureValue : Type :=
| FNum (x : Q)
| FBool (b : bool).

Definition feature_num (v : FeatureValue) : Q :=
  match v with
  | FNum x => x
  | FBool true => 1
  | FBool false => 0
  end.

Definition FeatureSet : Type := Dict FeatureValue.
Definition WeightConfig : Type := Dict Q.

(** A feature name with its signed share of the raw score. *)
Definition Contribution : Type := (string * Q)%type.

(** An entry of [reason_codes]: [{"code": ..., "contribution": ...}]. *)
Record ReasonCode : Type := mkReasonCode {
  code : string;
  contribution : Q
}.

(** [ScoreResult], lines 40-46. *)
Record ScoreResult : Type := mkScoreResult {
  score : Z;
  status : RiskStatus;
  recommended_action : RecommendedAction;
  reason_codes : list ReasonCode;
  metadata : Dict PyValue
}.

(** ** The module logger

    [calculate_score] writes to [logger] and reads nothing back.  The
    logger is the only state outside the arguments that the function
    touches: its threshold decides which records are kept. *)

Inductive LogLevel : Set := DEBUG | INFO | WARNING | ERROR | CRITICAL.

Definition level_no (l : LogLevel) : Z :=
  match l with
  | DEBUG => 10 | INFO => 20 | WARNING => 30 | ERROR => 40 | CRITICAL => 50
  end%Z.

(** The messages of lines 81-116, with their interpolated values. *)
Inductive LogMessage : Type :=
| MsgStart
| MsgFeatures (features : FeatureSet)
| MsgHardRule (fired_rule : bool) (hard_code : string)
| MsgRaw (score_raw : Q) (contributions : list Contribution)
| MsgCalibrated (score : Z)
| MsgFinal (score : Z) (status : RiskStatus) (action : RecommendedAction).

Record Logger : Type := mkLogger {
  threshold : LogLevel;
  records : list (LogLevel * LogMessage)
}.

(** Computations that may write to the logger. *)
Definition Logging (A : Type) : Type := Logger -> A * Logger.

Definition ret {A : Type} (a : A) : Logging A := fun lg => (a, lg).

Definition bind {A B : Type} (m : Logging A) (k : A -> Logging B) : Logging B :=
  fun lg => let (a, lg') := m lg in k a lg'.

Notation "x <- m ;; k" := (bind m (fun x => k))
  (at level 61, m at next level, right associativity).
Notation "m ;; k" := (bind m (fun _ => k))
  (at level 61, right associativity).

Definition log (lvl : LogLevel) (msg : LogMessage) : Logging unit :=
  fun lg =>
    if (level_no (threshold lg) <=? level_no lvl)%Z
    then (tt, mkLogger (threshold lg) (records lg ++ [(lvl, msg)]))
    else (tt, lg).

Definition logger_debug : LogMessage -> Logging unit := log DEBUG.
Definition logger_info : LogMessage -> Logging unit := log INFO.

(** ** What [scoring.py] imports

    Lines 6-8 import the feature extractor, the default weights, the
    weighted sum, the hard rules and the reason-code ranking from the
    sibling modules [features], [rules] and [explainability].
    [calculate_score] is written against these five names. *)
Record Collaborators : Type := mkCollaborators {
  extract_all_features : Payload -> FeatureSet;
  DEFAULT_WEIGHTS : WeightConfig;
  weighted_sum : FeatureSet -> WeightConfig -> Q * list Contribution;
  hard_rules : FeatureSet -> bool * string;
  top_reason_codes : list Contribution -> nat -> list ReasonCode
}.

(** ** Main entry point *)

(** [weights or DEFAULT_WEIGHTS], line 82: [None] and the empty dict are
    both falsy. *)
Definition weights_or (weights : option WeightConfig) (default : WeightConfig)
  : WeightConfig :=
  match weights with
  | Some [] => default
  | Some w => w
  | None => default
  end.

(** [max(1.0, sum(abs(v) for v in w.values()) / 2.0)], line 97. *)
Definition dynamic_max (w : WeightConfig) : Q :=
  Py.max 1 (Py.sum (map (fun kv => Qabs (snd kv)) w) / 2).

(** The synthetic reason code of line 107. *)
Definition hard_rule_reason (hard_code : string) : ReasonCode :=
  mkReasonCode hard_code (-(999)).

(** [payload.get("context", {})], line 113. *)
Definition payload_context (payload : Payload) : PyValue :=
  match Py.get "context" payload with
  | Some v => v
  | None => PyDict []
  end.

(** [calculate_score(payload, weights=None)], lines 74-124. *)
Definition calculate_score (C : Collaborators)
    (payload : Payload) (weights : option WeightConfig) : Logging ScoreResult :=
  logger_debug MsgStart ;;
  let w := weights_or weights (DEFAULT_WEIGHTS C) in
  let features := extract_all_features C payload in
  logger_debug (MsgFeatures features) ;;
  let '(fired_rule, hard_code) := hard_rules C features in
  logger_debug (MsgHardRule fired_rule hard_code) ;;
  let '(score_raw, contributions) := weighted_sum C features w in
  logger_debug (MsgRaw score_raw contributions) ;;
  let score := _calibrate_score score_raw (dynamic_max w) in
  logger_debug (MsgCalibrated score) ;;
  let '(status, action) := _map_to_status_action score in
  let reasons := top_reason_codes C contributions 5 in
  let reasons :=
    if fired_rule then hard_rule_reason hard_code :: reasons else reasons in
  let metadata :=
    [ ("model_version"%string, PyStr "v0.1.0");
      ("hard_rule_fired"%string, PyBool fired_rule);
      ("context"%string, payload_context payload) ] in
  logger_info (MsgFinal score status action) ;;
  ret (mkScoreResult score status action reasons metadata).

(** The value [calculate_score] returns, the logger put aside. *)
Definition result_of (C : Collaborators) (payload : Payload)
    (weights : option WeightConfig) (lg : Logger) : ScoreResult :=
  fst (calculate_score C payload weights lg).

(** ** The imported functions, after the specification

    The modules [features], [rules] and [explainability] are not among
    the sources; the three functions below follow sections 4.2, 4.3 and
    4.6 of the specification.  The feature extractor, the table of hard
    rules and the default weights stay parameters. *)

Module SpecModel.

(** Modelled from the spec: the contributions of [rules.weighted_sum]
    (section 4.3).  For every feature present in both [features] and
    [weights], in the order of the features, the contribution is
    [feature_value * weight], a boolean counting as 0 or 1. *)
Definition contributions_of (features : FeatureSet) (weights : WeightConfig)
  : list Contribution :=
  flat_map
    (fun entry : string * FeatureValue =>
       match Py.get (fst entry) weights with
       | Some wt => [(fst entry, feature_num (snd entry) * wt)]
       | None => []
       end)
    features.

(** Modelled from the spec: [rules.weighted_sum] (section 4.3), the raw
    score being the sum of all contributions. *)
Definition weighted_sum (features : FeatureSet) (weights : WeightConfig)
  : Q * list Contribution :=
  let contributions := contributions_of features weights in
  (Py.sum (map snd contributions), contributions).

(** A hard rule: its code and its predicate over the feature set. *)
Definition HardRule : Type := (string * (FeatureSet -> bool))%type.

(** Modelled from the spec: [rules.hard_rules] (section 4.2).  The rules
    are tried in order; the first predicate that matches ends the
    evaluation with its code, and no match gives the empty code. *)
Fixpoint hard_rules (rules : list HardRule) (features : FeatureSet)
  : bool * string :=
  match rules with
  | [] => (false, EmptyString)
  | (rule_code, predicate) :: rest =>
      if predicate features then (true, rule_code)
      else hard_rules rest features
  end.

Definition magnitude (c : Contribution) : Q := Qabs (snd c).

(** Descending magnitude: [a] may stand before [b]. *)
Definition desc (a b : Contribution) : Prop := magnitude b <= magnitude a.

(** Modelled from the spec: one step of the stable sort of section 4.6.
    Insertion in a list ordered by descending magnitude: the new
    element, which precedes the others in computation order, also goes
    before those of equal magnitude. *)
Fixpoint insert_desc (c : Contribution) (l : list Contribution)
  : list Contribution :=
  match l with
  | [] => [c]
  | d :: rest =>
      if Qle_bool (magnitude d) (magnitude c) then c :: d :: rest
      else d :: insert_desc c rest
  end.

(** Modelled from the spec: the stable sort of section 4.6, by absolute
    magnitude, descending. *)
Definition sort_desc (l : list Contribution) : list Contribution :=
  fold_right insert_desc [] l.

(** Modelled from the spec: [explainability.top_reason_codes]
    (section 4.6), the [top_k] contributions of largest magnitude as
    reason codes. *)
Definition top_reason_codes (contributions : list Contribution) (top_k : nat)
  : list ReasonCode :=
  map (fun c => mkReasonCode (fst c) (snd c))
      (firstn top_k (sort_desc contributions)).

(** The imports of [scoring.py] with the three functions above. *)
Definition collaborators (extract : Payload -> FeatureSet)
    (rules : list HardRule) (default_weights : WeightConfig) : Collaborators :=
  mkCollaborators extract default_weights weighted_sum
                  (hard_rules rules) top_reason_codes.

End SpecModel.

(** ** Orderings of reason codes *)

(** Descending absolute contribution. *)
Definition ranks_before (a b : ReasonCode) : Prop :=
  Qabs (contribution b) <= Qabs (contribution a).

Definition ranked (l : list ReasonCode) : Prop := StronglySorted ranks_before l.

Definition same_magnitude (m : Q) (c : Contribution) : bool :=
  Qeq_bool (SpecModel.magnitude c) m.

(** The reason codes that stand for weighted contributions: all of them,
    or all but the first when a hard rule put its code in front. *)
Definition weighted_reasons (fired_rule : bool) (reasons : list ReasonCode)
  : list ReasonCode :=
  if fired_rule then tl reasons else reasons.

(** Replacing the hard rules of a set of imports. *)
Definition with_hard_rules (hr : FeatureSet -> bool * string)
    (C : Collaborators) : Collaborators :=
  mkCollaborators (extract_all_features C) (DEFAULT_WEIGHTS C)
                  (weighted_sum C) hr (top_reason_codes C).

(** Replacing the default weight table of a set of imports. *)
Definition with_default_weights (defaults : WeightConfig)
    (C : Collaborators) : Collaborators :=
  mkCollaborators (extract_all_features C) defaults
                  (weighted_sum C) (hard_rules C) (top_reason_codes C).

(** ** An instance for concrete evaluation

    Two features, one hard rule and a default weight table, to run the
    pipeline on concrete payloads. *)

Module Sample.

Definition lookup_in (group key : string) (payload : Payload) : option PyValue :=
  match Py.get group payload with
  | Some (PyDict entries) => Py.get key entries
  | _ => None
  end.

Definition extract (payload : Payload) : FeatureSet :=
  [ ("face_match"%string,
     match lookup_in "biometrics" "face_match" payload with
     | Some (PyFloat x) => FNum x
     | _ => FNum 0
     end);
    ("revoked_credential"%string,
     match lookup_in "device" "revoked_credential" payload with
     | Some (PyBool b) => FBool b
     | _ => FBool false
     end) ].

Definition revoked (features : FeatureSet) : bool :=
  match Py.get "revoked_credential" features with
  | Some (FBool b) => b
  | _ => false
  end.

Definition rules : list SpecModel.HardRule :=
  [ ("REVOKED_CREDENTIAL"%string, revoked) ].

Definition default_weights : WeightConfig :=
  [ ("face_match"%string, 1); ("revoked_credential"%string, -(1)) ].

Definition imports : Collaborators :=
  SpecModel.collaborators extract rules default_weights.

Definition payload (face_match : Q) (is_revoked : bool) : Payload :=
  [ ("device"%string, PyDict [("revoked_credential"%string, PyBool is_revoked)]);
    ("behavior"%string, PyDict []);
    ("geo"%string, PyDict []);
    ("biometrics"%string, PyDict [("face_match"%string, PyFloat face_match)]) ].

Definition quiet : Logger := mkLogger WARNING [].

End Sample.

(** * The session-behaviour monitor: [EOT/session_behavior.py]

    Instants of time ([datetime]) are rationals, in seconds from some
    origin; the [total_seconds()] of a difference of two instants is the
    difference of the two numbers.  Where the code reads the clock
    ([datetime.now()]) the instant read is an argument. *)

(** ** Dictionary updates *)

Module PyDict.

(** [key in d] *)
Definition mem {V : Type} (key : string) (d : Dict V) : bool :=
  match Py.get key d with Some _ => true | None => false end.

(** [d[key] = v]: an existing key keeps its place, a new key goes last. *)
Fixpoint set {V : Type} (key : string) (v : V) (d : Dict V) : Dict V :=
  match d with
  | [] => [(key, v)]
  | (k, x) :: rest =>
      if String.eqb key k then (k, v) :: rest else (k, x) :: set key v rest
  end.

(** The same two operations on a dict with integer keys. *)
Fixpoint get_int {V : Type} (key : Z) (d : list (Z * V)) : option V :=
  match d with
  | [] => None
  | (k, v) :: rest => if (key =? k)%Z then Some v else get_int key rest
  end.

Fixpoint set_int {V : Type} (key : Z) (v : V) (d : list (Z * V)) : list (Z * V) :=
  match d with
  | [] => [(key, v)]
  | (k, x) :: rest =>
      if (key =? k)%Z then (k, v) :: rest else (k, x) :: set_int key v rest
  end.

End PyDict.

(** ** Numbers and exceptions *)

(** A Python number: an [int] or a [float].  Arithmetic between two
    ints stays an int, anything else is a float; [/] is always a
    float. *)
Module PyNum.

Inductive t : Type :=
| Int (n : Z)
| Float (x : Q).

Definition value (a : t) : Q :=
  match a with
  | Int n => inject_Z n
  | Float x => x
  end.

Definition add (a b : t) : t :=
  match a, b with
  | Int m, Int n => Int (m + n)
  | _, _ => Float (value a + value b)
  end.

Definition sub (a b : t) : t :=
  match a, b with
  | Int m, Int n => Int (m - n)
  | _, _ => Float (value a - value b)
  end.

Definition mul (a b : t) : t :=
  match a, b with
  | Int m, Int n => Int (m * n)
  | _, _ => Float (value a * value b)
  end.

(** [a / b] for a divisor that is not zero. *)
Definition truediv (a b : t) : t := Float (value a / value b).

Definition lt (a b : t) : bool := negb (Qle_bool (value b) (value a)).
Definition ge (a b : t) : bool := Qle_bool (value b) (value a).
Definition gt (a b : t) : bool := negb (Qle_bool (value a) (value b)).
Definition le (a b : t) : bool := Qle_bool (value a) (value b).

(** [min(a, b)]: [b] only if [b < a]; the result keeps its type. *)
Definition min (a b : t) : t := if lt b a then b else a.

(** [round(a, 1)]: an int is returned as it is, a float is rounded to
    one decimal, a tie going to the even digit. *)
Definition round1 (a : t) : t :=
  match a with
  | Int n => Int n
  | Float x => Float (inject_Z (Py.round (x * 10)) / 10)
  end.

(** The number a value is, if it is one; [bool] is a subtype of [int]. *)
Definition of_value (v : PyValue) : option t :=
  match v with
  | PyBool true => Some (Int 1)
  | PyBool false => Some (Int 0)
  | PyInt n => Some (Int n)
  | PyFloat x => Some (Float x)
  | _ => None
  end.

Definition to_value (a : t) : PyValue :=
  match a with
  | Int n => PyInt n
  | Float x => PyFloat x
  end.

End PyNum.

(** The exceptions the functions below can raise. *)
Inductive PyError : Type :=
| KeyError (key : string)
| TypeError
| AttributeError.

(** A value or the exception raised instead. *)
Definition Result (A : Type) : Type := (PyError + A)%type.

Definition and_then {A B : Type} (r : Result A) (k : A -> Result B) : Result B :=
  match r with
  | inl e => inl e
  | inr a => k a
  end.

Notation "x <-- r ;;; k" := (and_then r (fun x => k))
  (at level 61, r at next level, right associativity).

(** [obj[key]] for a string key: a dict has the key or raises
    [KeyError]; no other value of a payload can be subscripted by a
    string. *)
Definition getitem (obj : PyValue) (key : string) : Result PyValue :=
  match obj with
  | PyDict entries =>
      match Py.get key entries with
      | Some v => inr v
      | None => inl (KeyError key)
      end
  | _ => inl TypeError
  end.

(** A value used in arithmetic with numbers and compared with them:
    a number, or [TypeError]. *)
Definition number (v : PyValue) : Result PyNum.t :=
  match PyNum.of_value v with
  | Some a => inr a
  | None => inl TypeError
  end.

Module SessionBehavior.

(** [a > b] on floats. *)
Definition gt (a b : Q) : bool := negb (Qle_bool a b).

(** [HTTPMethod], lines 30-39, with the [value] of each member. *)
Inductive HTTPMethod : Set :=
| GET | POST | PUT | DELETE | PATCH | HEAD | OPTIONS | TRACE.

Definition HTTPMethod_value (m : HTTPMethod) : string :=
  match m with
  | GET => "GET" | POST => "POST" | PUT => "PUT" | DELETE => "DELETE"
  | PATCH => "PATCH" | HEAD => "HEAD" | OPTIONS => "OPTIONS" | TRACE => "TRACE"
  end.

(** [RequestStatus], lines 56-61. *)
Inductive RequestStatus : Set := SUCCESS | ERROR | TIMEOUT | BLOCKED.

(** [EndpointMetrics], lines 64-119. *)
Module EndpointMetrics.

Record t : Type := mk {
  endpoint : string;
  method : HTTPMethod;
  total_requests : Z;
  successful_requests : Z;
  failed_requests : Z;
  response_times : list Q;
  status_codes : list (Z * Z);
  last_accessed : option Q;
  first_accessed : option Q
}.

(** [EndpointMetrics(endpoint=..., method=...)]: the other fields take
    their defaults. *)
Definition fresh (endpoint : string) (method : HTTPMethod) : t :=
  mk endpoint method 0 0 0 [] [] None None.

(** The property [success_rate], lines 77-82. *)
Definition success_rate (self : t) : Q :=
  if (total_requests self =? 0)%Z then 0
  else (inject_Z (successful_requests self) / inject_Z (total_requests self)) * 100.

(** The property [failure_rate], lines 84-87. *)
Definition failure_rate (self : t) : Q := 100 - success_rate self.

(** [statistics.mean] of a non-empty list. *)
Definition mean (xs : list Q) : Q :=
  Py.sum xs / inject_Z (Z.of_nat (List.length xs)).

(** The property [avg_response_time], lines 89-94. *)
Definition avg_response_time (self : t) : Q :=
  match response_times self with
  | [] => 0
  | _ :: _ => mean (response_times self)
  end.

End EndpointMetrics.

(** [RequestEvent], lines 153-201. *)
Module RequestEvent.

Record t : Type := mk {
  request_id : string;
  session_id : string;
  endpoint : string;
  method : HTTPMethod;
  status_code : Z;
  response_time_ms : Q;
  request_size_bytes : Z;
  response_size_bytes : Z;
  timestamp : Q;
  user_agent : string;
  ip_address : string;
  headers : Dict string;
  query_params : Dict string;
  error_message : option string
}.

(** The property [status], lines 171-181. *)
Definition status (self : t) : RequestStatus :=
  if ((200 <=? status_code self) && (status_code self <? 300))%Z then SUCCESS
  else if (status_code self =? 408)%Z || gt (response_time_ms self) 30000
       then TIMEOUT
  else if ((status_code self =? 429) || (status_code self =? 403))%Z
       then BLOCKED
  else ERROR.

End RequestEvent.

(** [EndpointMonitor], lines 304-418.  The lock of [record_request]
    serializes the calls; one call is modelled as one step. *)
Module EndpointMonitor.

Record t : Type := mk {
  endpoints : Dict EndpointMetrics.t;
  request_history : list RequestEvent.t;
  rate_limiter_windows : Dict (list Q)
}.

(** [__init__], lines 307-311. *)
Definition init : t := mk [] [] [].

(** The line [record_request] logs at INFO level: method, endpoint,
    status code and response time. *)
Record LogLine : Type := mkLogLine {
  log_method : string;
  log_endpoint : string;
  log_status_code : Z;
  log_response_time_ms : Q
}.

(** f"{method.value}:{endpoint}" *)
Definition endpoint_key (method : HTTPMethod) (endpoint : string) : string :=
  (HTTPMethod_value method ++ ":" ++ endpoint)%string.

(** [append] on a [deque(maxlen=10000)]: a full deque drops its oldest
    element. *)
Definition history_append (request : RequestEvent.t)
    (history : list RequestEvent.t) : list RequestEvent.t :=
  if (10000 <=? Z.of_nat (List.length history))%Z then tl history ++ [request]
  else history ++ [request].

(** The loop of lines 349-350: instants more than a minute old are
    popped from the left until one is recent enough. *)
Fixpoint drop_old (now : Q) (window : list Q) : list Q :=
  match window with
  | [] => []
  | oldest :: rest =>
      if gt (now - oldest) 60 then drop_old now rest else window
  end.

(** The update of the endpoint's metrics, lines 325-342. *)
Definition update_metrics (request : RequestEvent.t)
    (metrics : EndpointMetrics.t) : EndpointMetrics.t :=
  let code := RequestEvent.status_code request in
  let succeeded :=
    match RequestEvent.status request with SUCCESS => true | _ => false end in
  EndpointMetrics.mk
    (EndpointMetrics.endpoint metrics)
    (EndpointMetrics.method metrics)
    (EndpointMetrics.total_requests metrics + 1)%Z
    (if succeeded then (EndpointMetrics.successful_requests metrics + 1)%Z
     else EndpointMetrics.successful_requests metrics)
    (if succeeded then EndpointMetrics.failed_requests metrics
     else (EndpointMetrics.failed_requests metrics + 1)%Z)
    (EndpointMetrics.response_times metrics
       ++ [RequestEvent.response_time_ms request])
    (match PyDict.get_int code (EndpointMetrics.status_codes metrics) with
     | Some count =>
         PyDict.set_int code (count + 1)%Z (EndpointMetrics.status_codes metrics)
     | None => PyDict.set_int code 1%Z (EndpointMetrics.status_codes metrics)
     end)
    (Some (RequestEvent.timestamp request))
    (match EndpointMetrics.first_accessed metrics with
     | None => Some (RequestEvent.timestamp request)
     | Some first => Some first
     end).

(** [record_request(request)], lines 313-361, with the instant [now]
    that line 346 reads from the clock.  The result is the monitor
    after the call and the line that was logged. *)
Definition record_request (now : Q) (request : RequestEvent.t) (self : t)
  : t * LogLine :=
  let key := endpoint_key (RequestEvent.method request)
                          (RequestEvent.endpoint request) in
  let metrics :=
    match Py.get key (endpoints self) with
    | Some metrics => metrics
    | None => EndpointMetrics.fresh (RequestEvent.endpoint request)
                                    (RequestEvent.method request)
    end in
  let session_window :=
    match Py.get (RequestEvent.session_id request) (rate_limiter_windows self) with
    | Some window => window
    | None => []
    end in
  (mk (PyDict.set key (update_metrics request metrics) (endpoints self))
      (history_append request (request_history self))
      (PyDict.set (RequestEvent.session_id request)
                  (drop_old now session_window ++ [now])
                  (rate_limiter_windows self)),
   mkLogLine (HTTPMethod_value (RequestEvent.method request))
             (RequestEvent.endpoint request)
             (RequestEvent.status_code request)
             (RequestEvent.response_time_ms request)).

(** [get_endpoint_metrics(endpoint, method)], lines 363-366. *)
Definition get_endpoint_metrics (endpoint : string) (method : HTTPMethod)
    (self : t) : option EndpointMetrics.t :=
  Py.get (endpoint_key method endpoint) (endpoints self).

(** The monitor after a series of calls, each with the instant it read. *)
Definition record_all (calls : list (Q * RequestEvent.t)) (self : t) : t :=
  fold_left (fun monitor call => fst (record_request (fst call) (snd call) monitor))
            calls self.

(** What every entry of [endpoints] satisfies once requests were
    recorded. *)
Definition consistent (key : string) (metrics : EndpointMetrics.t) : Prop :=
  key = endpoint_key (EndpointMetrics.method metrics)
                     (EndpointMetrics.endpoint metrics)
  /\ (1 <= EndpointMetrics.total_requests metrics)%Z
  /\ (0 <= EndpointMetrics.successful_requests metrics)%Z
  /\ (0 <= EndpointMetrics.failed_requests metrics)%Z
  /\ EndpointMetrics.total_requests metrics
     = (EndpointMetrics.successful_requests metrics
        + EndpointMetrics.failed_requests metrics)%Z
  /\ Z.of_nat (List.length (EndpointMetrics.response_times metrics))
     = EndpointMetrics.total_requests metrics
  /\ fold_right Z.add 0%Z (map snd (EndpointMetrics.status_codes metrics))
     = EndpointMetrics.total_requests metrics
  /\ EndpointMetrics.first_accessed metrics <> None
  /\ EndpointMetrics.last_accessed metrics <> None.

(** What [update_metrics] needs of the metrics it starts from; new
    metrics and consistent ones both have it. *)
Definition countable (metrics : EndpointMetrics.t) : Prop :=
  (0 <= EndpointMetrics.successful_requests metrics)%Z
  /\ (0 <= EndpointMetrics.failed_requests metrics)%Z
  /\ EndpointMetrics.total_requests metrics
     = (EndpointMetrics.successful_requests metrics
        + EndpointMetrics.failed_requests metrics)%Z
  /\ Z.of_nat (List.length (EndpointMetrics.response_times metrics))
     = EndpointMetrics.total_requests metrics
  /\ fold_right Z.add 0%Z (map snd (EndpointMetrics.status_codes metrics))
     = EndpointMetrics.total_requests metrics.

(** The invariant of the monitor. *)
Definition well_kept (monitor : t) : Prop :=
  Forall (fun kv => consistent (fst kv) (snd kv)) (endpoints monitor)
  /\ NoDup (map fst (endpoints monitor))
  /\ (Z.of_nat (List.length (request_history monitor)) <= 10000)%Z.

End EndpointMonitor.

(** [EventType], lines 42-53, with the [value] of each member. *)
Inductive EventType : Set :=
| CLICK | SCROLL | HOVER | KEYPRESS | FORM_SUBMIT | PAGE_VIEW
| FOCUS | BLUR | RESIZE | CUSTOM.

Definition EventType_value (e : EventType) : string :=
  match e with
  | CLICK => "click" | SCROLL => "scroll" | HOVER => "hover"
  | KEYPRESS => "keypress" | FORM_SUBMIT => "form_submit"
  | PAGE_VIEW => "page_view" | FOCUS => "focus" | BLUR => "blur"
  | RESIZE => "resize" | CUSTOM => "custom"
  end.

(** [UserEvent], lines 121-150. *)
Module UserEvent.

Record t : Type := mk {
  event_id : string;
  session_id : string;
  event_type : EventType;
  timestamp : Q;
  element_id : option string;
  element_class : option string;
  element_tag : option string;
  page_url : string;
  coordinates : option (Dict Z);
  value : option string;
  metadata : Dict PyValue
}.

End UserEvent.

(** [l[start:]] for a list [l] and an integer [start], negative ones
    counting from the end. *)
Definition slice_from {A : Type} (start : Z) (l : list A) : list A :=
  let n := Z.of_nat (List.length l) in
  let i := if (start <? 0)%Z then Z.max (start + n) 0 else Z.min start n in
  skipn (Z.to_nat i) l.

(** [UserBehaviorAnalyzer], lines 204-301. *)
Module UserBehaviorAnalyzer.

Record t : Type := mk {
  sessions : Dict (list UserEvent.t);
  idle_threshold_seconds : Z
}.

(** [__init__], lines 207-209. *)
Definition init : t := mk [] 30.

(** The line [add_event] logs at DEBUG level. *)
Record LogLine : Type := mkLogLine {
  log_event_type : string;
  log_session_id : string
}.

(** [add_event(event)], lines 211-214; [sessions] is a
    [defaultdict(list)], so a new session starts from the empty list. *)
Definition add_event (event : UserEvent.t) (self : t) : t * LogLine :=
  let session := UserEvent.session_id event in
  let events :=
    match Py.get session (sessions self) with
    | Some events => events
    | None => []
    end in
  (mk (PyDict.set session (events ++ [event]) (sessions self))
      (idle_threshold_seconds self),
   mkLogLine (EventType_value (UserEvent.event_type event)) session).

(** One step of [events.sort(key=lambda x: x.timestamp)]: the sort is
    stable, so an event goes before the later events of the same
    timestamp. *)
Fixpoint insert_by_time (event : UserEvent.t) (sorted : list UserEvent.t)
  : list UserEvent.t :=
  match sorted with
  | [] => [event]
  | next :: rest =>
      if Qle_bool (UserEvent.timestamp event) (UserEvent.timestamp next)
      then event :: next :: rest
      else next :: insert_by_time event rest
  end.

(** [events.sort(key=lambda x: x.timestamp)], line 219. *)
Definition sort_by_time (events : list UserEvent.t) : list UserEvent.t :=
  fold_right insert_by_time [] events.

(** [get_user_sequence(session_id, limit=None)], lines 216-223.  The
    list that is sorted is the stored one, so the result comes with the
    analyzer after the call. *)
Definition get_user_sequence (session_id : string) (limit : option Z)
    (self : t) : list UserEvent.t * t :=
  let stored := Py.get session_id (sessions self) in
  let events :=
    sort_by_time match stored with Some events => events | None => [] end in
  let self' :=
    match stored with
    | Some _ => mk (PyDict.set session_id events (sessions self))
                   (idle_threshold_seconds self)
    | None => self
    end in
  (match limit with
   | Some k => if (k =? 0)%Z then events else slice_from (- k) events
   | None => events
   end,
   self').

(** [(later - earlier).total_seconds()]: the difference of two
    instants, a whole number of microseconds, divided by [10**6] and
    rounded to the nearest float.  Instants are less than [10^12]
    seconds apart, so nothing overflows. *)
Definition total_seconds (later earlier : Q) : Q :=
  Binary64.nearest (later - earlier).

(** The idle periods of lines 234-245: start, end and duration of every
    gap between consecutive events that exceeds the threshold. *)
Fixpoint idle_periods (threshold : Z) (events : list UserEvent.t)
  : list (Q * Q * Q) :=
  match events with
  | [] => []
  | previous :: rest =>
      match rest with
      | [] => []
      | current :: _ =>
          let time_diff :=
            total_seconds (UserEvent.timestamp current)
                          (UserEvent.timestamp previous) in
          if gt time_diff (inject_Z threshold)
          then (UserEvent.timestamp previous, UserEvent.timestamp current,
                time_diff) :: idle_periods threshold rest
          else idle_periods threshold rest
      end
  end.

Definition duration (period : Q * Q * Q) : Q := snd period.

(** [total_idle_time += time_diff], line 245, for the idle periods in
    turn: float additions, the first one to the integer 0. *)
Definition running_total (durations : list Q) : Q :=
  fold_left (fun total time_diff => Binary64.nearest (total + time_diff))
            durations 0.

(** [max(xs)] of a non-empty list: the first maximal element. *)
Definition max_of (first : Q) (rest : list Q) : Q := fold_left Py.max rest first.

Section IdleTime.

(** [datetime.isoformat], the text of an instant. *)
Variable isoformat : Q -> string.

Definition period_dict (period : Q * Q * Q) : PyValue :=
  PyDict [ ("start"%string, PyStr (isoformat (fst (fst period))));
           ("end"%string, PyStr (isoformat (snd (fst period))));
           ("duration_seconds"%string, PyFloat (duration period)) ].

(** [calculate_idle_time(session_id)], lines 225-254. *)
Definition calculate_idle_time (session_id : string) (self : t)
  : Dict PyValue * t :=
  let (events, self') := get_user_sequence session_id None self in
  if (Z.of_nat (List.length events) <? 2)%Z
  then ([ ("total_idle_time"%string, PyInt 0);
          ("idle_periods"%string, PyList []);
          ("longest_idle"%string, PyInt 0) ],
        self')
  else
    let periods := idle_periods (idle_threshold_seconds self) events in
    ([ ("total_idle_time_seconds"%string,
        match periods with
        | [] => PyInt 0
        | _ :: _ => PyFloat (running_total (map duration periods))
        end);
       ("idle_periods"%string, PyList (map period_dict periods));
       ("longest_idle_seconds"%string,
        match periods with
        | [] => PyInt 0
        | first :: rest => PyFloat (max_of (duration first) (map duration rest))
        end);
       ("idle_threshold_seconds"%string, PyInt (idle_threshold_seconds self)) ],
     self').

End IdleTime.

(** Ascending timestamps. *)
Definition in_time_order (events : list UserEvent.t) : Prop :=
  StronglySorted
    (fun a b => UserEvent.timestamp a <= UserEvent.timestamp b) events.

Definition at_instant (instant : Q) (event : UserEvent.t) : bool :=
  Qeq_bool (UserEvent.timestamp event) instant.

End UserBehaviorAnalyzer.

(** The session duration of [get_session_behavior_analysis], lines
    595-597: from the first to the last event of the user sequence, and
    0 for an empty sequence. *)
Definition session_duration (user_sequence : list UserEvent.t) : Q :=
  match user_sequence with
  | [] => 0
  | first :: _ =>
      UserBehaviorAnalyzer.total_seconds
        (UserEvent.timestamp (last user_sequence first))
        (UserEvent.timestamp first)
  end.

(** An event for concrete evaluation. *)
Definition sample_event (event_id : string) (timestamp : Q) : UserEvent.t :=
  UserEvent.mk event_id "s-1" CLICK timestamp None None None "" None None [].

(** [get_engagement_recommendations(level)], lines 1009-1035; every
    level other than the first three takes the last branch. *)
Definition get_engagement_recommendations (level : string) : list string :=
  if String.eqb level "Muito Baixo" then
    [ "Revisar UX/UI da aplicação"; "Implementar tutoriais interativos";
      "Verificar se conteúdo é relevante"; "Considerar gamificação" ]%string
  else if String.eqb level "Baixo" then
    [ "Adicionar elementos interativos"; "Melhorar call-to-actions";
      "Personalizar experiência do usuário" ]%string
  else if String.eqb level "Médio" then
    [ "Otimizar fluxos principais"; "Adicionar notificações relevantes";
      "Implementar recursos de ajuda contextual" ]%string
  else
    [ "Manter qualidade atual"; "Considerar recursos avançados";
      "Coletar feedback para melhorias" ]%string.

(** The three factors of lines 856-858. *)
Definition activity_score (total_events : PyNum.t) : PyNum.t :=
  PyNum.min (PyNum.mul total_events (PyNum.Int 2)) (PyNum.Int 40).

Definition engagement_time_score (session_duration idle_time : PyNum.t)
  : PyNum.t :=
  PyNum.min
    (PyNum.mul (PyNum.truediv (PyNum.sub session_duration idle_time)
                              (PyNum.Int 60))
               (PyNum.Int 10))
    (PyNum.Int 30).

Definition interaction_score (click_frequency : PyNum.t) : PyNum.t :=
  PyNum.min (PyNum.mul click_frequency (PyNum.Int 5)) (PyNum.Int 30).

(** The level of lines 863-870. *)
Definition engagement_level (total_score : PyNum.t) : string :=
  if PyNum.ge total_score (PyNum.Int 80) then "Alto"
  else if PyNum.ge total_score (PyNum.Int 50) then "Médio"
  else if PyNum.ge total_score (PyNum.Int 25) then "Baixo"
  else "Muito Baixo".

(** [calculate_engagement_score(behavior_analysis)], lines 848-881. *)
Definition calculate_engagement_score (behavior_analysis : Dict PyValue)
  : Result (Dict PyValue) :=
  total_events <-- getitem (PyDict behavior_analysis) "total_events" ;;;
  session_duration <--
    getitem (PyDict behavior_analysis) "session_duration_seconds" ;;;
  idle_analysis <-- getitem (PyDict behavior_analysis) "idle_analysis" ;;;
  idle_time <-- getitem idle_analysis "total_idle_time_seconds" ;;;
  click_patterns <-- getitem (PyDict behavior_analysis) "click_patterns" ;;;
  click_frequency <-- getitem click_patterns "click_frequency_per_minute" ;;;
  total_events <-- number total_events ;;;
  let activity_score := activity_score total_events in
  session_duration <-- number session_duration ;;;
  idle_time <-- number idle_time ;;;
  let engagement_time_score :=
    engagement_time_score session_duration idle_time in
  click_frequency <-- number click_frequency ;;;
  let interaction_score := interaction_score click_frequency in
  let total_score :=
    PyNum.add (PyNum.add activity_score engagement_time_score)
              interaction_score in
  let level := engagement_level total_score in
  inr [ ("score"%string, PyNum.to_value (PyNum.round1 total_score));
        ("level"%string, PyStr level);
        ("factors"%string,
         PyDict
           [ ("activity_score"%string,
              PyNum.to_value (PyNum.round1 activity_score));
             ("engagement_time_score"%string,
              PyNum.to_value (PyNum.round1 engagement_time_score));
             ("interaction_score"%string,
              PyNum.to_value (PyNum.round1 interaction_score)) ]);
        ("recommendations"%string,
         PyList (map PyStr (get_engagement_recommendations level))) ].

(** The speed score of lines 900-909. *)
Definition speed_score (avg_response_time : PyNum.t) : PyNum.t :=
  if PyNum.le avg_response_time (PyNum.Int 100) then PyNum.Int 40
  else if PyNum.le avg_response_time (PyNum.Int 300) then PyNum.Int 30
  else if PyNum.le avg_response_time (PyNum.Int 500) then PyNum.Int 20
  else if PyNum.le avg_response_time (PyNum.Int 1000) then PyNum.Int 10
  else PyNum.Int 0.

(** The handlers of [SessionBehaviorSDK], lines 423-443: a
    [defaultdict(list)] from event types to lists of callables. *)
Module EventHandlers.

Section Handlers.

(** The callables registered as handlers. *)
Variable Handler : Type.

Definition t : Type := list (EventType * list Handler).

Definition eqb (a b : EventType) : bool :=
  String.eqb (EventType_value a) (EventType_value b).

Fixpoint get (event_type : EventType) (handlers : t) : option (list Handler) :=
  match handlers with
  | [] => None
  | (k, v) :: rest => if eqb event_type k then Some v else get event_type rest
  end.

(** [self.event_handlers[event_type]]: a missing key is created with
    the empty list. *)
Definition subscript (event_type : EventType) (handlers : t)
  : list Handler * t :=
  match get event_type handlers with
  | Some registered => (registered, handlers)
  | None => ([], handlers ++ [(event_type, [])])
  end.

(** [register_event_handler(event_type, handler)], lines 431-434.  The
    list that the subscript returns has no attribute [Fappend], so
    line 433 raises and line 434 is not reached. *)
Definition register_event_handler (event_type : EventType) (handler : Handler)
    (handlers : t) : Result unit * t :=
  let (_, handlers') := subscript event_type handlers in
  (inl AttributeError, handlers').

(** The handlers [trigger_event_handlers] would call for an event
    type, line 438. *)
Definition registered (event_type : EventType) (handlers : t) : list Handler :=
  fst (subscript event_type handlers).

End Handlers.

End EventHandlers.

(** A request for concrete evaluation. *)
Definition sample_request (endpoint : string) (status_code : Z)
    (response_time_ms : Q) : RequestEvent.t :=
  RequestEvent.mk "r-1" "s-1" endpoint GET status_code response_time_ms
                  0 0 0 "" "" [] [] None.

End SessionBehavior.

(** * The real-time monitor: [EOT/storage_adapter.py] *)

Module StorageAdapter.

(** [_calculate_activity_level(events_per_minute)], lines 344-361.  The
    rates are floats and [sum] adds them as floats. *)
Definition _calculate_activity_level
    (events_per_minute : Dict Binary64.float) : string :=
  match events_per_minute with
  | [] => "Nenhuma"
  | _ :: _ =>
      let total_epm := Binary64.sum (map snd events_per_minute) in
      if Binary64.gt total_epm (Binary64.Finite 100) then "Muito Alta"
      else if Binary64.gt total_epm (Binary64.Finite 50) then "Alta"
      else if Binary64.gt total_epm (Binary64.Finite 10) then "Média"
      else if Binary64.gt total_epm (Binary64.Finite 0) then "Baixa"
      else "Nenhuma"
  end.


End StorageAdapter.

(** * The login tracker: [EDR/EOT/new/DataCollection.py] *)

Module DataCollection.

(** The two counters of the tracker, lines 4-6. *)
Record Rastreador_de_Sessão_e_Autenticação : Type := mk {
  login_attempts_by_ip : Dict Z;
  login_attempts_by_user : Dict Z
}.

(** [__init__], lines 4-12. *)
Definition init : Rastreador_de_Sessão_e_Autenticação := mk [] [].

(** What [record_login_attempt] logs: an INFO line for a success, a
    WARNING line with both counters and the reason for a failure. *)
Inductive LogLine : Type :=
| AuthenticationSuccess (user_id ip_address login_method : string)
| AuthenticationFailure (user_id ip_address login_method : string)
                        (user_attempts ip_attempts : Z) (reason : string).

(** [d[key]] for a key that is present. *)
Definition counter (key : string) (d : Dict Z) : Z :=
  match Py.get key d with Some n => n | None => 0%Z end.

(** [if key not in d: d[key] = 0] *)
Definition ensure (key : string) (d : Dict Z) : Dict Z :=
  if PyDict.mem key d then d else PyDict.set key 0%Z d.

(** [record_login_attempt(user_id, ip_address, success, login_method,
    failure_reason=None)], lines 23-43. *)
Definition record_login_attempt (user_id ip_address : string) (success : bool)
    (login_method : string) (failure_reason : option string)
    (self : Rastreador_de_Sessão_e_Autenticação)
  : Rastreador_de_Sessão_e_Autenticação * LogLine :=
  let by_ip := ensure ip_address (login_attempts_by_ip self) in
  let by_user := ensure user_id (login_attempts_by_user self) in
  if success then
    (mk (PyDict.set ip_address 0%Z by_ip) (PyDict.set user_id 0%Z by_user),
     AuthenticationSuccess user_id ip_address login_method)
  else
    let by_ip := PyDict.set ip_address (counter ip_address by_ip + 1)%Z by_ip in
    let by_user := PyDict.set user_id (counter user_id by_user + 1)%Z by_user in
    (mk by_ip by_user,
     AuthenticationFailure user_id ip_address login_method
       (counter user_id by_user) (counter ip_address by_ip)
       match failure_reason with
       | Some (String c reason) => String c reason
       | _ => "Unknown"
       end).

(** A login attempt: user, address and outcome. *)
Definition Attempt : Type := (string * string * bool)%type.

(** The tracker after a series of attempts. *)
Definition record_all (attempts : list Attempt)
    (self : Rastreador_de_Sessão_e_Autenticação)
  : Rastreador_de_Sessão_e_Autenticação :=
  fold_left
    (fun tracker attempt =>
       fst (record_login_attempt (fst (fst attempt)) (snd (fst attempt))
                                 (snd attempt) "password" None tracker))
    attempts self.

(** The failures of [key] since its last success, [key] being picked
    from an attempt by [select]. *)
Definition failures_in_a_row (select : Attempt -> string) (key : string)
    (attempts : list Attempt) : Z :=
  fold_left
    (fun n attempt =>
       if String.eqb (select attempt) key
       then (if snd attempt then 0 else n + 1)%Z
       else n)
    attempts 0%Z.

End DataCollection.

(** * Geolocation and authentication history: [EOT/ip_location.py] *)

Module IPLocation.

(** [AuthMethod] and [AuthResult], lines 33-47. *)
Inductive AuthMethod : Set := PASSWORD | MFA | SSO | BIOMETRIC | TOKEN.

Inductive AuthResult : Set := SUCCESS | FAILED | BLOCKED | EXPIRED.

Definition is_failed (result : AuthResult) : bool :=
  match result with FAILED => true | _ => false end.

(** [GeoLocationData], lines 50-86. *)
Record GeoLocationData : Type := mkGeoLocationData {
  ip : string;
  country : string;
  country_code : string;
  city : string;
  region : string;
  latitude : Q;
  longitude : Q;
  timezone : string;
  isp : string;
  organization : string;
  is_proxy : bool;
  is_vpn : bool;
  threat_level : string;
  geo_timestamp : Q
}.

(** [GeoLocationProviderInterface], lines 155-171, as one call sees a
    provider: its name, what [is_available()] answers and what
    [get_location(ip)] answers, [None] standing for an exception in
    either.  [get_location] may also return [None]. *)
Record Provider : Type := mkProvider {
  get_provider_name : string;
  is_available : option bool;
  get_location : string -> option (option GeoLocationData)
}.

(** [MockGeoProvider], lines 286-309; [now] is the instant at which
    [GeoLocationData()] is built. *)
Definition MockGeoProvider (now : Q) : Provider :=
  mkProvider "Mock Provider" (Some true)
    (fun ip_address =>
       Some (Some (mkGeoLocationData
                     ip_address "Brazil" "BR" "São Paulo" "SP"
                     (-(235505 # 10000)) (-(466333 # 10000))
                     "America/Sao_Paulo" "Mock ISP" "" false false "low" now))).

(** The lines [get_ip_location] logs. *)
Inductive LogLine : Type :=
| NoProviderConfigured
| LocationObtained (provider : string)
| ProviderUnavailable (provider : string)
| ProviderError (provider : string)
| AllProvidersFailed (ip_address : string).

(** One turn of the loop of lines 356-370: the location the provider
    gives, if it is available, answers and names a country. *)
Definition ask (provider : Provider) (ip_address : string)
  : option GeoLocationData * list LogLine :=
  match is_available provider with
  | None => (None, [ProviderError (get_provider_name provider)])
  | Some false => (None, [ProviderUnavailable (get_provider_name provider)])
  | Some true =>
      match get_location provider ip_address with
      | None => (None, [ProviderError (get_provider_name provider)])
      | Some None => (None, [])
      | Some (Some location_data) =>
          match country location_data with
          | EmptyString => (None, [])
          | String _ _ =>
              (Some location_data,
               [LocationObtained (get_provider_name provider)])
          end
      end
  end.

(** The loop of lines 356-370 and the lines after it. *)
Fixpoint ask_in_turn (providers : list Provider) (ip_address : string)
    (retry_on_failure : bool) : option GeoLocationData * list LogLine :=
  match providers with
  | [] => (None, [AllProvidersFailed ip_address])
  | provider :: rest =>
      match ask provider ip_address with
      | (Some location_data, lines) => (Some location_data, lines)
      | (None, lines) =>
          if retry_on_failure
          then let (found, more) := ask_in_turn rest ip_address true in
               (found, lines ++ more)
          else (None, lines ++ [AllProvidersFailed ip_address])
      end
  end.

(** [get_ip_location(ip_address, retry_on_failure=True)], lines
    339-372, on the list of providers of the SDK. *)
Definition get_ip_location (providers : list Provider) (ip_address : string)
    (retry_on_failure : bool) : option GeoLocationData * list LogLine :=
  match providers with
  | [] => (None, [NoProviderConfigured])
  | _ :: _ => ask_in_turn providers ip_address retry_on_failure
  end.

(** A provider succeeds when it is available and returns a location
    that names a country. *)
Definition succeeds (provider : Provider) (ip_address : string) : bool :=
  match fst (ask provider ip_address) with Some _ => true | None => false end.

(** [AuthenticationData], lines 136-151. *)
Record AuthenticationData : Type := mkAuthenticationData {
  user_id : option string;
  username : option string;
  auth_method : AuthMethod;
  auth_result : AuthResult;
  failure_reason : option string;
  consecutive_failures : Z;
  last_success : option Q;
  last_failure : option Q;
  ip_address : string;
  timestamp : Q;
  session_id : option string
}.

Definition with_consecutive_failures (n : Z) (a : AuthenticationData)
  : AuthenticationData :=
  mkAuthenticationData (user_id a) (username a) (auth_method a) (auth_result a)
    (failure_reason a) n (last_success a) (last_failure a) (ip_address a)
    (timestamp a) (session_id a).

(** [auth_data.username or auth_data.ip_address], line 398. *)
Definition user_key (auth_data : AuthenticationData) : string :=
  match username auth_data with
  | Some (String c name) => String c name
  | _ => ip_address auth_data
  end.

(** The history holds the very objects the callers passed, not copies:
    an attempt is a reference, and the objects live in a store that
    [record_auth_attempt] updates in place. *)
Definition Ref : Set := nat.

Definition Store : Type := Ref -> AuthenticationData.

Definition store_set (r : Ref) (a : AuthenticationData) (objects : Store)
  : Store :=
  fun r' => if Nat.eqb r' r then a else objects r'.

(** The attempts of the last hour, lines 405-406.  The condition of the
    comprehension reads the clock once per attempt; [clock k] is the
    instant of the read number [k]. *)
Fixpoint recent_attempts (clock : nat -> Q) (k : nat) (objects : Store)
    (attempts : list Ref) : list Ref :=
  match attempts with
  | [] => []
  | a :: rest =>
      if SessionBehavior.gt (timestamp (objects a)) (clock k - 3600)
      then a :: recent_attempts clock (S k) objects rest
      else recent_attempts clock (S k) objects rest
  end.

Definition failed_among (objects : Store) (attempts : list Ref) : Z :=
  Z.of_nat
    (List.length
       (filter (fun a => is_failed (auth_result (objects a))) attempts)).

(** [record_auth_attempt(auth_data)], lines 396-416, on the objects and
    on the [auth_attempts] of the SDK: the count is written into the
    caller's object (lines 409 and 411), and that object is appended
    to the history of its key (line 413). *)
Definition record_auth_attempt (clock : nat -> Q) (auth_data : Ref)
    (objects : Store) (auth_attempts : Dict (list Ref))
  : Store * Dict (list Ref) :=
  let key := user_key (objects auth_data) in
  let history :=
    match Py.get key auth_attempts with
    | Some history => history
    | None => []
    end in
  let consecutive_failures :=
    if is_failed (auth_result (objects auth_data))
    then (failed_among objects (recent_attempts clock 0 objects history) + 1)%Z
    else 0%Z in
  (store_set auth_data
     (with_consecutive_failures consecutive_failures (objects auth_data))
     objects,
   PyDict.set key (history ++ [auth_data]) auth_attempts).

(** The [consecutive_failures] the entries of a history show. *)
Definition counts_shown (objects : Store) (history : list Ref) : list Z :=
  map (fun r => consecutive_failures (objects r)) history.

(** An attempt for concrete evaluation. *)
Definition sample_attempt (name : string) (result : AuthResult) (at_time : Q)
  : AuthenticationData :=
  mkAuthenticationData None (Some name) PASSWORD result None 0 None None
                       "10.0.0.1" at_time None.

End IPLocation.

(* END OF DEFINITIONS *)

Example calibrate_zero : _calibrate_score 0 1 = 50%Z.
Proof. reflexivity. Qed.

(** Where the digits matter: [0.09 + 1.0] is a float just above 1.09,
    so the code scales to a float above 54.5 and returns 55, while the
    exact value 54.5 is a tie that goes to 54. *)
Example calibrate_in_floats :
  Binary64._calibrate_score (Binary64.of_Q (9 # 100)) (Binary64.Finite 1)
  = inr 55%Z
  /\ _calibrate_score (9 # 100) 1 = 54%Z.
Proof. vm_compute. split; reflexivity. Qed.

(** Three rates whose exact sum is 50 add up to 50.00000000000001 as
    floats, which is above 50. *)
Example activity_level_of_float_sum :
  StorageAdapter._calculate_activity_level
    [ ("mouse"%string, Binary64.of_Q (2587 # 100));
      ("key"%string, Binary64.of_Q (1514 # 100));
      ("scroll"%string, Binary64.of_Q (899 # 100)) ]
  = "Alta"%string.
Proof. vm_compute. reflexivity. Qed.

Example round_ties :
  map Py.round [1 # 2; 3 # 2; 5 # 2; -(1 # 2); -(3 # 2); 101 # 2; 7 # 3]
  = [0; 2; 2; 0; -2; 50; 2]%Z.
Proof. reflexivity. Qed.

Example sample_run :
  result_of Sample.imports (Sample.payload (1 # 2) true)
            (Some [("face_match"%string, 1000)]) Sample.quiet
  = mkScoreResult 100 LEGITIMO ALLOW
      [ mkReasonCode "REVOKED_CREDENTIAL" (-(999));
        mkReasonCode "face_match" ((1 # 2) * 1000) ]
      [ ("model_version"%string, PyStr "v0.1.0");
        ("hard_rule_fired"%string, PyBool true);
        ("context"%string, PyDict []) ].
Proof. vm_compute. reflexivity. Qed.

(** * Properties *)

(** ** Python builtins *)

Section Builtins.

Lemma Qle_bool_false (a b : Q) : Qle_bool a b = false -> b < a.
Proof.
  intros H. apply Qnot_le_lt. intros Hle.
  apply Qle_bool_iff in Hle. congruence.
Qed.

Lemma max_cases (a b : Q) :
  (b <= a /\ Py.max a b = a) \/ (a < b /\ Py.max a b = b).
Proof.
  unfold Py.max. destruct (Qle_bool b a) eqn:E.
  - left. split; [now apply Qle_bool_iff | reflexivity].
  - right. split; [now apply Qle_bool_false | reflexivity].
Qed.

Lemma min_cases (a b : Q) :
  (a <= b /\ Py.min a b = a) \/ (b < a /\ Py.min a b = b).
Proof.
  unfold Py.min. destruct (Qle_bool a b) eqn:E.
  - left. split; [now apply Qle_bool_iff | reflexivity].
  - right. split; [now apply Qle_bool_false | reflexivity].
Qed.

(** The two integers between which [x + 1/2] lies. *)
Lemma round_floor (x : Q) :
  inject_Z (Qfloor (x + (1 # 2))) <= x + (1 # 2)
  /\ x + (1 # 2) < inject_Z (Qfloor (x + (1 # 2))) + 1.
Proof.
  split; [apply Qfloor_le |].
  pose proof (Qlt_floor (x + (1 # 2))) as H.
  rewrite inject_Z_plus in H. exact H.
Qed.

Lemma round_cases (x : Q) :
  let k := Qfloor (x + (1 # 2)) in
  (Py.round x = (k - 1)%Z /\ x + (1 # 2) == inject_Z k /\ Z.odd k = true)
  \/ (Py.round x = k /\ ~ (x + (1 # 2) == inject_Z k /\ Z.odd k = true)).
Proof.
  intros k. unfold Py.round. fold k.
  destruct (Qeq_bool (x + (1 # 2)) (inject_Z k)) eqn:E; simpl.
  - apply Qeq_bool_iff in E. destruct (Z.odd k) eqn:O.
    + left. auto.
    + right. split; [reflexivity | intros [_ H]; discriminate].
  - right. split; [reflexivity |].
    intros [H _]. apply Qeq_bool_iff in H. congruence.
Qed.


Lemma round_compat (x y : Q) : x == y -> Py.round x = Py.round y.
Proof.
  intros H. unfold Py.round.
  assert (Hf : Qfloor (x + (1 # 2)) = Qfloor (y + (1 # 2)))
    by (apply Qfloor_comp; rewrite H; reflexivity).
  rewrite Hf.
  assert (Hb : Qeq_bool (x + (1 # 2)) (inject_Z (Qfloor (y + (1 # 2))))
               = Qeq_bool (y + (1 # 2)) (inject_Z (Qfloor (y + (1 # 2))))).
  { destruct (Qeq_bool (y + (1 # 2)) _) eqn:E.
    - apply Qeq_bool_iff. apply Qeq_bool_iff in E. rewrite H. exact E.
    - destruct (Qeq_bool (x + (1 # 2)) _) eqn:E'; [| reflexivity].
      apply Qeq_bool_iff in E'. rewrite H in E'.
      apply Qeq_bool_iff in E'. congruence. }
  rewrite Hb. reflexivity.
Qed.

Lemma round_monotone (x y : Q) : x <= y -> (Py.round x <= Py.round y)%Z.
Proof.
  intros Hxy.
  assert (Hk : (Qfloor (x + (1 # 2)) <= Qfloor (y + (1 # 2)))%Z)
    by (apply Qfloor_resp_le; lra).
  destruct (round_floor x) as [Hxlo Hxhi].
  destruct (round_floor y) as [Hylo Hyhi].
  destruct (round_cases x) as [[-> [Hx Ox]] | [-> Nx]];
    destruct (round_cases y) as [[-> [Hy Oy]] | [-> Ny]]; try lia.
  destruct (Z.eq_dec (Qfloor (x + (1 # 2))) (Qfloor (y + (1 # 2)))) as [E | E];
    [| lia].
  exfalso. apply Nx. rewrite E. split; [| exact Oy].
  rewrite E in Hxlo. lra.
Qed.

Lemma round_integer (n : Z) : Py.round (inject_Z n) = n.
Proof.
  assert (Hf : Qfloor (inject_Z n + (1 # 2)) = n).
  { apply Z.le_antisymm.
    - apply Z.lt_succ_r. rewrite Zlt_Qlt.
      eapply Qle_lt_trans; [apply Qfloor_le |].
      unfold Z.succ. rewrite inject_Z_plus. change (inject_Z 1) with 1. lra.
    - rewrite <- (Qfloor_Z n) at 1. apply Qfloor_resp_le. lra. }
  unfold Py.round. rewrite Hf.
  destruct (Qeq_bool (inject_Z n + (1 # 2)) (inject_Z n)) eqn:E; [| reflexivity].
  apply Qeq_bool_iff in E. lra.
Qed.

Lemma sum_from (xs : list Q) (a : Q) :
  fold_left Qplus xs a == a + Py.sum xs.
Proof.
  unfold Py.sum. revert a.
  induction xs as [| x xs IH]; intros a; simpl.
  - lra.
  - rewrite (IH (a + x)), (IH (0 + x)). lra.
Qed.

Lemma sum_cons (x : Q) (xs : list Q) : Py.sum (x :: xs) == x + Py.sum xs.
Proof.
  unfold Py.sum at 1. simpl. rewrite sum_from. lra.
Qed.

Lemma sum_app (xs ys : list Q) : Py.sum (xs ++ ys) == Py.sum xs + Py.sum ys.
Proof.
  induction xs as [| x xs IH]; simpl.
  - unfold Py.sum at 2. simpl. lra.
  - rewrite !sum_cons, IH. lra.
Qed.

End Builtins.

(** ** Rounding half to even *)

Section RoundHalfEven.

(** [Py.round x] is within one half of [x], and at a tie it is even. *)
Lemma round_spec (x : Q) :
  -(1 # 2) <= inject_Z (Py.round x) - x <= 1 # 2
  /\ (inject_Z (Py.round x) - x == 1 # 2 \/ inject_Z (Py.round x) - x == -(1 # 2) ->
      Z.even (Py.round x) = true).
Proof.
  destruct (round_floor x) as [Hlo Hhi].
  destruct (round_cases x) as [[-> [Heq Hodd]] | [-> Hno]].
  - unfold Z.sub. rewrite inject_Z_plus. change (inject_Z (- (1))) with (-(1)).
    split; [split; lra |]. intros _.
    rewrite Z.even_add, <- Z.negb_odd, Hodd. reflexivity.
  - split; [split; lra |]. intros [H | H]; [| lra].
    rewrite <- Z.negb_odd.
    destruct (Z.odd (Qfloor (x + (1 # 2)))) eqn:O; [| reflexivity].
    exfalso. apply Hno. split; [lra | reflexivity].
Qed.

(** The integer with these two properties is unique. *)
Lemma round_unique (x : Q) (r : Z) :
  -(1 # 2) <= inject_Z r - x <= 1 # 2 ->
  (inject_Z r - x == 1 # 2 \/ inject_Z r - x == -(1 # 2) -> Z.even r = true) ->
  Py.round x = r.
Proof.
  intros Hr Er.
  destruct (round_spec x) as [H0 E0].
  set (r0 := Py.round x) in *.
  assert (Hle : (r0 <= r + 1)%Z).
  { rewrite Zle_Qle, inject_Z_plus. change (inject_Z 1) with 1. lra. }
  assert (Hge : (r <= r0 + 1)%Z).
  { rewrite Zle_Qle, inject_Z_plus. change (inject_Z 1) with 1. lra. }
  destruct (Z.eq_dec r0 r) as [E | NE]; [exact E | exfalso].
  assert (Hcase : (r0 = r + 1 \/ r = r0 + 1)%Z) by lia.
  destruct Hcase as [E | E].
  - assert (Hq : inject_Z r0 == inject_Z r + 1)
      by (rewrite E, inject_Z_plus; reflexivity).
    assert (Ev0 : Z.even r0 = true) by (apply E0; left; lra).
    assert (Ev : Z.even r = true) by (apply Er; right; lra).
    rewrite E, Z.even_add, Ev in Ev0. discriminate.
  - assert (Hq : inject_Z r == inject_Z r0 + 1)
      by (rewrite E, inject_Z_plus; reflexivity).
    assert (Ev0 : Z.even r0 = true) by (apply E0; right; lra).
    assert (Ev : Z.even r = true) by (apply Er; left; lra).
    rewrite E, Z.even_add, Ev0 in Ev. discriminate.
Qed.

(** Reflection about an even integer commutes with rounding. *)
Lemma round_reflect (n : Z) (x : Q) :
  Z.even n = true -> Py.round (inject_Z n - x) = (n - Py.round x)%Z.
Proof.
  intros Hn. destruct (round_spec x) as [H0 E0].
  apply round_unique.
  - unfold Z.sub. rewrite inject_Z_plus, inject_Z_opp. lra.
  - unfold Z.sub. rewrite inject_Z_plus, inject_Z_opp. intros H.
    rewrite Z.even_add, Z.even_opp, Hn, E0; [reflexivity |].
    destruct H; [right | left]; lra.
Qed.

End RoundHalfEven.

(** ** Binary64 rounding *)

Section PowersOfTwo.

Import Binary64.

Lemma pow2_pos (e : Z) : 0 < pow2 e.
Proof. apply Qpower_0_lt. reflexivity. Qed.

Lemma pow2_add (a b : Z) : pow2 (a + b) == pow2 a * pow2 b.
Proof. apply Qpower_plus. discriminate. Qed.

Lemma pow2_le (a b : Z) : (a <= b)%Z -> pow2 a <= pow2 b.
Proof. intros H. apply Qpower_le_compat_l; [exact H | discriminate]. Qed.

Lemma pow2_lt (a b : Z) : (a < b)%Z -> pow2 a < pow2 b.
Proof. intros H. apply Qpower_lt_compat_l; [exact H | reflexivity]. Qed.

Lemma pow2_lt_inv (a b : Z) : pow2 a < pow2 b -> (a < b)%Z.
Proof. intros H. apply (Qpower_lt_compat_l_inv 2); [exact H | reflexivity]. Qed.

Lemma pow2_Z (e : Z) : (0 <= e)%Z -> pow2 e == inject_Z (2 ^ e).
Proof. intros H. unfold pow2. rewrite Zpower_Qpower by exact H. reflexivity. Qed.

Lemma pow2_succ (e : Z) : pow2 (e + 1) == 2 * pow2 e.
Proof. rewrite pow2_add. change (pow2 1) with 2. ring. Qed.

Lemma scale_le (x y : Q) (e : Z) : x <= y -> x / pow2 e <= y / pow2 e.
Proof.
  intros H. pose proof (pow2_pos e) as He.
  unfold Qdiv. apply Qmult_le_compat_r; [exact H |].
  apply Qlt_le_weak, Qinv_lt_0_compat, He.
Qed.

Lemma unscale_le (x y : Q) (e : Z) : x <= y -> x * pow2 e <= y * pow2 e.
Proof.
  intros H. apply Qmult_le_compat_r; [exact H |].
  apply Qlt_le_weak, pow2_pos.
Qed.

(** The position of the leading bit. *)
Lemma ilog2_spec (x : Q) :
  0 < x -> pow2 (ilog2 x) <= x /\ x < pow2 (ilog2 x + 1).
Proof.
  intros Hx. destruct x as [n d].
  assert (Hn : (0 < n)%Z) by (unfold Qlt in Hx; simpl in Hx; lia).
  unfold ilog2. cbn [Qnum Qden].
  set (a := Z.log2 n). set (b := Z.log2 (Zpos d)).
  assert (Ha : (0 <= a)%Z) by apply Z.log2_nonneg.
  assert (Hb : (0 <= b)%Z) by apply Z.log2_nonneg.
  destruct (Z.log2_spec n Hn) as [Ha1 Ha2]. fold a in Ha1, Ha2.
  destruct (Z.log2_spec (Zpos d) eq_refl) as [Hb1 Hb2]. fold b in Hb1, Hb2.
  assert (Ea : pow2 a <= inject_Z n)
    by (rewrite pow2_Z by exact Ha; rewrite <- Zle_Qle; exact Ha1).
  assert (Ea' : inject_Z n < pow2 (a + 1))
    by (rewrite pow2_Z by lia; rewrite <- Zlt_Qlt;
        replace (a + 1)%Z with (Z.succ a) by lia; exact Ha2).
  assert (Eb : pow2 b <= inject_Z (Zpos d))
    by (rewrite pow2_Z by exact Hb; rewrite <- Zle_Qle; exact Hb1).
  assert (Eb' : inject_Z (Zpos d) < pow2 (b + 1))
    by (rewrite pow2_Z by lia; rewrite <- Zlt_Qlt;
        replace (b + 1)%Z with (Z.succ b) by lia; exact Hb2).
  assert (Ex : (n # d) * inject_Z (Zpos d) == inject_Z n).
  { rewrite (Qmake_Qdiv n d). field. discriminate. }
  set (x := n # d) in *. set (D := inject_Z (Zpos d)) in *.
  set (N := inject_Z n) in *.
  assert (HD : 0 < D) by reflexivity.
  pose proof (pow2_pos b) as Pb. pose proof (pow2_pos (a - b)) as Pk.
  pose proof (pow2_pos (a - b - 1)) as Pk1.
  assert (Ek : pow2 a == pow2 (a - b) * pow2 b)
    by (rewrite <- pow2_add; replace (a - b + b)%Z with a by ring; reflexivity).
  assert (Ek1 : pow2 (a + 1) == pow2 (a - b + 1) * pow2 b)
    by (rewrite <- pow2_add; replace (a - b + 1 + b)%Z with (a + 1)%Z by ring;
        reflexivity).
  assert (Ek2 : pow2 a == pow2 (a - b - 1) * pow2 (b + 1))
    by (rewrite <- pow2_add; replace (a - b - 1 + (b + 1))%Z with a by ring;
        reflexivity).
  assert (Hup : x < pow2 (a - b + 1)).
  { pose proof (pow2_pos (a - b + 1)) as P.
    apply Qnot_le_lt. intros Hc.
    assert (pow2 (a - b + 1) * pow2 b <= x * D) by nra. lra. }
  assert (Hlo : pow2 (a - b - 1) < x).
  { apply Qnot_le_lt. intros Hc.
    assert (x * D < pow2 (a - b - 1) * pow2 (b + 1)) by nra. lra. }
  destruct (Qle_bool (pow2 (a - b)) x) eqn:E.
  - apply Qle_bool_iff in E. split; assumption.
  - apply Qle_bool_false in E.
    replace (a - b - 1 + 1)%Z with (a - b)%Z by ring.
    split; [apply Qlt_le_weak; exact Hlo | exact E].
Qed.

Lemma ilog2_unique (x : Q) (k : Z) :
  pow2 k <= x -> x < pow2 (k + 1) -> ilog2 x = k.
Proof.
  intros Hlo Hhi.
  assert (Hx : 0 < x) by (pose proof (pow2_pos k); lra).
  destruct (ilog2_spec x Hx) as [Hlo' Hhi'].
  assert (H1 : (ilog2 x < k + 1)%Z) by (apply pow2_lt_inv; lra).
  assert (H2 : (k < ilog2 x + 1)%Z) by (apply pow2_lt_inv; lra).
  lia.
Qed.

Lemma ilog2_monotone (x y : Q) : 0 < x -> x <= y -> (ilog2 x <= ilog2 y)%Z.
Proof.
  intros Hx Hxy.
  destruct (ilog2_spec x Hx) as [Hlo _].
  destruct (ilog2_spec y) as [_ Hhi]; [lra |].
  assert (H : (ilog2 x < ilog2 y + 1)%Z) by (apply pow2_lt_inv; lra).
  lia.
Qed.

Lemma ilog2_compat (x y : Q) : 0 < x -> x == y -> ilog2 x = ilog2 y.
Proof.
  intros Hx E. destruct (ilog2_spec x Hx) as [Hlo Hhi].
  symmetry. apply ilog2_unique; rewrite <- E; assumption.
Qed.

End PowersOfTwo.

Section Rounding.

Import Binary64.

(** Rounding to the multiples of [2^e]. *)
Local Abbreviation grid e x := (inject_Z (Py.round (x / pow2 e)) * pow2 e).

Lemma nearest_zero (x : Q) : x == 0 -> nearest x = 0.
Proof.
  intros H. unfold nearest.
  destruct (Qeq_bool x 0) eqn:E; [reflexivity |].
  apply Qeq_bool_iff in H. congruence.
Qed.

Lemma nearest_grid (x : Q) : ~ x == 0 -> nearest x == grid (quantum x) x.
Proof.
  intros H. unfold nearest.
  destruct (Qeq_bool x 0) eqn:E.
  - apply Qeq_bool_iff in E. contradiction.
  - apply Qred_correct.
Qed.



Lemma round_opp (x : Q) : Py.round (- x) = (- Py.round x)%Z.
Proof.
  rewrite (round_compat (- x) (inject_Z 0 - x)) by (change (inject_Z 0) with 0; ring).
  rewrite round_reflect by reflexivity. lia.
Qed.

Lemma nearest_opp (x : Q) : nearest (- x) == - nearest x.
Proof.
  destruct (Qeq_dec x 0) as [Z | NZ].
  - rewrite (nearest_zero x Z), (nearest_zero (- x)) by (rewrite Z; reflexivity).
    reflexivity.
  - rewrite (nearest_grid x NZ), (nearest_grid (- x)) by lra.
    assert (E : quantum (- x) = quantum x).
    { unfold quantum. rewrite (ilog2_compat (Qabs (- x)) (Qabs x)).
      - reflexivity.
      - apply Qabs_case; intros; lra.
      - apply Qabs_opp. }
    rewrite E.
    rewrite (round_compat (- x / pow2 (quantum x)) (- (x / pow2 (quantum x)))).
    + rewrite round_opp, inject_Z_opp. ring.
    + pose proof (pow2_pos (quantum x)). field. lra.
Qed.

Lemma grid_monotone (e : Z) (x y : Q) : x <= y -> grid e x <= grid e y.
Proof.
  intros H. apply unscale_le. rewrite <- Zle_Qle.
  apply round_monotone, scale_le, H.
Qed.

Lemma grid_fixed (e m : Z) (x : Q) : x == inject_Z m * pow2 e -> grid e x == x.
Proof.
  intros E. pose proof (pow2_pos e) as P.
  rewrite (round_compat (x / pow2 e) (inject_Z m)) by (rewrite E; field; lra).
  rewrite round_integer. symmetry. exact E.
Qed.

(** A power of two on or above the grid is a grid point. *)
Lemma pow2_on_grid (e j : Z) :
  (e <= j)%Z -> pow2 j == inject_Z (2 ^ (j - e)) * pow2 e.
Proof.
  intros H. rewrite <- pow2_Z by lia. rewrite <- pow2_add.
  replace (j - e + e)%Z with j by ring. reflexivity.
Qed.

Lemma grid_lower (e j : Z) (x : Q) :
  (e <= j)%Z -> pow2 j <= x -> pow2 j <= grid e x.
Proof.
  intros He Hx.
  pose proof (grid_fixed e (2 ^ (j - e)) (pow2 j) (pow2_on_grid e j He)) as E.
  apply Qle_trans with (grid e (pow2 j)); [lra | apply grid_monotone, Hx].
Qed.

Lemma grid_upper (e j : Z) (x : Q) :
  (e <= j)%Z -> x <= pow2 j -> grid e x <= pow2 j.
Proof.
  intros He Hx.
  pose proof (grid_fixed e (2 ^ (j - e)) (pow2 j) (pow2_on_grid e j He)) as E.
  apply Qle_trans with (grid e (pow2 j)); [apply grid_monotone, Hx | lra].
Qed.

Lemma grid_nonneg (e : Z) (x : Q) : 0 <= x -> 0 <= grid e x.
Proof.
  intros H.
  assert (E : grid e 0 == 0).
  { apply (grid_fixed e 0). ring. }
  rewrite <- E. apply grid_monotone, H.
Qed.

Lemma nearest_nonneg (x : Q) : 0 <= x -> 0 <= nearest x.
Proof.
  intros H. destruct (Qeq_dec x 0) as [Z | NZ].
  - rewrite (nearest_zero x Z). lra.
  - rewrite (nearest_grid x NZ). apply grid_nonneg, H.
Qed.

Lemma quantum_pos (x : Q) :
  0 < x -> quantum x = Z.max (ilog2 x - 52) (-1074).
Proof.
  intros H. unfold quantum. rewrite (ilog2_compat (Qabs x) x).
  - reflexivity.
  - rewrite Qabs_pos; lra.
  - apply Qabs_pos. lra.
Qed.

Lemma nearest_monotone_pos (x y : Q) :
  0 < x -> x <= y -> nearest x <= nearest y.
Proof.
  intros Hx Hxy.
  assert (Hy : 0 < y) by lra.
  rewrite (nearest_grid x), (nearest_grid y) by lra.
  pose proof (ilog2_monotone x y Hx Hxy) as Hk.
  destruct (ilog2_spec x Hx) as [_ Hxhi].
  destruct (ilog2_spec y Hy) as [Hylo _].
  rewrite (quantum_pos x Hx), (quantum_pos y Hy).
  set (kx := ilog2 x) in *. set (ky := ilog2 y) in *.
  set (ex := Z.max (kx - 52) (-1074)). set (ey := Z.max (ky - 52) (-1074)).
  destruct (Z.eq_dec ex ey) as [E | NE].
  - rewrite E. apply grid_monotone, Hxy.
  - set (j := Z.max (kx + 1) ex).
    apply Qle_trans with (pow2 j).
    + apply grid_upper; [lia |].
      apply Qle_trans with (pow2 (kx + 1)); [lra | apply pow2_le; lia].
    + apply Qle_trans with (pow2 ky); [apply pow2_le; lia |].
      apply grid_lower; [lia | exact Hylo].
Qed.

(** Rounding is monotone. *)
Lemma nearest_monotone (x y : Q) : x <= y -> nearest x <= nearest y.
Proof.
  intros Hxy.
  destruct (Qlt_le_dec 0 x) as [Hx | Hx].
  - apply nearest_monotone_pos; assumption.
  - destruct (Qlt_le_dec y 0) as [Hy | Hy].
    + assert (H : nearest (- y) <= nearest (- x))
        by (apply nearest_monotone_pos; lra).
      rewrite !nearest_opp in H. lra.
    + apply Qle_trans with 0.
      * assert (H : 0 <= nearest (- x)) by (apply nearest_nonneg; lra).
        rewrite nearest_opp in H. lra.
      * apply nearest_nonneg, Hy.
Qed.

(** The multiples [m * 2^e] with [|m| <= 2^53] and [e >= -1074] are
    fixed by rounding. *)
Lemma nearest_fixed_pos (m e : Z) (x : Q) :
  (0 < m < 2 ^ 53)%Z -> (-1074 <= e)%Z -> x == inject_Z m * pow2 e ->
  nearest x == x.
Proof.
  intros Hm He E.
  pose proof (pow2_pos e) as P.
  assert (Hm1 : 1 <= inject_Z m) by (change 1 with (inject_Z 1); rewrite <- Zle_Qle; lia).
  assert (Hm2 : inject_Z m < pow2 53).
  { rewrite pow2_Z by lia. rewrite <- Zlt_Qlt. lia. }
  assert (Hx : 0 < x) by (rewrite E; nra).
  rewrite (nearest_grid x) by lra.
  assert (Hq : (quantum x <= e)%Z).
  { rewrite (quantum_pos x Hx).
    destruct (ilog2_spec x Hx) as [Hlo _].
    assert (Hlt : x < pow2 (53 + e)).
    { rewrite E, pow2_add. apply Qmult_lt_compat_r; assumption. }
    assert ((ilog2 x < 53 + e)%Z) by (apply pow2_lt_inv; lra).
    lia. }
  apply (grid_fixed (quantum x) (m * 2 ^ (e - quantum x))).
  transitivity (inject_Z m * pow2 e); [exact E |].
  rewrite inject_Z_mult, <- pow2_Z by lia.
  rewrite <- Qmult_assoc, <- pow2_add.
  replace (e - quantum x + quantum x)%Z with e by ring. reflexivity.
Qed.

Lemma nearest_fixed (m e : Z) (x : Q) :
  (Z.abs m <= 2 ^ 53)%Z -> (-1074 <= e)%Z -> x == inject_Z m * pow2 e ->
  nearest x == x.
Proof.
  assert (Hpos : forall m e x, (0 < m <= 2 ^ 53)%Z -> (-1074 <= e)%Z ->
                   x == inject_Z m * pow2 e -> nearest x == x).
  { clear. intros m e x Hm He E.
    destruct (Z.eq_dec m (2 ^ 53)) as [Em | Nm].
    - apply (nearest_fixed_pos (2 ^ 52) (e + 1)); [lia | lia |].
      rewrite E, Em, pow2_succ.
      change (inject_Z (2 ^ 53)) with (2 * inject_Z (2 ^ 52)). ring.
    - apply (nearest_fixed_pos m e); [lia | lia | exact E]. }
  intros Hm He E.
  destruct (Z.lt_trichotomy m 0) as [Neg | [Zero | Pos]].
  - assert (H : nearest (- x) == - x).
    { apply (Hpos (- m)%Z e); [lia | lia |].
      rewrite E, inject_Z_opp. ring. }
    rewrite nearest_opp in H. lra.
  - rewrite (nearest_zero x) by (rewrite E, Zero; ring).
    rewrite E, Zero. ring.
  - apply (Hpos m e); [lia | lia | exact E].
Qed.

(** Every rounded value is such a multiple. *)
Lemma nearest_on_grid (x : Q) :
  exists m e : Z,
    (Z.abs m <= 2 ^ 53)%Z /\ (-1074 <= e)%Z /\ nearest x == inject_Z m * pow2 e.
Proof.
  assert (Hpos : forall x, 0 < x -> exists m e : Z,
             (Z.abs m <= 2 ^ 53)%Z /\ (-1074 <= e)%Z
             /\ nearest x == inject_Z m * pow2 e).
  { clear. intros x Hx.
    exists (Py.round (x / pow2 (quantum x))), (quantum x).
    split; [| split; [unfold quantum; lia | apply nearest_grid; lra]].
    pose proof (pow2_pos (quantum x)) as P.
    destruct (ilog2_spec x Hx) as [_ Hhi].
    assert (H0 : (0 <= Py.round (x / pow2 (quantum x)))%Z).
    { rewrite <- (round_integer 0). apply round_monotone.
      change (inject_Z 0) with 0.
      apply Qlt_le_weak, Qlt_shift_div_l; lra. }
    assert (H1 : (Py.round (x / pow2 (quantum x)) <= 2 ^ 53)%Z).
    { rewrite <- (round_integer (2 ^ 53)). apply round_monotone.
      rewrite <- pow2_Z by lia.
      apply Qle_shift_div_r; [exact P |].
      rewrite <- pow2_add.
      apply Qle_trans with (pow2 (ilog2 x + 1)); [lra |].
      apply pow2_le. rewrite (quantum_pos x Hx). lia. }
    lia. }
  destruct (Q_dec x 0) as [[Neg | Pos] | Zero].
  - destruct (Hpos (- x)) as (m & e & Hm & He & E); [lra |].
    exists (- m)%Z, e. split; [lia | split; [exact He |]].
    rewrite nearest_opp in E. rewrite inject_Z_opp. lra.
  - apply Hpos, Pos.
  - exists 0%Z, 0%Z. split; [lia | split; [lia |]].
    rewrite (nearest_zero x Zero). ring.
Qed.

Lemma nearest_idempotent (x : Q) : nearest (nearest x) == nearest x.
Proof.
  destruct (nearest_on_grid x) as (m & e & Hm & He & E).
  exact (nearest_fixed m e _ Hm He E).
Qed.

End Rounding.

Section FloatOperations.

Import Binary64.





End FloatOperations.

Section FloatCalibration.

Import Binary64.




End FloatCalibration.


(** ** The calibrator *)

Section Calibration.

Lemma dynamic_max_ge_1 (w : WeightConfig) : 1 <= dynamic_max w.
Proof.
  unfold dynamic_max.
  destruct (max_cases 1 (Py.sum (map (fun kv => Qabs (snd kv)) w) / 2))
    as [[_ ->] | [H ->]]; lra.
Qed.

(** The divisor [_calibrate_score] really uses is positive. *)
Lemma guarded_divisor_pos (m : Q) :
  0 < (if Qle_bool m 0 then 1 else m).
Proof.
  destruct (Qle_bool m 0) eqn:E; [lra | now apply Qle_bool_false].
Qed.

Lemma guarded_divisor_id (m : Q) :
  0 < m -> (if Qle_bool m 0 then 1 else m) = m.
Proof.
  intros H. destruct (Qle_bool m 0) eqn:E; [| reflexivity].
  apply Qle_bool_iff in E. lra.
Qed.

Lemma normalized_range (x : Q) :
  -(1) <= Py.max (Py.min x 1) (-(1)) <= 1.
Proof.
  destruct (min_cases x 1) as [[H1 ->] | [H1 ->]];
    destruct (max_cases x (-(1))) as [[H2 E2] | [H2 E2]];
    destruct (max_cases 1 (-(1))) as [[H3 E3] | [H3 E3]];
    rewrite ?E2, ?E3; lra.
Qed.

Lemma normalized_monotone (x y : Q) :
  x <= y -> Py.max (Py.min x 1) (-(1)) <= Py.max (Py.min y 1) (-(1)).
Proof.
  intros H.
  destruct (min_cases x 1) as [[Hx ->] | [Hx ->]];
    destruct (min_cases y 1) as [[Hy ->] | [Hy ->]];
    repeat match goal with
           | |- context [Py.max ?a ?b] =>
               let E := fresh "E" in
               destruct (max_cases a b) as [[? E] | [? E]]; rewrite E; clear E
           end; lra.
Qed.

Lemma calibrate_bounds (score_raw max_abs_weight : Q) :
  (0 <= _calibrate_score score_raw max_abs_weight <= 100)%Z.
Proof.
  unfold _calibrate_score.
  set (m := if Qle_bool max_abs_weight 0 then 1 else max_abs_weight).
  pose proof (normalized_range (score_raw / m)) as [Hlo Hhi].
  set (n := Py.max (Py.min (score_raw / m) 1) (-(1))) in *.
  assert (H0 : inject_Z 0 <= (n + 1) * 50)
    by (change (inject_Z 0) with 0; lra).
  assert (H100 : (n + 1) * 50 <= inject_Z 100)
    by (change (inject_Z 100) with 100; lra).
  apply round_monotone in H0, H100.
  rewrite round_integer in H0, H100. split; assumption.
Qed.

Lemma div_monotone (x y m : Q) : 0 < m -> x <= y -> x / m <= y / m.
Proof.
  intros Hm Hxy. unfold Qdiv.
  apply Qmult_le_compat_r; [exact Hxy |].
  apply Qlt_le_weak. now apply Qinv_lt_0_compat.
Qed.

Lemma calibrate_monotone (x y max_abs_weight : Q) :
  x <= y ->
  (_calibrate_score x max_abs_weight <= _calibrate_score y max_abs_weight)%Z.
Proof.
  intros Hxy. unfold _calibrate_score.
  pose proof (guarded_divisor_pos max_abs_weight) as Hm.
  set (m := if Qle_bool max_abs_weight 0 then 1 else max_abs_weight) in *.
  apply round_monotone.
  pose proof (normalized_monotone _ _ (div_monotone x y m Hm Hxy)).
  lra.
Qed.

Lemma calibrate_compat (x y max_abs_weight : Q) :
  x == y -> _calibrate_score x max_abs_weight = _calibrate_score y max_abs_weight.
Proof.
  intros H. apply Z.le_antisymm; apply calibrate_monotone; rewrite H; lra.
Qed.

Lemma calibrate_zero_raw (max_abs_weight : Q) :
  _calibrate_score 0 max_abs_weight = 50%Z.
Proof.
  unfold _calibrate_score.
  set (m := if Qle_bool max_abs_weight 0 then 1 else max_abs_weight).
  rewrite <- (round_integer 50). apply round_compat.
  assert (H0 : 0 / m == 0) by (unfold Qdiv; lra).
  destruct (min_cases (0 / m) 1) as [[H1 ->] | [H1 ->]]; [| lra].
  destruct (max_cases (0 / m) (-(1))) as [[H2 ->] | [H2 ->]]; [| lra].
  rewrite H0. reflexivity.
Qed.

End Calibration.

(** ** What [calculate_score] returns *)

Section Orchestrator.

Variable C : Collaborators.
Variable payload : Payload.
Variable weights : option WeightConfig.

(** The returned value, read off lines 82-124. *)
Lemma result_of_eq (lg : Logger) :
  result_of C payload weights lg =
  let w := weights_or weights (DEFAULT_WEIGHTS C) in
  let features := extract_all_features C payload in
  let rule := hard_rules C features in
  let sum := weighted_sum C features w in
  let score := _calibrate_score (fst sum) (dynamic_max w) in
  let reasons := top_reason_codes C (snd sum) 5 in
  mkScoreResult
    score
    (fst (_map_to_status_action score))
    (snd (_map_to_status_action score))
    (if fst rule then hard_rule_reason (snd rule) :: reasons else reasons)
    [ ("model_version"%string, PyStr "v0.1.0");
      ("hard_rule_fired"%string, PyBool (fst rule));
      ("context"%string, payload_context payload) ].
Proof.
  unfold result_of, calculate_score, bind, ret, logger_debug, logger_info, log.
  cbv zeta.
  destruct (hard_rules C (extract_all_features C payload)) as [fired hard_code].
  destruct (weighted_sum C (extract_all_features C payload)
                         (weights_or weights (DEFAULT_WEIGHTS C)))
    as [score_raw contributions].
  cbn [fst snd].
  destruct (_map_to_status_action
              (_calibrate_score score_raw
                 (dynamic_max (weights_or weights (DEFAULT_WEIGHTS C)))))
    as [st act].
  destruct lg as [[] recs]; reflexivity.
Qed.

End Orchestrator.


(** ** Claims settled on [scoring.py] alone

    The theorems of this part hold for every feature extractor, default
    weight table, weighted sum, hard-rule function and reason-code
    ranking [scoring.py] may be linked with. *)

(** C1.  For every payload and every weight configuration (supplied or
    defaulted), the [score] field of the [ScoreResult] returned by
    [calculate_score] is an integer between 0 and 100 inclusive. *)
Theorem score_bounded (C : Collaborators) (payload : Payload)
    (weights : option WeightConfig) (lg : Logger) :
  (0 <= score (fst (calculate_score C payload weights lg)) <= 100)%Z.
Proof.
  fold (result_of C payload weights lg).
  rewrite result_of_eq. cbn [score]. apply calibrate_bounds.
Qed.

(** C2.  The score-to-status mapping at its boundary points (75, 74, 50,
    49) and on its three bands: every score of at least 75 gives
    LEGITIMO/ALLOW (the spec's LEGITIMATE), every score from 50 to 74
    gives DESCONFIAVEL/STEP_UP_AUTH (SUSPICIOUS), every score below 50
    gives ALTO_RISCO/BLOCK (HIGH_RISK); two scores get the same status
    exactly when they get the same action. *)
Theorem status_action_thresholds :
  _map_to_status_action 75 = (LEGITIMO, ALLOW)
  /\ _map_to_status_action 74 = (DESCONFIAVEL, STEP_UP_AUTH)
  /\ _map_to_status_action 50 = (DESCONFIAVEL, STEP_UP_AUTH)
  /\ _map_to_status_action 49 = (ALTO_RISCO, BLOCK)
  /\ (forall s : Z, (75 <= s)%Z -> _map_to_status_action s = (LEGITIMO, ALLOW))
  /\ (forall s : Z, (50 <= s <= 74)%Z ->
        _map_to_status_action s = (DESCONFIAVEL, STEP_UP_AUTH))
  /\ (forall s : Z, (s < 50)%Z -> _map_to_status_action s = (ALTO_RISCO, BLOCK))
  /\ (forall s1 s2 : Z,
        fst (_map_to_status_action s1) = fst (_map_to_status_action s2)
        <-> snd (_map_to_status_action s1) = snd (_map_to_status_action s2)).
Proof.
  repeat split; try reflexivity; unfold _map_to_status_action; intros;
    repeat match goal with
           | |- context [(?a <=? ?b)%Z] => destruct (Z.leb_spec a b)
           | H : context [(?a <=? ?b)%Z] |- _ => destruct (Z.leb_spec a b)
           end;
    try reflexivity; try lia; simpl in *; congruence.
Qed.


(** C5.  A fired hard rule only annotates the result.  Score, status and
    action are those of the calibrated weighted score and equal what
    the same imports without hard rules return; the reason codes are
    the same list with the rule's code put in front when a rule fired;
    the metadata differ in the [hard_rule_fired] flag only.  A result
    can be LEGITIMO/ALLOW although a hard rule fired. *)
Theorem hard_rule_only_annotates :
  (forall (C : Collaborators) (payload : Payload)
          (weights : option WeightConfig) (lg : Logger),
      let features := extract_all_features C payload in
      let w := weights_or weights (DEFAULT_WEIGHTS C) in
      let rule := hard_rules C features in
      let r := fst (calculate_score C payload weights lg) in
      let r0 := fst (calculate_score
                       (with_hard_rules (fun _ => (false, EmptyString)) C)
                       payload weights lg) in
      score r = _calibrate_score (fst (weighted_sum C features w)) (dynamic_max w)
      /\ (status r, recommended_action r) = _map_to_status_action (score r)
      /\ score r = score r0
      /\ status r = status r0
      /\ recommended_action r = recommended_action r0
      /\ reason_codes r =
           (if fst rule then hard_rule_reason (snd rule) :: reason_codes r0
            else reason_codes r0)
      /\ Py.get "hard_rule_fired" (metadata r) = Some (PyBool (fst rule))
      /\ Py.get "hard_rule_fired" (metadata r0) = Some (PyBool false)
      /\ Py.get "model_version" (metadata r) = Py.get "model_version" (metadata r0)
      /\ Py.get "context" (metadata r) = Py.get "context" (metadata r0))
  /\ (exists (C : Collaborators) (payload : Payload)
             (weights : option WeightConfig) (lg : Logger),
        let r := fst (calculate_score C payload weights lg) in
        fst (hard_rules C (extract_all_features C payload)) = true
        /\ status r = LEGITIMO
        /\ recommended_action r = ALLOW).
Proof.
  split.
  - intros C payload weights lg features w rule r r0. subst r r0.
    fold (result_of C payload weights lg).
    fold (result_of (with_hard_rules (fun _ => (false, EmptyString)) C)
                    payload weights lg).
    rewrite !result_of_eq.
    cbn [score status recommended_action reason_codes metadata
         with_hard_rules extract_all_features DEFAULT_WEIGHTS weighted_sum
         hard_rules top_reason_codes fst snd].
    fold features w rule.
    repeat split; try reflexivity.
    destruct (_map_to_status_action _); reflexivity.
  - exists Sample.imports, (Sample.payload 1 true),
           (Some [("face_match"%string, 1)]), Sample.quiet.
    vm_compute. repeat split.
Qed.



(** C10.  The metadata of the returned [ScoreResult] are exactly the
    three entries [model_version] = "v0.1.0", [hard_rule_fired] = the
    flag the hard rules returned, and [context] = the payload's context
    unmodified when the payload has that key, the empty map when it has
    not. *)
Theorem metadata_exact (C : Collaborators) (payload : Payload)
    (weights : option WeightConfig) (lg : Logger) :
  let r := fst (calculate_score C payload weights lg) in
  let fired_rule := fst (hard_rules C (extract_all_features C payload)) in
  map fst (metadata r)
  = [ "model_version"%string; "hard_rule_fired"%string; "context"%string ]
  /\ Py.get "model_version" (metadata r) = Some (PyStr "v0.1.0")
  /\ Py.get "hard_rule_fired" (metadata r) = Some (PyBool fired_rule)
  /\ (forall ctx : PyValue,
        Py.get "context" payload = Some ctx ->
        Py.get "context" (metadata r) = Some ctx)
  /\ (Py.get "context" payload = None ->
      Py.get "context" (metadata r) = Some (PyDict [])).
Proof.
  intros r fired_rule. subst r.
  fold (result_of C payload weights lg).
  rewrite result_of_eq. cbn [metadata]. fold fired_rule.
  repeat split; try reflexivity.
  - intros ctx H. cbn. unfold payload_context. rewrite H. reflexivity.
  - intros H. cbn. unfold payload_context. rewrite H. reflexivity.
Qed.

(** ** The ranking of section 4.6 *)

Section Ranking.

Import SpecModel.

Lemma insert_desc_perm (c : Contribution) (l : list Contribution) :
  Permutation (insert_desc c l) (c :: l).
Proof.
  induction l as [| d l IH]; simpl.
  - apply Permutation_refl.
  - destruct (Qle_bool (magnitude d) (magnitude c)).
    + apply Permutation_refl.
    + eapply perm_trans; [apply perm_skip, IH | apply perm_swap].
Qed.

Lemma sort_desc_perm (l : list Contribution) : Permutation (sort_desc l) l.
Proof.
  induction l as [| c l IH]; simpl.
  - apply perm_nil.
  - eapply perm_trans; [apply insert_desc_perm | apply perm_skip, IH].
Qed.

Lemma insert_desc_sorted (c : Contribution) (l : list Contribution) :
  StronglySorted desc l -> StronglySorted desc (insert_desc c l).
Proof.
  induction l as [| d l IH]; intros Hs; simpl.
  - constructor; constructor.
  - inversion Hs as [| ? ? Hl Hd]; subst.
    destruct (Qle_bool (magnitude d) (magnitude c)) eqn:E.
    + apply Qle_bool_iff in E. constructor; [exact Hs |].
      constructor; [exact E |].
      eapply Forall_impl; [| exact Hd].
      intros e He. unfold desc in *. lra.
    + apply Qle_bool_false in E. constructor; [now apply IH |].
      eapply Permutation_Forall;
        [apply Permutation_sym, insert_desc_perm |].
      constructor; [unfold desc; lra | exact Hd].
Qed.

Lemma sort_desc_sorted (l : list Contribution) : StronglySorted desc (sort_desc l).
Proof.
  induction l as [| c l IH]; simpl.
  - constructor.
  - now apply insert_desc_sorted.
Qed.

(** Stability: among the contributions of one magnitude, insertion and
    sorting keep the order of computation. *)
Lemma insert_desc_stable (m : Q) (c : Contribution) (l : list Contribution) :
  filter (same_magnitude m) (insert_desc c l)
  = filter (same_magnitude m) (c :: l).
Proof.
  induction l as [| d l IH]; [reflexivity |].
  cbn [insert_desc].
  destruct (Qle_bool (magnitude d) (magnitude c)) eqn:E; [reflexivity |].
  apply Qle_bool_false in E.
  cbn [filter] in *. rewrite IH.
  destruct (same_magnitude m d) eqn:Ed; [| reflexivity].
  destruct (same_magnitude m c) eqn:Ec; [| reflexivity].
  unfold same_magnitude in Ed, Ec.
  apply Qeq_bool_iff in Ed, Ec. lra.
Qed.

Lemma sort_desc_stable (m : Q) (l : list Contribution) :
  filter (same_magnitude m) (sort_desc l) = filter (same_magnitude m) l.
Proof.
  induction l as [| c l IH]; [reflexivity |].
  cbn [sort_desc fold_right]. fold (sort_desc l).
  rewrite insert_desc_stable. cbn [filter]. rewrite IH. reflexivity.
Qed.

Lemma firstn_incl {A : Type} (n : nat) (l : list A) (x : A) :
  In x (firstn n l) -> In x l.
Proof.
  intros H. rewrite <- (firstn_skipn n l). apply in_or_app. now left.
Qed.

Lemma firstn_sorted {A : Type} (R : A -> A -> Prop) (n : nat) (l : list A) :
  StronglySorted R l -> StronglySorted R (firstn n l).
Proof.
  revert n. induction l as [| a l IH]; intros n Hs.
  - rewrite firstn_nil. constructor.
  - destruct n as [| n]; [constructor |].
    inversion Hs as [| ? ? Hl Ha]; subst. cbn [firstn].
    constructor; [now apply IH |].
    rewrite Forall_forall in *. intros x Hx.
    apply Ha. eapply firstn_incl; eauto.
Qed.

Lemma top_reason_codes_ranked (cs : list Contribution) (k : nat) :
  ranked (top_reason_codes cs k).
Proof.
  unfold top_reason_codes, ranked.
  pose proof (firstn_sorted desc k _ (sort_desc_sorted cs)) as Hs.
  induction Hs as [| c l Hl IH Hc]; cbn [map]; constructor.
  - exact IH.
  - rewrite Forall_forall in *. intros rc Hrc.
    apply in_map_iff in Hrc as [d [<- Hd]].
    exact (Hc d Hd).
Qed.

Lemma top_reason_codes_length (cs : list Contribution) (k : nat) :
  (List.length (top_reason_codes cs k) <= k)%nat.
Proof.
  unfold top_reason_codes. rewrite length_map. apply firstn_le_length.
Qed.

(** Every reason code stands for one of the contributions. *)
Lemma top_reason_codes_from (cs : list Contribution) (k : nat) (rc : ReasonCode) :
  In rc (top_reason_codes cs k) ->
  exists c, In c cs /\ code rc = fst c /\ contribution rc = snd c.
Proof.
  unfold top_reason_codes. intros H.
  apply in_map_iff in H as [c [<- Hc]].
  exists c. repeat split.
  eapply Permutation_in; [apply sort_desc_perm |].
  eapply firstn_incl; eauto.
Qed.

End Ranking.

(** ** The weighted sum and the hard rules of sections 4.2 and 4.3 *)

Section WeightedSum.

Import SpecModel.

Lemma contributions_of_app (fs1 fs2 : FeatureSet) (w : WeightConfig) :
  contributions_of (fs1 ++ fs2) w
  = contributions_of fs1 w ++ contributions_of fs2 w.
Proof. unfold contributions_of. apply flat_map_app. Qed.

Lemma contributions_of_weighted (name : string) (v : FeatureValue) (wt : Q)
    (fs : FeatureSet) (w : WeightConfig) :
  Py.get name w = Some wt ->
  contributions_of ((name, v) :: fs) w
  = (name, feature_num v * wt) :: contributions_of fs w.
Proof.
  intros H. unfold contributions_of. cbn [flat_map fst snd].
  rewrite H. reflexivity.
Qed.

(** The raw score when one weighted feature sits between two groups of
    other features. *)
Lemma raw_score_split (before after : FeatureSet) (name : string)
    (v : FeatureValue) (wt : Q) (w : WeightConfig) :
  Py.get name w = Some wt ->
  fst (weighted_sum (before ++ (name, v) :: after) w)
  == Py.sum (map snd (contributions_of before w))
     + feature_num v * wt
     + Py.sum (map snd (contributions_of after w)).
Proof.
  intros H. unfold weighted_sum. cbn [fst].
  rewrite contributions_of_app, (contributions_of_weighted _ _ _ _ _ H).
  rewrite map_app, sum_app. cbn [map snd]. rewrite sum_cons.
  apply Qplus_assoc.
Qed.

Lemma get_all_zero (w : WeightConfig) (name : string) (wt : Q) :
  Forall (fun kv => snd kv == 0) w -> Py.get name w = Some wt -> wt == 0.
Proof.
  induction 1 as [| [k x] w Hx Hw IH]; simpl; [discriminate |].
  destruct (String.eqb name k).
  - intros [= <-]. exact Hx.
  - exact IH.
Qed.

Lemma sum_all_zero (xs : list Q) :
  Forall (fun x => x == 0) xs -> Py.sum xs == 0.
Proof.
  induction 1 as [| x xs Hx Hxs IH].
  - reflexivity.
  - rewrite sum_cons, Hx, IH. reflexivity.
Qed.

Lemma raw_score_all_zero (fs : FeatureSet) (w : WeightConfig) :
  Forall (fun kv => snd kv == 0) w -> fst (weighted_sum fs w) == 0.
Proof.
  intros Hw. unfold weighted_sum. cbn [fst]. apply sum_all_zero.
  induction fs as [| [name v] fs IH]; [constructor |].
  unfold contributions_of in *. cbn [flat_map fst snd].
  destruct (Py.get name w) as [wt |] eqn:E; [| exact IH].
  cbn [app map]. constructor; [| exact IH].
  cbn [snd]. rewrite (get_all_zero w name wt Hw E). apply Qmult_0_r.
Qed.

Lemma some_rule_first (rules : list HardRule) (features : FeatureSet) :
  existsb (fun rule => snd rule features) rules = true ->
  exists rule, find (fun rule => snd rule features) rules = Some rule.
Proof.
  induction rules as [| rule rules IH]; simpl; [discriminate |].
  destruct (snd rule features); [intros _; now exists rule | exact IH].
Qed.

Lemma hard_rules_first_match (rules : list HardRule) (features : FeatureSet)
    (rule : HardRule) :
  find (fun rule => snd rule features) rules = Some rule ->
  hard_rules rules features = (true, fst rule).
Proof.
  induction rules as [| [rule_code predicate] rules IH]; simpl; [discriminate |].
  destruct (predicate features).
  - intros [= <-]. reflexivity.
  - exact IH.
Qed.

End WeightedSum.

(** [calculate_score] linked with the functions of [SpecModel]. *)
Lemma result_of_spec_model (extract : Payload -> FeatureSet)
    (rules : list SpecModel.HardRule) (defaults : WeightConfig)
    (payload : Payload) (weights : option WeightConfig) (lg : Logger) :
  fst (calculate_score (SpecModel.collaborators extract rules defaults)
                       payload weights lg) =
  let w := weights_or weights defaults in
  let features := extract payload in
  let rule := SpecModel.hard_rules rules features in
  let score := _calibrate_score (fst (SpecModel.weighted_sum features w))
                                (dynamic_max w) in
  let reasons :=
    SpecModel.top_reason_codes (SpecModel.contributions_of features w) 5 in
  mkScoreResult
    score
    (fst (_map_to_status_action score))
    (snd (_map_to_status_action score))
    (if fst rule then hard_rule_reason (snd rule) :: reasons else reasons)
    [ ("model_version"%string, PyStr "v0.1.0");
      ("hard_rule_fired"%string, PyBool (fst rule));
      ("context"%string, payload_context payload) ].
Proof.
  fold (result_of (SpecModel.collaborators extract rules defaults)
                  payload weights lg).
  rewrite result_of_eq. reflexivity.
Qed.

(** ** Claims that rest on the imported functions

    The theorems of this part take the weighted sum, the hard rules and
    the ranking from [SpecModel]; extractor, rule table and default
    weights remain arbitrary. *)

(** A supplied empty [WeightConfig] is falsy at line 82 and is replaced
    by the default weights: the call is the call without weights. *)
Lemma empty_weights_defaulted (C : Collaborators) (payload : Payload) :
  calculate_score C payload (Some []) = calculate_score C payload None.
Proof. reflexivity. Qed.

(** C4, as the code has it.  For every payload, a supplied non-empty
    [WeightConfig] whose weights are all zero yields the neutral
    midpoint, score 50 with status DESCONFIAVEL (and action
    STEP_UP_AUTH), whatever the payload. *)
Theorem zero_weights_neutral (extract : Payload -> FeatureSet)
    (rules : list SpecModel.HardRule) (defaults : WeightConfig)
    (payload : Payload) (w : WeightConfig) (lg : Logger) :
  w <> [] ->
  Forall (fun kv => snd kv == 0) w ->
  let C := SpecModel.collaborators extract rules defaults in
  let r := fst (calculate_score C payload (Some w) lg) in
  score r = 50%Z
  /\ status r = DESCONFIAVEL
  /\ recommended_action r = STEP_UP_AUTH.
Proof.
  intros Hne Hzero C r. subst r C.
  rewrite result_of_spec_model.
  assert (Hw : weights_or (Some w) defaults = w)
    by (destruct w; [contradiction | reflexivity]).
  rewrite Hw. cbn [score status recommended_action].
  assert (Hs : _calibrate_score
                 (fst (SpecModel.weighted_sum (extract payload) w))
                 (dynamic_max w) = 50%Z).
  { rewrite (calibrate_compat _ 0); [apply calibrate_zero_raw |].
    now apply raw_score_all_zero. }
  rewrite Hs. repeat split; reflexivity.
Qed.

Lemma zero_weights_neutral_witness :
  let w := [ ("face_match"%string, 0); ("revoked_credential"%string, 0) ] in
  let r := fst (calculate_score Sample.imports (Sample.payload 1 true)
                                (Some w) Sample.quiet) in
  w <> []
  /\ Forall (fun kv => snd kv == 0) w
  /\ score r = 50%Z
  /\ status r = DESCONFIAVEL.
Proof.
  intros w r.
  assert (Hne : w <> []) by discriminate.
  assert (Hzero : Forall (fun kv : string * Q => snd kv == 0) w)
    by (repeat (apply Forall_cons; [reflexivity |]); apply Forall_nil).
  pose proof (zero_weights_neutral Sample.extract Sample.rules
                Sample.default_weights (Sample.payload 1 true) w
                Sample.quiet Hne Hzero) as [Hs [Hst _]].
  repeat split; assumption.
Defined.

(** C4 refuted as stated: with the empty [WeightConfig] supplied, a
    payload whose face match is 1 scores 100, LEGITIMO, under the sample
    default weights, not the neutral 50. *)
Lemma empty_weights_not_neutral :
  let r := fst (calculate_score Sample.imports (Sample.payload 1 false)
                                (Some []) Sample.quiet) in
  score r = 100%Z
  /\ status r = LEGITIMO
  /\ score r <> 50%Z
  /\ status r <> DESCONFIAVEL.
Proof. vm_compute. repeat split; discriminate. Qed.

(** C8.  Monotonicity: when one feature grows (its value, the size of
    the signal it measures) while every other feature and all weights
    stay fixed, the score does not decrease if the feature's weight is
    positive and does not increase if its weight is negative. *)
Theorem score_monotone (extract : Payload -> FeatureSet)
    (rules : list SpecModel.HardRule) (defaults : WeightConfig)
    (payload payload' : Payload) (weights : option WeightConfig) (lg : Logger)
    (before after : FeatureSet) (name : string) (v v' : FeatureValue) (wt : Q) :
  extract payload = before ++ (name, v) :: after ->
  extract payload' = before ++ (name, v') :: after ->
  Py.get name (weights_or weights defaults) = Some wt ->
  feature_num v <= feature_num v' ->
  let C := SpecModel.collaborators extract rules defaults in
  let r := fst (calculate_score C payload weights lg) in
  let r' := fst (calculate_score C payload' weights lg) in
  (0 < wt -> (score r <= score r')%Z)
  /\ (wt < 0 -> (score r' <= score r)%Z).
Proof.
  intros He He' Hget Hv C r r'. subst r r' C.
  rewrite !result_of_spec_model. cbn [score]. rewrite He, He'.
  pose proof (raw_score_split before after name v wt _ Hget) as E.
  pose proof (raw_score_split before after name v' wt _ Hget) as E'.
  split; intros Hwt; apply calibrate_monotone; rewrite E, E'.
  - assert (feature_num v * wt <= feature_num v' * wt)
      by (apply Qmult_le_compat_r; lra).
    lra.
  - assert (feature_num v' * wt <= feature_num v * wt) by nra.
    lra.
Qed.

Lemma score_monotone_witness :
  let p := Sample.payload (1 # 4) false in
  let p' := Sample.payload (1 # 2) false in
  let r := fst (calculate_score Sample.imports p None Sample.quiet) in
  let r' := fst (calculate_score Sample.imports p' None Sample.quiet) in
  Py.get "face_match" Sample.default_weights = Some 1
  /\ (1 # 4) <= (1 # 2)
  /\ (0 < 1 -> (score r <= score r')%Z).
Proof.
  intros p p' r r'.
  assert (Hget : Py.get "face_match" (weights_or None Sample.default_weights)
                 = Some 1) by reflexivity.
  assert (Hv : feature_num (FNum (1 # 4)) <= feature_num (FNum (1 # 2)))
    by (unfold Qle; simpl; lia).
  pose proof (score_monotone Sample.extract Sample.rules
                Sample.default_weights p p' None Sample.quiet
                [] [("revoked_credential"%string, FBool false)]
                "face_match" (FNum (1 # 4)) (FNum (1 # 2)) 1
                eq_refl eq_refl Hget Hv) as [Hpos _].
  repeat split; assumption.
Defined.

(** C8 refuted as stated: the face match has the positive weight 1; when
    it goes from -1/4 to -1/2 its magnitude grows from 1/4 to 1/2, every
    other feature and all weights staying fixed, and the score falls
    from 38 to 25. *)
Lemma magnitude_growth_lowers_score :
  let weights := Some [("face_match"%string, 1)] in
  let r := fst (calculate_score Sample.imports
                  (Sample.payload (-(1 # 4)) false) weights Sample.quiet) in
  let r' := fst (calculate_score Sample.imports
                   (Sample.payload (-(1 # 2)) false) weights Sample.quiet) in
  Qabs (-(1 # 4)) < Qabs (-(1 # 2))
  /\ Py.get "face_match" (weights_or weights Sample.default_weights) = Some 1
  /\ 0 < 1
  /\ score r = 38%Z
  /\ score r' = 25%Z
  /\ (score r' < score r)%Z.
Proof. vm_compute. repeat split. Qed.

Lemma sentinel_magnitude (hard_code : string) :
  Qabs (contribution (hard_rule_reason hard_code)) == 999.
Proof. reflexivity. Qed.

(** C6, as the code has it.  Whenever a hard rule predicate matches,
    the metadata carry [hard_rule_fired = true] and the first reason
    code is the code of the first matching rule with the fixed sentinel
    contribution -999.0, followed by the ranked weighted contributions.
    The sentinel is more extreme than every one of them when the
    weighted contributions all stay below 999 in magnitude. *)
Theorem hard_rule_reason_first (extract : Payload -> FeatureSet)
    (rules : list SpecModel.HardRule) (defaults : WeightConfig)
    (payload : Payload) (weights : option WeightConfig) (lg : Logger) :
  existsb (fun rule => snd rule (extract payload)) rules = true ->
  let C := SpecModel.collaborators extract rules defaults in
  let contributions :=
    SpecModel.contributions_of (extract payload) (weights_or weights defaults) in
  let r := fst (calculate_score C payload weights lg) in
  Py.get "hard_rule_fired" (metadata r) = Some (PyBool true)
  /\ exists rule : SpecModel.HardRule,
       find (fun rule => snd rule (extract payload)) rules = Some rule
       /\ reason_codes r
          = mkReasonCode (fst rule) (-(999))
            :: SpecModel.top_reason_codes contributions 5
       /\ (Forall (fun c => Qabs (snd c) < 999) contributions ->
           Forall (fun rc =>
                     Qabs (contribution rc)
                     < Qabs (contribution (mkReasonCode (fst rule) (-(999)))))
                  (tl (reason_codes r))).
Proof.
  intros Hmatch C contributions r. subst r C.
  destruct (some_rule_first _ _ Hmatch) as [rule Hfind].
  rewrite result_of_spec_model. cbv zeta.
  rewrite (hard_rules_first_match _ _ _ Hfind).
  cbn [fst snd metadata reason_codes tl]. fold contributions.
  split; [reflexivity |]. exists rule.
  split; [exact Hfind |]. split; [reflexivity |].
  intros Hsmall. rewrite Forall_forall in *. intros rc Hrc.
  apply top_reason_codes_from in Hrc as [c [Hc [_ ->]]].
  pose proof (sentinel_magnitude (fst rule)) as Hs.
  unfold hard_rule_reason in Hs. rewrite Hs. exact (Hsmall c Hc).
Qed.

Lemma hard_rule_reason_first_witness :
  let r := fst (calculate_score Sample.imports (Sample.payload (1 # 2) true)
                                None Sample.quiet) in
  existsb (fun rule => snd rule (Sample.extract (Sample.payload (1 # 2) true)))
          Sample.rules = true
  /\ Py.get "hard_rule_fired" (metadata r) = Some (PyBool true)
  /\ hd_error (reason_codes r)
     = Some (mkReasonCode "REVOKED_CREDENTIAL" (-(999))).
Proof.
  intros r.
  assert (Hmatch : existsb
                     (fun rule : SpecModel.HardRule =>
                        snd rule (Sample.extract (Sample.payload (1 # 2) true)))
                     Sample.rules = true)
    by reflexivity.
  pose proof (hard_rule_reason_first Sample.extract Sample.rules
                Sample.default_weights (Sample.payload (1 # 2) true) None
                Sample.quiet Hmatch) as [Hflag [rule [Hfind [Hreasons _]]]].
  split; [exact Hmatch |]. split; [exact Hflag |].
  subst r. unfold Sample.imports. rewrite Hreasons.
  injection Hfind as <-. reflexivity.
Defined.

(** C6 refuted as stated: the revoked-credential rule fires, its code is
    first with contribution -999, and the weighted contribution of the
    face match, 1 * 2000, is the more extreme of the two. *)
Lemma sentinel_outweighed :
  let r := fst (calculate_score Sample.imports (Sample.payload 1 true)
                                (Some [("face_match"%string, 2000)])
                                Sample.quiet) in
  Py.get "hard_rule_fired" (metadata r) = Some (PyBool true)
  /\ reason_codes r
     = [ mkReasonCode "REVOKED_CREDENTIAL" (-(999));
         mkReasonCode "face_match" (1 * 2000) ]
  /\ Qabs (-(999)) < Qabs (1 * 2000).
Proof. vm_compute. repeat split. Qed.

(** C9, as the code has it.  The reason codes number at most 5, or at
    most 6 when a hard rule fired.  Those that stand for weighted
    contributions (all of them, or all after the hard rule's code) are
    the first five of the contributions sorted by descending absolute
    value, contributions of equal magnitude staying in computation
    order.  The whole list is sorted by descending absolute
    contribution when no hard rule fired, and also when one fired and
    no contribution exceeds the sentinel's 999 in magnitude. *)
Theorem reason_codes_ranked (extract : Payload -> FeatureSet)
    (rules : list SpecModel.HardRule) (defaults : WeightConfig)
    (payload : Payload) (weights : option WeightConfig) (lg : Logger) :
  let C := SpecModel.collaborators extract rules defaults in
  let contributions :=
    SpecModel.contributions_of (extract payload) (weights_or weights defaults) in
  let fired := fst (SpecModel.hard_rules rules (extract payload)) in
  let r := fst (calculate_score C payload weights lg) in
  (List.length (reason_codes r) <= (if fired then 6 else 5))%nat
  /\ ranked (weighted_reasons fired (reason_codes r))
  /\ (exists sorted : list Contribution,
         Permutation sorted contributions
         /\ StronglySorted SpecModel.desc sorted
         /\ (forall m : Q, filter (same_magnitude m) sorted
                           = filter (same_magnitude m) contributions)
         /\ weighted_reasons fired (reason_codes r)
            = map (fun c => mkReasonCode (fst c) (snd c)) (firstn 5 sorted))
  /\ (fired = false -> ranked (reason_codes r))
  /\ (Forall (fun c => Qabs (snd c) <= 999) contributions ->
      ranked (reason_codes r)).
Proof.
  intros C contributions fired r. subst r C.
  rewrite result_of_spec_model. cbv zeta. cbn [reason_codes].
  fold contributions fired.
  pose proof (top_reason_codes_ranked contributions 5) as Hranked.
  pose proof (top_reason_codes_length contributions 5) as Hlen.
  assert (Hweighted :
            weighted_reasons fired
              (if fired
               then hard_rule_reason
                      (snd (SpecModel.hard_rules rules (extract payload)))
                    :: SpecModel.top_reason_codes contributions 5
               else SpecModel.top_reason_codes contributions 5)
            = SpecModel.top_reason_codes contributions 5)
    by (destruct fired; reflexivity).
  rewrite Hweighted.
  split; [| split; [| split; [| split]]].
  - destruct fired; cbn [List.length]; lia.
  - exact Hranked.
  - exists (SpecModel.sort_desc contributions).
    split; [apply sort_desc_perm |].
    split; [apply sort_desc_sorted |].
    split; [intros m; apply sort_desc_stable | reflexivity].
  - intros ->. exact Hranked.
  - intros Hsmall. destruct fired; [| exact Hranked].
    constructor; [exact Hranked |].
    rewrite Forall_forall in *. intros rc Hrc.
    apply top_reason_codes_from in Hrc as [c [Hc [_ Hrc]]].
    unfold ranks_before. rewrite sentinel_magnitude, Hrc.
    exact (Hsmall c Hc).
Qed.

(** C9 refuted as stated: the hard rule's code, of magnitude 999, is put
    before the face-match contribution of magnitude 1500, so the list
    is not in descending order of absolute contribution. *)
Lemma sentinel_breaks_ranking :
  let r := fst (calculate_score Sample.imports (Sample.payload (3 # 2) true)
                                (Some [("face_match"%string, 1000)])
                                Sample.quiet) in
  reason_codes r
  = [ mkReasonCode "REVOKED_CREDENTIAL" (-(999));
      mkReasonCode "face_match" ((3 # 2) * 1000) ]
  /\ ~ ranked (reason_codes r).
Proof.
  cbv zeta. split; [vm_compute; reflexivity |].
  unfold Sample.imports. rewrite result_of_spec_model. intros H.
  apply StronglySorted_inv in H as [_ H].
  apply Forall_inv in H. vm_compute in H. apply H. reflexivity.
Qed.

(** * Further properties of [scoring.py] *)

(** ** [_calibrate_score] beyond its range *)

Section CalibrateShape.

Local Abbreviation normalized x := (Py.max (Py.min x 1) (-(1))).

Lemma calibrate_positive_bound (raw m : Q) :
  0 < m ->
  _calibrate_score raw m = Py.round ((normalized (raw / m) + 1) * 50).
Proof.
  intros Hm. unfold _calibrate_score. rewrite (guarded_divisor_id m Hm).
  reflexivity.
Qed.

Lemma ratio_ge_1 (raw m : Q) : 0 < m -> m <= raw -> 1 <= raw / m.
Proof.
  intros Hm H. apply Qle_shift_div_l; [exact Hm | lra].
Qed.

Lemma ratio_le_m1 (raw m : Q) : 0 < m -> raw <= - m -> raw / m <= -(1).
Proof.
  intros Hm H. apply Qle_shift_div_r; [exact Hm | lra].
Qed.

End CalibrateShape.

Lemma calibrate_ends (raw m : Q) :
  0 < m ->
  (m <= raw -> _calibrate_score raw m = 100%Z)
  /\ (raw <= - m -> _calibrate_score raw m = 0%Z).
Proof.
  intros Hm. rewrite (calibrate_positive_bound raw m Hm). split; intros H.
  - pose proof (ratio_ge_1 raw m Hm H) as Hr.
    rewrite <- (round_integer 100). apply round_compat.
    change (inject_Z 100) with 100.
    pose proof (normalized_range (raw / m)) as [_ Hhi].
    pose proof (normalized_monotone 1 (raw / m) Hr) as Hmono.
    assert (H1 : Py.max (Py.min 1 1) (-(1)) == 1) by reflexivity.
    lra.
  - pose proof (ratio_le_m1 raw m Hm H) as Hr.
    rewrite <- (round_integer 0). apply round_compat.
    change (inject_Z 0) with 0.
    pose proof (normalized_range (raw / m)) as [Hlo _].
    pose proof (normalized_monotone (raw / m) (-(1)) Hr) as Hmono.
    assert (H1 : Py.max (Py.min (-(1)) 1) (-(1)) == -(1)) by reflexivity.
    lra.
Qed.

(** X1.  [_calibrate_score] saturates: with a positive bound, a raw
    score at or beyond the bound gives 100 and a raw score at or below
    minus the bound gives 0. *)
Theorem calibrate_saturates (raw m : Q) :
  0 < m ->
  (m <= raw -> _calibrate_score raw m = 100%Z)
  /\ (raw <= - m -> _calibrate_score raw m = 0%Z).
Proof. apply calibrate_ends. Qed.

Lemma calibrate_saturates_witness :
  0 < 2 /\ 2 <= 5 /\ _calibrate_score 5 2 = 100%Z
  /\ -(7) <= - 2 /\ _calibrate_score (-(7)) 2 = 0%Z.
Proof.
  assert (Hm : 0 < 2) by reflexivity.
  assert (Hhi : 2 <= 5) by (unfold Qle; simpl; lia).
  assert (Hlo : -(7) <= - 2) by (unfold Qle; simpl; lia).
  split; [exact Hm |]. split; [exact Hhi |].
  split; [exact (proj1 (calibrate_saturates 5 2 Hm) Hhi) |].
  split; [exact Hlo |].
  exact (proj2 (calibrate_saturates (-(7)) 2 Hm) Hlo).
Defined.

(** X3.  [_calibrate_score] is monotone in the raw score, whatever the
    bound (positive, zero or negative). *)
Theorem calibrate_monotone_in_raw (raw raw' m : Q) :
  raw <= raw' -> (_calibrate_score raw m <= _calibrate_score raw' m)%Z.
Proof. apply calibrate_monotone. Qed.

Lemma calibrate_monotone_in_raw_witness :
  (1 # 3) <= (1 # 2)
  /\ (_calibrate_score (1 # 3) 0 <= _calibrate_score (1 # 2) 0)%Z.
Proof.
  assert (H : (1 # 3) <= (1 # 2)) by (unfold Qle; simpl; lia).
  split; [exact H | exact (calibrate_monotone_in_raw _ _ 0 H)].
Defined.

(** X5.  A bound that is zero or negative is replaced by 1.0 (lines
    54-55): the result is that of the bound 1, so the raw score is
    clamped to [-1, 1] itself. *)
Theorem calibrate_nonpositive_bound (raw m : Q) :
  m <= 0 ->
  _calibrate_score raw m = _calibrate_score raw 1
  /\ (1 <= raw -> _calibrate_score raw m = 100%Z)
  /\ (raw <= -(1) -> _calibrate_score raw m = 0%Z).
Proof.
  intros Hm.
  assert (E : _calibrate_score raw m = _calibrate_score raw 1).
  { unfold _calibrate_score.
    destruct (Qle_bool m 0) eqn:B; [reflexivity |].
    apply Qle_bool_false in B. lra. }
  rewrite E.
  assert (H1 : 0 < 1) by reflexivity.
  destruct (calibrate_ends raw 1 H1) as [Htop Hbottom].
  repeat split; auto.
Qed.

Lemma calibrate_nonpositive_bound_witness :
  -(3) <= 0 /\ _calibrate_score (1 # 2) (-(3)) = _calibrate_score (1 # 2) 1.
Proof.
  assert (Hm : -(3) <= 0) by (unfold Qle; simpl; lia).
  split; [exact Hm |].
  exact (proj1 (calibrate_nonpositive_bound (1 # 2) (-(3)) Hm)).
Defined.

(** X6.  The classification is monotone in the score: a higher score
    never leaves LEGITIMO/ALLOW, and a lower score never leaves
    ALTO_RISCO/BLOCK. *)
Theorem status_monotone (s1 s2 : Z) :
  (s1 <= s2)%Z ->
  (_map_to_status_action s1 = (LEGITIMO, ALLOW) ->
   _map_to_status_action s2 = (LEGITIMO, ALLOW))
  /\ (_map_to_status_action s2 = (ALTO_RISCO, BLOCK) ->
      _map_to_status_action s1 = (ALTO_RISCO, BLOCK))
  /\ (_map_to_status_action s1 = (DESCONFIAVEL, STEP_UP_AUTH) ->
      _map_to_status_action s2 <> (ALTO_RISCO, BLOCK)).
Proof.
  intros H. unfold _map_to_status_action.
  destruct (Z.leb_spec 75 s1); destruct (Z.leb_spec 50 s1);
    destruct (Z.leb_spec 75 s2); destruct (Z.leb_spec 50 s2);
    repeat split; intros; try reflexivity; try discriminate; lia.
Qed.

Lemma status_monotone_witness :
  (80 <= 93)%Z
  /\ (_map_to_status_action 80 = (LEGITIMO, ALLOW) ->
      _map_to_status_action 93 = (LEGITIMO, ALLOW)).
Proof.
  assert (H : (80 <= 93)%Z) by lia.
  split; [exact H | exact (proj1 (status_monotone 80 93 H))].
Defined.

(** ** [calculate_score] as a whole *)

(** X8.  What [calculate_score] does to the logger: it never changes
    the threshold and never drops or rewrites a record; it appends the
    five debug records and the final info record that pass the
    threshold, in this order.  Above INFO nothing is written, and the
    info record carries the score, status and action that are
    returned. *)
Theorem logging_effect (C : Collaborators) (payload : Payload)
    (weights : option WeightConfig) (lg : Logger) :
  let out := calculate_score C payload weights lg in
  let r := fst out in
  let w := weights_or weights (DEFAULT_WEIGHTS C) in
  let features := extract_all_features C payload in
  let rule := hard_rules C features in
  let sum := weighted_sum C features w in
  threshold (snd out) = threshold lg
  /\ records (snd out)
     = records lg
       ++ filter (fun entry => (level_no (threshold lg) <=? level_no (fst entry))%Z)
            [ (DEBUG, MsgStart);
              (DEBUG, MsgFeatures features);
              (DEBUG, MsgHardRule (fst rule) (snd rule));
              (DEBUG, MsgRaw (fst sum) (snd sum));
              (DEBUG, MsgCalibrated (score r));
              (INFO, MsgFinal (score r) (status r) (recommended_action r)) ].
Proof.
  intros out r w features rule sum. subst out r w features rule sum.
  unfold calculate_score, bind, ret, logger_debug, logger_info, log.
  destruct (hard_rules C (extract_all_features C payload)) as [fired hard_code].
  destruct (weighted_sum C (extract_all_features C payload)
                         (weights_or weights (DEFAULT_WEIGHTS C)))
    as [score_raw contributions].
  cbn [fst snd].
  destruct (_map_to_status_action
              (_calibrate_score score_raw
                 (dynamic_max (weights_or weights (DEFAULT_WEIGHTS C)))))
    as [st act].
  destruct lg as [[] recs]; cbn; rewrite <- ?app_assoc, ?app_nil_r;
    split; reflexivity.
Qed.

(** X9.  Saturation of the entry point: a raw score at or beyond the
    normalization bound gives score 100, LEGITIMO, ALLOW; a raw score
    at or below minus the bound gives score 0, ALTO_RISCO, BLOCK. *)
Theorem score_saturates (C : Collaborators) (payload : Payload)
    (weights : option WeightConfig) (lg : Logger) :
  let w := weights_or weights (DEFAULT_WEIGHTS C) in
  let raw := fst (weighted_sum C (extract_all_features C payload) w) in
  let r := fst (calculate_score C payload weights lg) in
  (dynamic_max w <= raw ->
   score r = 100%Z /\ status r = LEGITIMO /\ recommended_action r = ALLOW)
  /\ (raw <= - dynamic_max w ->
      score r = 0%Z /\ status r = ALTO_RISCO /\ recommended_action r = BLOCK).
Proof.
  intros w raw r. subst r.
  fold (result_of C payload weights lg). rewrite result_of_eq. cbv zeta.
  fold w raw. cbn [score status recommended_action].
  assert (Hm : 0 < dynamic_max w) by (pose proof (dynamic_max_ge_1 w); lra).
  destruct (calibrate_ends raw (dynamic_max w) Hm) as [Htop Hbottom].
  split; intros H.
  - rewrite (Htop H). repeat split.
  - rewrite (Hbottom H). repeat split.
Qed.

(** X10.  A supplied non-empty weight table replaces the default table
    altogether: the result does not depend on [DEFAULT_WEIGHTS]. *)
Theorem supplied_weights_ignore_defaults (C : Collaborators)
    (defaults : WeightConfig) (payload : Payload) (w : WeightConfig)
    (lg : Logger) :
  w <> [] ->
  fst (calculate_score (with_default_weights defaults C) payload (Some w) lg)
  = fst (calculate_score C payload (Some w) lg).
Proof.
  intros Hw.
  fold (result_of (with_default_weights defaults C) payload (Some w) lg).
  fold (result_of C payload (Some w) lg).
  rewrite !result_of_eq.
  destruct w as [| kv w]; [contradiction | reflexivity].
Qed.

Lemma supplied_weights_ignore_defaults_witness :
  let w := [ ("face_match"%string, 2) ] in
  w <> []
  /\ fst (calculate_score
            (with_default_weights [("face_match"%string, -(5))] Sample.imports)
            (Sample.payload 1 false) (Some w) Sample.quiet)
     = fst (calculate_score Sample.imports (Sample.payload 1 false) (Some w)
                            Sample.quiet).
Proof.
  intros w.
  assert (Hw : w <> []) by discriminate.
  split; [exact Hw |].
  exact (supplied_weights_ignore_defaults Sample.imports
           [("face_match"%string, -(5))] (Sample.payload 1 false) w
           Sample.quiet Hw).
Defined.

(** * Properties of [session_behavior.py] *)

Section DictFacts.

Context {V : Type}.

Lemma dict_get_set_same (key : string) (v : V) (d : Dict V) :
  Py.get key (PyDict.set key v d) = Some v.
Proof.
  induction d as [| [k x] d IH]; simpl.
  - rewrite String.eqb_refl. reflexivity.
  - destruct (String.eqb key k) eqn:E; simpl; rewrite E; [reflexivity | exact IH].
Qed.

Lemma dict_get_set_other (key other : string) (v : V) (d : Dict V) :
  other <> key -> Py.get other (PyDict.set key v d) = Py.get other d.
Proof.
  intros Hne. induction d as [| [k x] d IH]; simpl.
  - destruct (String.eqb other key) eqn:E; [| reflexivity].
    apply String.eqb_eq in E. contradiction.
  - destruct (String.eqb key k) eqn:E; simpl.
    + apply String.eqb_eq in E. subst k.
      destruct (String.eqb other key) eqn:E'; [| reflexivity].
      apply String.eqb_eq in E'. contradiction.
    + rewrite IH. reflexivity.
Qed.

Lemma dict_get_none (key : string) (d : Dict V) :
  Py.get key d = None <-> ~ In key (map fst d).
Proof.
  induction d as [| [k x] d IH]; simpl.
  - split; [intros _ [] | reflexivity].
  - destruct (String.eqb key k) eqn:E.
    + apply String.eqb_eq in E. split; [discriminate | intros H].
      exfalso. apply H. left. symmetry. exact E.
    + apply String.eqb_neq in E. rewrite IH. split.
      * intros H [H' | H']; [congruence | contradiction].
      * intros H H'. apply H. right. exact H'.
Qed.

Lemma dict_get_in (key : string) (v : V) (d : Dict V) :
  Py.get key d = Some v -> In (key, v) d.
Proof.
  induction d as [| [k x] d IH]; simpl; [discriminate |].
  destruct (String.eqb key k) eqn:E.
  - apply String.eqb_eq in E. intros [= ->]. left. congruence.
  - intros H. right. exact (IH H).
Qed.

Lemma dict_set_keys (key : string) (v : V) (d : Dict V) :
  map fst (PyDict.set key v d)
  = if PyDict.mem key d then map fst d else map fst d ++ [key].
Proof.
  unfold PyDict.mem. induction d as [| [k x] d IH]; simpl; [reflexivity |].
  destruct (String.eqb key k) eqn:E; simpl; [reflexivity |].
  rewrite IH. destruct (Py.get key d); reflexivity.
Qed.

Lemma dict_set_nodup (key : string) (v : V) (d : Dict V) :
  NoDup (map fst d) -> NoDup (map fst (PyDict.set key v d)).
Proof.
  intros H. rewrite dict_set_keys. unfold PyDict.mem.
  destruct (Py.get key d) eqn:E; [exact H |].
  apply dict_get_none in E.
  apply NoDup_rev in H. rewrite <- (rev_involutive (map fst d ++ [key])).
  apply NoDup_rev. rewrite rev_app_distr. simpl.
  constructor; [| exact H]. rewrite <- in_rev. exact E.
Qed.

Lemma dict_set_forall (P : string -> V -> Prop) (key : string) (v : V)
    (d : Dict V) :
  P key v ->
  Forall (fun kv => P (fst kv) (snd kv)) d ->
  Forall (fun kv => P (fst kv) (snd kv)) (PyDict.set key v d).
Proof.
  intros Hv. induction 1 as [| [k x] d Hx Hd IH]; simpl.
  - constructor; [exact Hv | constructor].
  - destruct (String.eqb key k) eqn:E.
    + apply String.eqb_eq in E. subst k. constructor; [exact Hv | exact Hd].
    + constructor; [exact Hx | exact IH].
Qed.

End DictFacts.

Section StatusCodeCounts.

Lemma count_total_set (code count : Z) (codes : list (Z * Z)) :
  PyDict.get_int code codes = Some count ->
  forall count' : Z,
    fold_right Z.add 0%Z (map snd (PyDict.set_int code count' codes))
    = (fold_right Z.add 0%Z (map snd codes) - count + count')%Z.
Proof.
  induction codes as [| [k c] codes IH]; simpl; [discriminate |].
  destruct (code =? k)%Z eqn:E; simpl.
  - intros [= ->] count'. lia.
  - intros H count'. rewrite (IH H). lia.
Qed.

Lemma count_total_new (code : Z) (codes : list (Z * Z)) :
  PyDict.get_int code codes = None ->
  forall count' : Z,
    fold_right Z.add 0%Z (map snd (PyDict.set_int code count' codes))
    = (fold_right Z.add 0%Z (map snd codes) + count')%Z.
Proof.
  induction codes as [| [k c] codes IH]; simpl; [intros; lia |].
  destruct (code =? k)%Z eqn:E; simpl; [discriminate |].
  intros H count'. rewrite (IH H). lia.
Qed.

End StatusCodeCounts.

(** X11.  [RequestEvent.status]: a request is SUCCESS exactly when its
    code is in 200..299, however long it took; otherwise it is TIMEOUT
    when the code is 408 or the response took more than 30000 ms, even
    if the code is 403 or 429; BLOCKED is left for 403 and 429 answered
    within 30000 ms; everything else is ERROR. *)
Theorem request_status_classes (request : SessionBehavior.RequestEvent.t) :
  let code := SessionBehavior.RequestEvent.status_code request in
  let time := SessionBehavior.RequestEvent.response_time_ms request in
  let status := SessionBehavior.RequestEvent.status request in
  (status = SessionBehavior.SUCCESS <-> (200 <= code < 300)%Z)
  /\ (status = SessionBehavior.TIMEOUT <->
      ~ (200 <= code < 300)%Z /\ (code = 408%Z \/ 30000 < time))
  /\ (status = SessionBehavior.BLOCKED <->
      (code = 429%Z \/ code = 403%Z) /\ time <= 30000)
  /\ (status = SessionBehavior.ERROR <->
      ~ (200 <= code < 300)%Z /\ code <> 408%Z /\ code <> 429%Z
      /\ code <> 403%Z /\ time <= 30000).
Proof.
  intros code time status. subst status.
  unfold SessionBehavior.RequestEvent.status, SessionBehavior.gt.
  fold code time.
  destruct (Z.leb_spec 200 code); destruct (Z.ltb_spec code 300);
    destruct (Z.eqb_spec code 408); destruct (Z.eqb_spec code 429);
    destruct (Z.eqb_spec code 403);
    destruct (Qle_bool time 30000) eqn:T; cbn;
    try (apply Qle_bool_iff in T); try (apply Qle_bool_false in T);
    repeat split; intros; try discriminate; try reflexivity; try lia;
    repeat match goal with
           | H : _ /\ _ |- _ => destruct H
           | H : _ \/ _ |- _ => destruct H
           end;
    try lia; try lra; try (exfalso; lra); auto;
    try (right; assumption); try (left; assumption).
Qed.

Lemma rates_in_range (metrics : SessionBehavior.EndpointMetrics.t) :
  (0 <= SessionBehavior.EndpointMetrics.successful_requests metrics
     <= SessionBehavior.EndpointMetrics.total_requests metrics)%Z ->
  0 <= SessionBehavior.EndpointMetrics.success_rate metrics <= 100
  /\ 0 <= SessionBehavior.EndpointMetrics.failure_rate metrics <= 100.
Proof.
  unfold SessionBehavior.EndpointMetrics.failure_rate,
         SessionBehavior.EndpointMetrics.success_rate.
  set (total := SessionBehavior.EndpointMetrics.total_requests metrics).
  set (successful := SessionBehavior.EndpointMetrics.successful_requests metrics).
  intros [Hlo Hhi]. destruct (Z.eqb_spec total 0) as [E | NE].
  - split; split; lra.
  - assert (Ht : 0 < inject_Z total).
    { change 0 with (inject_Z 0). rewrite <- Zlt_Qlt. lia. }
    assert (Hs : 0 <= inject_Z successful).
    { change 0 with (inject_Z 0). rewrite <- Zle_Qle. lia. }
    assert (Hst : inject_Z successful <= inject_Z total)
      by (rewrite <- Zle_Qle; lia).
    assert (H0 : 0 <= inject_Z successful / inject_Z total).
    { apply Qle_shift_div_l; [exact Ht | lra]. }
    assert (H1 : inject_Z successful / inject_Z total <= 1).
    { apply Qle_shift_div_r; [exact Ht | lra]. }
    split; split; lra.
Qed.

(** X12.  [EndpointMetrics.success_rate] and [failure_rate] always add
    up to 100.  Metrics without requests have success rate 0 and hence
    failure rate 100; with [0 <= successful_requests <= total_requests]
    both rates lie in [0, 100]. *)
Theorem success_and_failure_rates (metrics : SessionBehavior.EndpointMetrics.t) :
  let total := SessionBehavior.EndpointMetrics.total_requests metrics in
  let successful := SessionBehavior.EndpointMetrics.successful_requests metrics in
  let success_rate := SessionBehavior.EndpointMetrics.success_rate metrics in
  let failure_rate := SessionBehavior.EndpointMetrics.failure_rate metrics in
  success_rate + failure_rate == 100
  /\ (total = 0%Z -> success_rate = 0 /\ failure_rate == 100)
  /\ ((0 <= successful <= total)%Z ->
      0 <= success_rate <= 100 /\ 0 <= failure_rate <= 100).
Proof.
  intros total successful success_rate failure_rate.
  subst success_rate failure_rate.
  unfold SessionBehavior.EndpointMetrics.failure_rate,
         SessionBehavior.EndpointMetrics.success_rate.
  fold total successful.
  split; [ring |]. split.
  - intros ->. cbn. split; reflexivity.
  - intros H. exact (rates_in_range metrics H).
Qed.

Section MonitorInvariant.

Import SessionBehavior.

Lemma update_metrics_consistent (key : string) (request : RequestEvent.t)
    (metrics : EndpointMetrics.t) :
  key = EndpointMonitor.endpoint_key (EndpointMetrics.method metrics)
                                     (EndpointMetrics.endpoint metrics) ->
  EndpointMonitor.countable metrics ->
  EndpointMonitor.consistent key (EndpointMonitor.update_metrics request metrics).
Proof.
  intros Hkey (Hs & Hf & Ht & Hlen & Hcodes).
  unfold EndpointMonitor.consistent, EndpointMonitor.update_metrics.
  cbn [EndpointMetrics.endpoint EndpointMetrics.method
       EndpointMetrics.total_requests EndpointMetrics.successful_requests
       EndpointMetrics.failed_requests EndpointMetrics.response_times
       EndpointMetrics.status_codes EndpointMetrics.first_accessed
       EndpointMetrics.last_accessed].
  split; [exact Hkey |].
  assert (Hsum :
            fold_right Z.add 0%Z
              (map snd
                 match PyDict.get_int (RequestEvent.status_code request)
                         (EndpointMetrics.status_codes metrics) with
                 | Some count =>
                     PyDict.set_int (RequestEvent.status_code request)
                       (count + 1)%Z (EndpointMetrics.status_codes metrics)
                 | None =>
                     PyDict.set_int (RequestEvent.status_code request) 1%Z
                       (EndpointMetrics.status_codes metrics)
                 end)
            = (EndpointMetrics.total_requests metrics + 1)%Z).
  { destruct (PyDict.get_int _ _) as [count |] eqn:E.
    - rewrite (count_total_set _ _ _ E). lia.
    - rewrite (count_total_new _ _ E). lia. }
  rewrite Hsum, length_app, Nat2Z.inj_add. cbn [List.length].
  destruct (RequestEvent.status request);
    (repeat split; try lia; try discriminate);
    destruct (EndpointMetrics.first_accessed metrics); discriminate.
Qed.

Lemma consistent_countable (key : string) (metrics : EndpointMetrics.t) :
  EndpointMonitor.consistent key metrics -> EndpointMonitor.countable metrics.
Proof.
  intros (_ & _ & Hs & Hf & Ht & Hlen & Hcodes & _).
  repeat split; assumption.
Qed.

Lemma record_request_keeps (now : Q) (request : RequestEvent.t)
    (monitor : EndpointMonitor.t) :
  EndpointMonitor.well_kept monitor ->
  EndpointMonitor.well_kept
    (fst (EndpointMonitor.record_request now request monitor)).
Proof.
  intros (Hall & Hnodup & Hlen).
  unfold EndpointMonitor.record_request. cbn [fst].
  unfold EndpointMonitor.well_kept.
  cbn [EndpointMonitor.endpoints EndpointMonitor.request_history].
  split; [| split].
  - apply (dict_set_forall EndpointMonitor.consistent); [| exact Hall].
    destruct (Py.get _ (EndpointMonitor.endpoints monitor)) as [metrics |] eqn:E.
    + apply dict_get_in in E. rewrite Forall_forall in Hall.
      specialize (Hall _ E). cbn [fst snd] in Hall.
      apply update_metrics_consistent.
      * destruct Hall as [Hk _]. exact Hk.
      * exact (consistent_countable _ _ Hall).
    + apply update_metrics_consistent; [reflexivity |].
      repeat split; cbn; lia.
  - apply dict_set_nodup. exact Hnodup.
  - unfold EndpointMonitor.history_append.
    destruct (Z.leb_spec 10000
                (Z.of_nat (List.length (EndpointMonitor.request_history monitor))));
      rewrite length_app; cbn [List.length].
    + destruct (EndpointMonitor.request_history monitor); cbn [tl List.length] in *;
        lia.
    + lia.
Qed.

Lemma record_all_keeps (calls : list (Q * RequestEvent.t))
    (monitor : EndpointMonitor.t) :
  EndpointMonitor.well_kept monitor ->
  EndpointMonitor.well_kept (EndpointMonitor.record_all calls monitor).
Proof.
  revert monitor. induction calls as [| call calls IH]; intros monitor H.
  - exact H.
  - cbn. apply IH. apply record_request_keeps. exact H.
Qed.

Lemma init_well_kept : EndpointMonitor.well_kept EndpointMonitor.init.
Proof.
  repeat split; cbn; [constructor | constructor | lia].
Qed.

Lemma recorded_entry_consistent (calls : list (Q * RequestEvent.t))
    (key : string) (metrics : EndpointMetrics.t) :
  Py.get key (EndpointMonitor.endpoints
                (EndpointMonitor.record_all calls EndpointMonitor.init))
  = Some metrics ->
  EndpointMonitor.consistent key metrics.
Proof.
  destruct (record_all_keeps calls _ init_well_kept) as (Hall & _).
  intros H. apply dict_get_in in H.
  rewrite Forall_forall in Hall. exact (Hall _ H).
Qed.

(** X13.  The invariant of [EndpointMonitor.record_request].  After any
    series of calls on a new monitor, every entry of [endpoints] sits
    under the key of its own method and endpoint, has at least one
    request, [total_requests = successful_requests + failed_requests],
    one response time per request, status-code counts that add up to
    [total_requests], and both access times set; the keys are distinct
    and [request_history] holds at most 10000 requests. *)
Theorem recorded_metrics_consistent (calls : list (Q * RequestEvent.t)) :
  let monitor := EndpointMonitor.record_all calls EndpointMonitor.init in
  (forall (key : string) (metrics : EndpointMetrics.t),
      Py.get key (EndpointMonitor.endpoints monitor) = Some metrics ->
      EndpointMonitor.consistent key metrics)
  /\ NoDup (map fst (EndpointMonitor.endpoints monitor))
  /\ (Z.of_nat (List.length (EndpointMonitor.request_history monitor))
      <= 10000)%Z.
Proof.
  intros monitor.
  destruct (record_all_keeps calls _ init_well_kept) as (_ & Hnodup & Hlen).
  fold monitor in Hnodup, Hlen.
  split; [| split; assumption].
  intros key metrics. apply recorded_entry_consistent.
Qed.

(** X14.  Composition of [record_request] with the rates: for every
    endpoint a monitor has recorded, [success_rate] is
    [successful_requests / total_requests * 100], never the 0.0 of the
    empty case, and both rates lie in [0, 100]. *)
Theorem recorded_rates_in_range (calls : list (Q * RequestEvent.t))
    (endpoint : string) (method : HTTPMethod) (metrics : EndpointMetrics.t) :
  EndpointMonitor.get_endpoint_metrics endpoint method
    (EndpointMonitor.record_all calls EndpointMonitor.init) = Some metrics ->
  EndpointMetrics.success_rate metrics
  = inject_Z (EndpointMetrics.successful_requests metrics)
    / inject_Z (EndpointMetrics.total_requests metrics) * 100
  /\ 0 <= EndpointMetrics.success_rate metrics <= 100
  /\ 0 <= EndpointMetrics.failure_rate metrics <= 100.
Proof.
  intros H. unfold EndpointMonitor.get_endpoint_metrics in H.
  destruct (recorded_entry_consistent calls _ _ H) as (_ & Hone & Hs & Hf & Ht & _).
  split.
  - unfold EndpointMetrics.success_rate.
    destruct (Z.eqb_spec (EndpointMetrics.total_requests metrics) 0);
      [lia | reflexivity].
  - apply rates_in_range. lia.
Qed.

Lemma recorded_rates_in_range_witness :
  let request := sample_request "/login" 200 12 in
  let metrics := EndpointMonitor.update_metrics request
                   (EndpointMetrics.fresh "/login" GET) in
  EndpointMonitor.get_endpoint_metrics "/login" GET
    (EndpointMonitor.record_all [(0, request)] EndpointMonitor.init)
  = Some metrics
  /\ 0 <= EndpointMetrics.success_rate metrics <= 100.
Proof.
  intros request metrics.
  assert (H : EndpointMonitor.get_endpoint_metrics "/login" GET
                (EndpointMonitor.record_all [(0, request)] EndpointMonitor.init)
              = Some metrics) by reflexivity.
  split; [exact H |].
  exact (proj1 (proj2 (recorded_rates_in_range [(0, request)] "/login" GET
                         metrics H))).
Defined.

End MonitorInvariant.

Section MonitorLookup.

Import SessionBehavior.

Lemma endpoint_key_injective (m m' : HTTPMethod) (e e' : string) :
  EndpointMonitor.endpoint_key m e = EndpointMonitor.endpoint_key m' e' ->
  m = m' /\ e = e'.
Proof.
  unfold EndpointMonitor.endpoint_key.
  destruct m, m'; cbn; intros H; try discriminate;
    injection H as H; (split; [reflexivity | exact H]).
Qed.

Lemma drop_old_head (now : Q) (window : list Q) :
  match EndpointMonitor.drop_old now window with
  | [] => True
  | first :: _ => now - first <= 60
  end.
Proof.
  induction window as [| oldest rest IH]; cbn; [exact I |].
  unfold gt. destruct (Qle_bool (now - oldest) 60) eqn:E; cbn.
  - apply Qle_bool_iff. exact E.
  - exact IH.
Qed.

(** X15.  Recording and looking up.  After [record_request(request)],
    [get_endpoint_metrics] for the request's endpoint and method finds
    metrics whose [total_requests] is one more than before (1 for a new
    endpoint), whose [last_accessed] is the request's timestamp and
    whose last response time is the request's.  The metrics of every
    other pair of endpoint and method are what they were. *)
Theorem recorded_request_is_found (now : Q) (request : RequestEvent.t)
    (monitor : EndpointMonitor.t) :
  let endpoint := RequestEvent.endpoint request in
  let method := RequestEvent.method request in
  let before := EndpointMonitor.get_endpoint_metrics endpoint method monitor in
  let monitor' := fst (EndpointMonitor.record_request now request monitor) in
  (exists metrics : EndpointMetrics.t,
      EndpointMonitor.get_endpoint_metrics endpoint method monitor' = Some metrics
      /\ EndpointMetrics.total_requests metrics
         = (match before with
            | Some old => EndpointMetrics.total_requests old
            | None => 0
            end + 1)%Z
      /\ EndpointMetrics.last_accessed metrics
         = Some (RequestEvent.timestamp request)
      /\ last (EndpointMetrics.response_times metrics) 0
         = RequestEvent.response_time_ms request)
  /\ (forall (endpoint' : string) (method' : HTTPMethod),
         (endpoint', method') <> (endpoint, method) ->
         EndpointMonitor.get_endpoint_metrics endpoint' method' monitor'
         = EndpointMonitor.get_endpoint_metrics endpoint' method' monitor).
Proof.
  intros endpoint method before monitor'. subst monitor' before.
  unfold EndpointMonitor.get_endpoint_metrics, EndpointMonitor.record_request.
  cbn [fst EndpointMonitor.endpoints]. fold endpoint method. split.
  - eexists. split; [apply dict_get_set_same |].
    unfold EndpointMonitor.update_metrics.
    cbn [EndpointMetrics.total_requests EndpointMetrics.last_accessed
         EndpointMetrics.response_times].
    rewrite last_last.
    destruct (Py.get (EndpointMonitor.endpoint_key method endpoint)
                     (EndpointMonitor.endpoints monitor)) as [old |];
      repeat split; reflexivity.
  - intros endpoint' method' Hne. apply dict_get_set_other.
    intros H. apply endpoint_key_injective in H as [-> ->].
    apply Hne. reflexivity.
Qed.

(** X16.  The rate-limit window of [record_request].  After the call
    the window of the request's session is not empty, ends with the
    instant of the call and starts with an instant at most 60 seconds
    before it; the windows of the other sessions are untouched. *)
Theorem rate_window_after_call (now : Q) (request : RequestEvent.t)
    (monitor : EndpointMonitor.t) :
  let session := RequestEvent.session_id request in
  let monitor' := fst (EndpointMonitor.record_request now request monitor) in
  (exists (first : Q) (rest : list Q),
      Py.get session (EndpointMonitor.rate_limiter_windows monitor')
      = Some (first :: rest)
      /\ now - first <= 60
      /\ last (first :: rest) 0 = now)
  /\ (forall other : string,
         other <> session ->
         Py.get other (EndpointMonitor.rate_limiter_windows monitor')
         = Py.get other (EndpointMonitor.rate_limiter_windows monitor)).
Proof.
  intros session monitor'. subst monitor'.
  unfold EndpointMonitor.record_request.
  cbn [fst EndpointMonitor.rate_limiter_windows]. fold session. split.
  - rewrite dict_get_set_same.
    set (old := match Py.get session (EndpointMonitor.rate_limiter_windows monitor)
                with Some window => window | None => [] end).
    pose proof (drop_old_head now old) as Hhead.
    destruct (EndpointMonitor.drop_old now old) as [| first rest] eqn:E.
    + exists now, []. cbn. repeat split. lra.
    + exists first, (rest ++ [now]). split; [reflexivity |].
      split; [exact Hhead |].
      change (first :: rest ++ [now]) with ((first :: rest) ++ [now]).
      apply last_last.
  - intros other Hne. apply dict_get_set_other. exact Hne.
Qed.

End MonitorLookup.

(** ** The user sequence and its idle time *)

Section UserSequence.

Import SessionBehavior.
Import UserBehaviorAnalyzer.

Lemma insert_by_time_perm (event : UserEvent.t) (sorted : list UserEvent.t) :
  Permutation (insert_by_time event sorted) (event :: sorted).
Proof.
  induction sorted as [| next rest IH]; cbn.
  - apply Permutation_refl.
  - destruct (Qle_bool _ _).
    + apply Permutation_refl.
    + eapply perm_trans; [apply perm_skip, IH | apply perm_swap].
Qed.

Lemma sort_by_time_perm (events : list UserEvent.t) :
  Permutation (sort_by_time events) events.
Proof.
  induction events as [| event events IH]; cbn.
  - apply perm_nil.
  - eapply perm_trans; [apply insert_by_time_perm | apply perm_skip, IH].
Qed.

Lemma insert_by_time_order (event : UserEvent.t) (sorted : list UserEvent.t) :
  in_time_order sorted -> in_time_order (insert_by_time event sorted).
Proof.
  unfold in_time_order.
  induction sorted as [| next rest IH]; intros Hs; cbn.
  - constructor; constructor.
  - inversion Hs as [| ? ? Hrest Hnext]; subst.
    destruct (Qle_bool _ _) eqn:E.
    + apply Qle_bool_iff in E. constructor; [exact Hs |].
      constructor; [exact E |].
      eapply Forall_impl; [| exact Hnext]. cbn. intros later Hl. lra.
    + apply Qle_bool_false in E. constructor; [now apply IH |].
      eapply Permutation_Forall;
        [apply Permutation_sym, insert_by_time_perm |].
      constructor; [lra | exact Hnext].
Qed.

Lemma sort_by_time_order (events : list UserEvent.t) :
  in_time_order (sort_by_time events).
Proof.
  induction events as [| event events IH]; cbn.
  - constructor.
  - now apply insert_by_time_order.
Qed.

Lemma insert_by_time_stable (instant : Q) (event : UserEvent.t)
    (sorted : list UserEvent.t) :
  filter (at_instant instant) (insert_by_time event sorted)
  = filter (at_instant instant) (event :: sorted).
Proof.
  induction sorted as [| next rest IH]; [reflexivity |].
  cbn [insert_by_time].
  destruct (Qle_bool _ _) eqn:E; [reflexivity |].
  apply Qle_bool_false in E.
  cbn [filter] in *. rewrite IH.
  destruct (at_instant instant next) eqn:En; [| reflexivity].
  destruct (at_instant instant event) eqn:Ee; [| reflexivity].
  unfold at_instant in En, Ee. apply Qeq_bool_iff in En, Ee. lra.
Qed.

Lemma sort_by_time_stable (instant : Q) (events : list UserEvent.t) :
  filter (at_instant instant) (sort_by_time events)
  = filter (at_instant instant) events.
Proof.
  induction events as [| event events IH]; [reflexivity |].
  cbn [sort_by_time fold_right]. fold (sort_by_time events).
  rewrite insert_by_time_stable. cbn [filter]. rewrite IH. reflexivity.
Qed.

Lemma user_sequence_in_order (session_id : string) (self : t) :
  in_time_order (fst (get_user_sequence session_id None self)).
Proof. unfold get_user_sequence. cbn [fst]. apply sort_by_time_order. Qed.

(** X17.  [get_user_sequence] sorts in place.  Without a limit it
    returns the stored events of the session in ascending order of
    timestamp, events of one timestamp in their stored order, and it
    leaves the session stored in that order; the other sessions are
    untouched, and an unknown session gives the empty list and changes
    nothing. *)
Theorem user_sequence_sorts_in_place (session_id : string) (self : t) :
  let stored := Py.get session_id (sessions self) in
  let events := match stored with Some events => events | None => [] end in
  let out := get_user_sequence session_id None self in
  Permutation (fst out) events
  /\ in_time_order (fst out)
  /\ (forall instant : Q,
         filter (at_instant instant) (fst out)
         = filter (at_instant instant) events)
  /\ (stored <> None -> Py.get session_id (sessions (snd out)) = Some (fst out))
  /\ (stored = None -> fst out = [] /\ snd out = self)
  /\ (forall other : string,
         other <> session_id ->
         Py.get other (sessions (snd out)) = Py.get other (sessions self))
  /\ idle_threshold_seconds (snd out) = idle_threshold_seconds self.
Proof.
  intros stored events out. subst out. unfold get_user_sequence.
  fold stored. cbn [fst snd]. fold events.
  split; [apply sort_by_time_perm |].
  split; [apply sort_by_time_order |].
  split; [intros instant; apply sort_by_time_stable |].
  split; [| split; [| split]].
  - intros Hs. destruct stored; [| contradiction].
    cbn [sessions]. apply dict_get_set_same.
  - intros Hs. subst events. rewrite Hs. split; reflexivity.
  - intros other Hne. destruct stored; [| reflexivity].
    cbn [sessions]. apply dict_get_set_other. exact Hne.
  - destruct stored; reflexivity.
Qed.

(** X18.  The limit of [get_user_sequence].  A limit of 0 is falsy and
    returns the whole sequence, like no limit; a positive limit [k]
    returns the last [k] events, all of them when there are fewer; a
    negative limit [k] does not fail, it drops the first [-k] events. *)
Theorem user_sequence_limit (session_id : string) (k : Z) (self : t) :
  let all := fst (get_user_sequence session_id None self) in
  let n := Z.of_nat (List.length all) in
  let limited := fst (get_user_sequence session_id (Some k) self) in
  (k = 0%Z -> limited = all)
  /\ ((0 < k)%Z ->
      limited = skipn (Z.to_nat (n - k)) all
      /\ Z.of_nat (List.length limited) = Z.min k n)
  /\ ((k < 0)%Z -> limited = skipn (Z.to_nat (- k)) all).
Proof.
  intros all n limited. subst limited all. unfold get_user_sequence in *.
  cbn [fst] in *.
  set (all := sort_by_time _) in *.
  split; [intros ->; reflexivity |]. split; intros Hk.
  - destruct (Z.eqb_spec k 0); [lia |]. unfold slice_from. fold n.
    destruct (Z.ltb_spec (- k) 0); [| lia].
    assert (E : Z.to_nat (Z.max (- k + n) 0) = Z.to_nat (n - k)).
    { lia. }
    rewrite E. split; [reflexivity |].
    rewrite length_skipn. subst n. lia.
  - destruct (Z.eqb_spec k 0); [lia |]. unfold slice_from. fold n.
    destruct (Z.ltb_spec (- k) 0); [lia |].
    destruct (Z.min_spec (- k) n) as [[_ ->] | [Hle ->]]; [reflexivity |].
    rewrite !skipn_all2; [reflexivity | subst n; lia | subst n; lia].
Qed.

(** X19.  The two shapes of [calculate_idle_time].  For a session of
    fewer than two events the result has the keys [total_idle_time],
    [idle_periods] and [longest_idle], all at zero, and none of the
    keys [total_idle_time_seconds], [longest_idle_seconds],
    [idle_threshold_seconds] that the result for two or more events
    has. *)
Theorem idle_time_result_keys (isoformat : Q -> string) (session_id : string)
    (self : t) :
  let events := fst (get_user_sequence session_id None self) in
  let result := fst (calculate_idle_time isoformat session_id self) in
  ((List.length events < 2)%nat ->
   result = [ ("total_idle_time"%string, PyInt 0);
              ("idle_periods"%string, PyList []);
              ("longest_idle"%string, PyInt 0) ]
   /\ Py.get "total_idle_time_seconds" result = None
   /\ Py.get "longest_idle_seconds" result = None
   /\ Py.get "idle_threshold_seconds" result = None)
  /\ ((2 <= List.length events)%nat ->
      map fst result
      = [ "total_idle_time_seconds"%string; "idle_periods"%string;
          "longest_idle_seconds"%string; "idle_threshold_seconds"%string ]
      /\ Py.get "total_idle_time" result = None
      /\ Py.get "idle_threshold_seconds" result
         = Some (PyInt (idle_threshold_seconds self))).
Proof.
  intros events result. subst result events. unfold calculate_idle_time.
  destruct (get_user_sequence session_id None self) as [sorted self'].
  cbn [fst].
  destruct (Z.ltb_spec (Z.of_nat (List.length sorted)) 2); cbn [fst];
    (split; intros Hn; [try lia | try lia]); repeat split; reflexivity.
Qed.

End UserSequence.

Section IdleTotals.

Import SessionBehavior.
Import UserBehaviorAnalyzer.

Lemma idle_periods_step (threshold : Z) (previous current : UserEvent.t)
    (rest : list UserEvent.t) :
  idle_periods threshold (previous :: current :: rest)
  = let time_diff :=
      total_seconds (UserEvent.timestamp current)
                    (UserEvent.timestamp previous) in
    if gt time_diff (inject_Z threshold)
    then (UserEvent.timestamp previous, UserEvent.timestamp current, time_diff)
         :: idle_periods threshold (current :: rest)
    else idle_periods threshold (current :: rest).
Proof. reflexivity. Qed.

(** Every idle period exceeds the threshold, and its duration is a
    float. *)
Lemma idle_periods_long (threshold : Z) (events : list UserEvent.t) :
  Forall (fun period =>
            inject_Z threshold < duration period
            /\ Binary64.nearest (duration period) == duration period)
         (idle_periods threshold events).
Proof.
  induction events as [| previous rest IH]; [constructor |].
  destruct rest as [| current rest']; [constructor |].
  rewrite idle_periods_step. cbv zeta.
  unfold gt. destruct (Qle_bool _ _) eqn:E; cbn [negb]; [exact IH |].
  apply Qle_bool_false in E. constructor; [| exact IH].
  split; [exact E | apply nearest_idempotent].
Qed.

Lemma last_default {A : Type} (l : list A) (d d' : A) :
  l <> [] -> last l d = last l d'.
Proof.
  induction l as [| a l IH]; intros H; [contradiction |].
  destruct l as [| b l]; [reflexivity |].
  cbn [last] in *. apply IH. discriminate.
Qed.

Lemma last_in {A : Type} (a : A) (l : list A) (d : A) :
  In (last (a :: l) d) (a :: l).
Proof.
  revert a. induction l as [| b l IH]; intros a.
  - left. reflexivity.
  - right. apply (IH b).
Qed.

(** In a sequence in time order the first event is the earliest and
    the last one the latest. *)
Lemma between_first_and_last (first : UserEvent.t) (events : list UserEvent.t) :
  in_time_order (first :: events) ->
  Forall (fun event =>
            UserEvent.timestamp first <= UserEvent.timestamp event
            <= UserEvent.timestamp (last (first :: events) first))
         (first :: events).
Proof.
  unfold in_time_order. revert first.
  induction events as [| next rest IH]; intros first Hs.
  - constructor; [cbn; lra | constructor].
  - inversion Hs as [| ? ? Hrest Hall]; subst.
    specialize (IH next Hrest).
    change (last (first :: next :: rest) first)
      with (last (next :: rest) first).
    rewrite (last_default (next :: rest) first next) by discriminate.
    pose proof (Forall_inv Hall) as Hnext.
    pose proof (Forall_inv IH) as [_ Hlast].
    cbn beta in Hnext, Hlast.
    constructor; [split; lra |].
    eapply Forall_impl; [| exact IH]. cbn beta. intros event [H1 H2]. lra.
Qed.

(** No gap between events of an interval is longer than the interval. *)
Lemma idle_periods_bounded (threshold : Z) (origin latest : Q)
    (events : list UserEvent.t) :
  Forall (fun event => origin <= UserEvent.timestamp event <= latest) events ->
  Forall (fun period => duration period <= total_seconds latest origin)
         (idle_periods threshold events).
Proof.
  induction events as [| previous rest IH]; intros Hall; [constructor |].
  destruct rest as [| current rest']; [constructor |].
  inversion Hall as [| ? ? Hprev Hrest]; subst.
  pose proof (Forall_inv Hrest) as Hcur. cbn beta in Hprev, Hcur.
  rewrite idle_periods_step. cbv zeta.
  destruct (gt _ _); [| exact (IH Hrest)].
  constructor; [| exact (IH Hrest)].
  cbn [duration snd]. unfold total_seconds. apply nearest_monotone. lra.
Qed.

Lemma idle_periods_within (threshold : Z) (events : list UserEvent.t) :
  in_time_order events ->
  Forall (fun period => duration period <= session_duration events)
         (idle_periods threshold events).
Proof.
  intros Hs. destruct events as [| first events]; [constructor |].
  unfold session_duration.
  apply idle_periods_bounded, between_first_and_last, Hs.
Qed.

(** [max(xs)] is one of the items and no item is greater. *)
Lemma max_of_bounds (first : Q) (rest : list Q) (lo hi : Q) :
  lo < first -> first <= hi -> Forall (fun x => x <= hi) rest ->
  lo < max_of first rest <= hi
  /\ first <= max_of first rest
  /\ In (max_of first rest) (first :: rest).
Proof.
  unfold max_of. revert first.
  induction rest as [| x rest IH]; intros first Hlo Hhi Hr; cbn [fold_left].
  - repeat split; try lra. left. reflexivity.
  - inversion Hr as [| ? ? Hx Hrest]; subst.
    destruct (max_cases first x) as [[Hc E] | [Hc E]]; rewrite E.
    + destruct (IH first Hlo Hhi Hrest) as (H1 & H2 & H3).
      repeat split; try lra. destruct H3 as [<- | H3]; [left | right; right];
        auto.
    + destruct (IH x) as (H1 & H2 & H3); [lra | exact Hx | exact Hrest |].
      repeat split; try lra. right. exact H3.
Qed.

(** The running total never falls below a float it has added. *)
Lemma running_total_ge (durations : list Q) (total : Q) :
  0 <= total -> Binary64.nearest total == total ->
  Forall (fun d => 0 <= d /\ Binary64.nearest d == d) durations ->
  let final :=
    fold_left (fun total time_diff => Binary64.nearest (total + time_diff))
              durations total in
  total <= final /\ Forall (fun d => d <= final) durations.
Proof.
  revert total.
  induction durations as [| d rest IH]; intros total Ht Hf Hd;
    cbn [fold_left]; [split; [lra | constructor] |].
  inversion Hd as [| ? ? [Hd0 Hdf] Hrest]; subst.
  assert (H1 : total <= Binary64.nearest (total + d)).
  { rewrite <- Hf at 1. apply nearest_monotone. lra. }
  assert (H2 : d <= Binary64.nearest (total + d)).
  { rewrite <- Hdf at 1. apply nearest_monotone. lra. }
  destruct (IH (Binary64.nearest (total + d))) as [H3 H4];
    [lra | apply nearest_idempotent | exact Hrest |].
  split; [lra |]. constructor; [lra | exact H4].
Qed.

(** X20.  The idle time within the session.  With a threshold that is
    not negative, when the total idle time is reported as a float
    (there is at least one idle period), the longest idle period is a
    float above the threshold, it is at most the total, and it is at
    most the session duration of [get_session_behavior_analysis]. *)
Theorem idle_time_within_session (isoformat : Q -> string)
    (session_id : string) (self : t) (total : Q) :
  (0 <= idle_threshold_seconds self)%Z ->
  let events := fst (get_user_sequence session_id None self) in
  let result := fst (calculate_idle_time isoformat session_id self) in
  Py.get "total_idle_time_seconds" result = Some (PyFloat total) ->
  exists longest : Q,
    Py.get "longest_idle_seconds" result = Some (PyFloat longest)
    /\ inject_Z (idle_threshold_seconds self) < longest
    /\ longest <= total
    /\ longest <= session_duration events.
Proof.
  intros Ht events result. subst result events.
  unfold calculate_idle_time.
  pose proof (user_sequence_in_order session_id self) as Hs.
  destruct (get_user_sequence session_id None self) as [sorted self'].
  cbn [fst] in *.
  destruct (Z.of_nat (List.length sorted) <? 2)%Z; [discriminate |].
  cbn [fst].
  pose proof (idle_periods_long (idle_threshold_seconds self) sorted) as Hlong.
  pose proof (idle_periods_within (idle_threshold_seconds self) sorted Hs)
    as Hin.
  destruct (idle_periods (idle_threshold_seconds self) sorted)
    as [| first rest] eqn:E; [cbn; discriminate |].
  assert (H0 : 0 <= inject_Z (idle_threshold_seconds self)).
  { change 0 with (inject_Z 0). rewrite <- Zle_Qle. exact Ht. }
  assert (Hfloat : Forall (fun d => 0 <= d /\ Binary64.nearest d == d)
                          (map duration (first :: rest))).
  { rewrite Forall_map. eapply Forall_impl; [| exact Hlong].
    cbn beta. intros period [Hp Hf]. split; [lra | exact Hf]. }
  destruct (running_total_ge (map duration (first :: rest)) 0)
    as [_ Hge]; [lra | reflexivity | exact Hfloat |].
  fold (running_total (map duration (first :: rest))) in Hge.
  inversion Hlong as [| ? ? [Hfirst _] _]; subst.
  inversion Hin as [| ? ? Hfirst_in Hrest_in]; subst.
  destruct (max_of_bounds (duration first) (map duration rest)
              (inject_Z (idle_threshold_seconds self))
              (session_duration sorted))
    as ([Hlo Hhi] & _ & Hmem);
    [exact Hfirst | exact Hfirst_in
     | rewrite Forall_map; exact Hrest_in |].
  rewrite Forall_forall in Hge. specialize (Hge _ Hmem).
  remember (running_total (map duration (first :: rest))) as sum_of_periods.
  remember (max_of (duration first) (map duration rest)) as longest_period.
  cbn. intros [= <-].
  exists longest_period. repeat split; assumption.
Qed.

Lemma idle_time_within_session_witness :
  let analyzer :=
    mk [ ("s-1"%string,
          [ sample_event "a" 0; sample_event "b" (401 # 10);
            sample_event "c" (803 # 10) ]) ]
       30 in
  let events := fst (get_user_sequence "s-1" None analyzer) in
  let result :=
    fst (calculate_idle_time (fun _ => EmptyString) "s-1" analyzer) in
  let total := 1412652539366605 # 17592186044416 in
  (0 <= idle_threshold_seconds analyzer)%Z
  /\ Py.get "total_idle_time_seconds" result = Some (PyFloat total)
  /\ exists longest : Q,
       Py.get "longest_idle_seconds" result = Some (PyFloat longest)
       /\ inject_Z (idle_threshold_seconds analyzer) < longest
       /\ longest <= total
       /\ longest <= session_duration events.
Proof.
  intros analyzer events result total.
  assert (Ht : (0 <= idle_threshold_seconds analyzer)%Z) by (cbn; lia).
  assert (H : Py.get "total_idle_time_seconds" result = Some (PyFloat total))
    by (vm_compute; reflexivity).
  split; [exact Ht |]. split; [exact H |].
  exact (idle_time_within_session (fun _ => EmptyString) "s-1"
           analyzer total Ht H).
Defined.

(** The total is a sum of floats: for events at 0, 40.1 and 80.3
    seconds it is 80.30000000000001, above the session duration 80.3. *)
Example idle_total_above_duration :
  let events :=
    [ sample_event "a" 0; sample_event "b" (401 # 10);
      sample_event "c" (803 # 10) ] in
  session_duration events
  < running_total (map duration (idle_periods 30 events)).
Proof. vm_compute. reflexivity. Qed.

End IdleTotals.

(** ** The engagement score *)

Section EngagementOnSessions.

Import SessionBehavior.

Lemma short_session_idle_result (isoformat : Q -> string) (session_id : string)
    (self : UserBehaviorAnalyzer.t) :
  (List.length
     (fst (UserBehaviorAnalyzer.get_user_sequence session_id None self)) < 2)%nat ->
  fst (UserBehaviorAnalyzer.calculate_idle_time isoformat session_id self)
  = [ ("total_idle_time"%string, PyInt 0);
      ("idle_periods"%string, PyList []);
      ("longest_idle"%string, PyInt 0) ].
Proof.
  unfold UserBehaviorAnalyzer.calculate_idle_time.
  destruct (UserBehaviorAnalyzer.get_user_sequence session_id None self)
    as [sorted self'].
  cbn [fst]. intros H.
  destruct (Z.ltb_spec (Z.of_nat (List.length sorted)) 2); [reflexivity | lia].
Qed.

(** X22.  [calculate_engagement_score] cannot score a short session.
    When the [idle_analysis] entry of the analysis is what
    [calculate_idle_time] returns for a session of fewer than two
    events, the call raises [KeyError], whatever else the analysis
    holds: that result has no key [total_idle_time_seconds]. *)
Theorem engagement_score_short_session_fails (isoformat : Q -> string)
    (session_id : string) (self : UserBehaviorAnalyzer.t)
    (behavior_analysis : Dict PyValue) :
  (List.length
     (fst (UserBehaviorAnalyzer.get_user_sequence session_id None self)) < 2)%nat ->
  Py.get "idle_analysis" behavior_analysis
  = Some (PyDict (fst (UserBehaviorAnalyzer.calculate_idle_time
                         isoformat session_id self))) ->
  exists key : string,
    calculate_engagement_score behavior_analysis = inl (KeyError key).
Proof.
  intros Hshort Hidle.
  rewrite (short_session_idle_result isoformat session_id self Hshort) in Hidle.
  unfold calculate_engagement_score, getitem, and_then.
  destruct (Py.get "total_events" behavior_analysis);
    [| eexists; reflexivity].
  destruct (Py.get "session_duration_seconds" behavior_analysis);
    [| eexists; reflexivity].
  rewrite Hidle. eexists. reflexivity.
Qed.

Lemma engagement_score_short_session_fails_witness :
  let analyzer := UserBehaviorAnalyzer.init in
  let idle :=
    fst (UserBehaviorAnalyzer.calculate_idle_time (fun _ => EmptyString)
           "s-1" analyzer) in
  let analysis :=
    [ ("session_id"%string, PyStr "s-1");
      ("session_duration_seconds"%string, PyInt 0);
      ("total_events"%string, PyInt 0);
      ("click_patterns"%string,
       PyDict [ ("total_clicks"%string, PyInt 0);
                ("click_frequency"%string, PyInt 0);
                ("hotspots"%string, PyList []) ]);
      ("idle_analysis"%string, PyDict idle) ] in
  (List.length
     (fst (UserBehaviorAnalyzer.get_user_sequence "s-1" None analyzer)) < 2)%nat
  /\ exists key : string,
       calculate_engagement_score analysis = inl (KeyError key).
Proof.
  intros analyzer idle analysis.
  assert (Hshort :
            (List.length
               (fst (UserBehaviorAnalyzer.get_user_sequence "s-1" None analyzer))
             < 2)%nat) by (cbn; lia).
  split; [exact Hshort |].
  exact (engagement_score_short_session_fails (fun _ => EmptyString) "s-1"
           analyzer analysis Hshort eq_refl).
Defined.

End EngagementOnSessions.

(** ** The performance score *)

Section Performance.

Import SessionBehavior.

Lemma speed_score_cases (a : PyNum.t) :
  (PyNum.value a <= 100 /\ speed_score a = PyNum.Int 40)
  \/ (100 < PyNum.value a <= 300 /\ speed_score a = PyNum.Int 30)
  \/ (300 < PyNum.value a <= 500 /\ speed_score a = PyNum.Int 20)
  \/ (500 < PyNum.value a <= 1000 /\ speed_score a = PyNum.Int 10)
  \/ (1000 < PyNum.value a /\ speed_score a = PyNum.Int 0).
Proof.
  unfold speed_score, PyNum.le. cbn [PyNum.value].
  change (inject_Z 100) with 100. change (inject_Z 300) with 300.
  change (inject_Z 500) with 500. change (inject_Z 1000) with 1000.
  destruct (Qle_bool (PyNum.value a) 100) eqn:E1;
    [apply Qle_bool_iff in E1; left; split; [lra | reflexivity] |].
  apply Qle_bool_false in E1. right.
  destruct (Qle_bool (PyNum.value a) 300) eqn:E2;
    [apply Qle_bool_iff in E2; left; split; [lra | reflexivity] |].
  apply Qle_bool_false in E2. right.
  destruct (Qle_bool (PyNum.value a) 500) eqn:E3;
    [apply Qle_bool_iff in E3; left; split; [lra | reflexivity] |].
  apply Qle_bool_false in E3. right.
  destruct (Qle_bool (PyNum.value a) 1000) eqn:E4;
    [apply Qle_bool_iff in E4; left; split; [lra | reflexivity] |].
  apply Qle_bool_false in E4. right. split; [lra | reflexivity].
Qed.

(** X23.  The speed score of [calculate_performance_score] is one of
    40, 30, 20, 10 and 0, it is 40 up to an average response time of
    100 ms and 0 beyond 1000 ms, and it never grows with the average
    response time. *)
Theorem speed_score_steps (a b : PyNum.t) :
  PyNum.value a <= PyNum.value b ->
  PyNum.value (speed_score b) <= PyNum.value (speed_score a)
  /\ In (speed_score a)
        [ PyNum.Int 40; PyNum.Int 30; PyNum.Int 20; PyNum.Int 10; PyNum.Int 0 ]
  /\ (PyNum.value a <= 100 <-> speed_score a = PyNum.Int 40)
  /\ (1000 < PyNum.value a <-> speed_score a = PyNum.Int 0).
Proof.
  intros Hab.
  destruct (speed_score_cases a) as [[Ha Ea] | [[Ha Ea] | [[Ha Ea] | [[Ha Ea] | [Ha Ea]]]]];
    destruct (speed_score_cases b) as [[Hb Eb] | [[Hb Eb] | [[Hb Eb] | [[Hb Eb] | [Hb Eb]]]]];
    rewrite Ea, Eb; cbn [PyNum.value]; unfold inject_Z;
    (split; [try lra | split; [cbn; tauto |]]);
    (split; split; intros H; try reflexivity; try discriminate; try lra).
Qed.

Lemma speed_score_steps_witness :
  PyNum.value (PyNum.Float 250) <= PyNum.value (PyNum.Int 700)
  /\ PyNum.value (speed_score (PyNum.Int 700))
     <= PyNum.value (speed_score (PyNum.Float 250)).
Proof.
  assert (H : PyNum.value (PyNum.Float 250) <= PyNum.value (PyNum.Int 700))
    by (unfold Qle; cbn; lia).
  split; [exact H |].
  exact (proj1 (speed_score_steps (PyNum.Float 250) (PyNum.Int 700) H)).
Defined.

End Performance.

(** ** Event handlers *)

Section Handlers.

Import SessionBehavior.

Variable Handler : Type.

Lemma event_type_eqb_eq (a b : EventType) :
  EventHandlers.eqb a b = true <-> a = b.
Proof.
  unfold EventHandlers.eqb. split.
  - destruct a, b; cbn; intros H; try discriminate; reflexivity.
  - intros ->. apply String.eqb_refl.
Qed.

Lemma handlers_get_app (event_type : EventType) (handlers extra : EventHandlers.t Handler) :
  EventHandlers.get Handler event_type (handlers ++ extra)
  = match EventHandlers.get Handler event_type handlers with
    | Some registered => Some registered
    | None => EventHandlers.get Handler event_type extra
    end.
Proof.
  induction handlers as [| [k v] handlers IH]; cbn; [reflexivity |].
  destruct (EventHandlers.eqb event_type k); [reflexivity | exact IH].
Qed.

(** X25.  [register_event_handler] never registers anything.  For every
    event type and handler the call raises [AttributeError] (the list
    has no method [Fappend]); afterwards the handlers
    [trigger_event_handlers] would run are the same as before for
    every event type, and those of a type that had none are still
    none. *)
Theorem register_event_handler_always_fails (event_type : EventType)
    (handler : Handler) (handlers : EventHandlers.t Handler) :
  let out := EventHandlers.register_event_handler Handler event_type handler
               handlers in
  fst out = inl AttributeError
  /\ (forall other : EventType,
         EventHandlers.registered Handler other (snd out)
         = EventHandlers.registered Handler other handlers)
  /\ (EventHandlers.get Handler event_type handlers = None ->
      EventHandlers.get Handler event_type (snd out) = Some []).
Proof.
  intros out. subst out.
  unfold EventHandlers.register_event_handler, EventHandlers.registered,
         EventHandlers.subscript.
  destruct (EventHandlers.get Handler event_type handlers) as [found |] eqn:E;
    cbn [fst snd].
  - split; [reflexivity |]. split; [reflexivity | discriminate].
  - split; [reflexivity |]. split.
    + intros other. rewrite handlers_get_app.
      destruct (EventHandlers.get Handler other handlers) eqn:E'; [reflexivity |].
      cbn. destruct (EventHandlers.eqb other event_type); reflexivity.
    + intros _. rewrite handlers_get_app, E. cbn.
      rewrite (proj2 (event_type_eqb_eq event_type event_type) eq_refl).
      reflexivity.
Qed.

End Handlers.

(** * Properties of [storage_adapter.py] *)




(** * Properties of [DataCollection.py] *)

Section LoginTracker.

Import DataCollection.

Lemma counter_ensure (key other : string) (d : Dict Z) :
  counter other (ensure key d) = counter other d.
Proof.
  unfold ensure, PyDict.mem, counter.
  destruct (Py.get key d) eqn:E; [reflexivity |].
  destruct (String.eqb other key) eqn:K.
  - apply String.eqb_eq in K. subst other.
    rewrite dict_get_set_same, E. reflexivity.
  - apply String.eqb_neq in K. rewrite dict_get_set_other by exact K.
    reflexivity.
Qed.

Lemma counter_set (key other : string) (n : Z) (d : Dict Z) :
  counter other (PyDict.set key n d)
  = if String.eqb other key then n else counter other d.
Proof.
  unfold counter. destruct (String.eqb other key) eqn:K.
  - apply String.eqb_eq in K. subst other. rewrite dict_get_set_same.
    reflexivity.
  - apply String.eqb_neq in K. rewrite dict_get_set_other by exact K.
    reflexivity.
Qed.

(** One call, seen through the counters. *)
Lemma record_login_attempt_counters (user_id ip_address : string)
    (success : bool) (login_method : string) (failure_reason : option string)
    (self : Rastreador_de_Sessão_e_Autenticação) (key : string) :
  let self' := fst (record_login_attempt user_id ip_address success
                      login_method failure_reason self) in
  counter key (login_attempts_by_user self')
  = (if String.eqb key user_id
     then (if success then 0
           else counter key (login_attempts_by_user self) + 1)
     else counter key (login_attempts_by_user self))%Z
  /\ counter key (login_attempts_by_ip self')
     = (if String.eqb key ip_address
        then (if success then 0
              else counter key (login_attempts_by_ip self) + 1)
        else counter key (login_attempts_by_ip self))%Z.
Proof.
  unfold record_login_attempt.
  destruct success; cbn [fst login_attempts_by_user login_attempts_by_ip];
    rewrite !counter_set, !counter_ensure; split.
  - destruct (String.eqb key user_id); reflexivity.
  - destruct (String.eqb key ip_address); reflexivity.
  - destruct (String.eqb key user_id) eqn:K; [| reflexivity].
    apply String.eqb_eq in K. subst key. reflexivity.
  - destruct (String.eqb key ip_address) eqn:K; [| reflexivity].
    apply String.eqb_eq in K. subst key. reflexivity.
Qed.

(** X27.  One login attempt.  A success sets the counters of its user
    and of its address to 0; a failure adds 1 to each, a counter that
    did not exist counting as 0; the counters of all other users and
    addresses keep their values.  The warning logged for a failure
    carries the two new counts. *)
Theorem login_attempt_counters (user_id ip_address : string) (success : bool)
    (login_method : string) (failure_reason : option string)
    (self : Rastreador_de_Sessão_e_Autenticação) :
  let out := record_login_attempt user_id ip_address success login_method
               failure_reason self in
  let by_user := login_attempts_by_user (fst out) in
  let by_ip := login_attempts_by_ip (fst out) in
  Py.get user_id by_user
  = Some (if success then 0
          else counter user_id (login_attempts_by_user self) + 1)%Z
  /\ Py.get ip_address by_ip
     = Some (if success then 0
             else counter ip_address (login_attempts_by_ip self) + 1)%Z
  /\ (forall other : string,
         other <> user_id ->
         counter other by_user = counter other (login_attempts_by_user self))
  /\ (forall other : string,
         other <> ip_address ->
         counter other by_ip = counter other (login_attempts_by_ip self))
  /\ (success = false ->
      exists reason : string,
        snd out = AuthenticationFailure user_id ip_address login_method
                    (counter user_id by_user) (counter ip_address by_ip) reason).
Proof.
  intros out by_user by_ip. subst by_user by_ip out.
  split; [| split; [| split; [| split]]].
  - unfold record_login_attempt.
    destruct success; cbn [fst login_attempts_by_user];
      rewrite dict_get_set_same, ?counter_ensure; reflexivity.
  - unfold record_login_attempt.
    destruct success; cbn [fst login_attempts_by_ip];
      rewrite dict_get_set_same, ?counter_ensure; reflexivity.
  - intros other Hne.
    destruct (record_login_attempt_counters user_id ip_address success
                login_method failure_reason self other) as [H _].
    rewrite H. apply String.eqb_neq in Hne. rewrite Hne. reflexivity.
  - intros other Hne.
    destruct (record_login_attempt_counters user_id ip_address success
                login_method failure_reason self other) as [_ H].
    rewrite H. apply String.eqb_neq in Hne. rewrite Hne. reflexivity.
  - intros ->. unfold record_login_attempt. cbn [fst snd].
    eexists. reflexivity.
Qed.

Lemma record_all_counters (attempts : list Attempt)
    (self : Rastreador_de_Sessão_e_Autenticação) (key : string) :
  counter key (login_attempts_by_user (record_all attempts self))
  = fold_left
      (fun (n : Z) (attempt : Attempt) =>
         if String.eqb (fst (fst attempt)) key
         then (if snd attempt then 0 else n + 1)%Z
         else n)
      attempts (counter key (login_attempts_by_user self))
  /\ counter key (login_attempts_by_ip (record_all attempts self))
     = fold_left
         (fun (n : Z) (attempt : Attempt) =>
            if String.eqb (snd (fst attempt)) key
            then (if snd attempt then 0 else n + 1)%Z
            else n)
         attempts (counter key (login_attempts_by_ip self)).
Proof.
  revert self. induction attempts as [| [[user ip] success] attempts IH];
    intros self; [split; reflexivity |].
  cbn [record_all fold_left fst snd].
  fold (record_all attempts
          (fst (record_login_attempt user ip success "password" None self))).
  destruct (IH (fst (record_login_attempt user ip success "password" None self)))
    as [Hu Hi].
  destruct (record_login_attempt_counters user ip success "password" None
              self key) as [Su Si].
  rewrite Hu, Hi, Su, Si, (String.eqb_sym key user), (String.eqb_sym key ip).
  split; reflexivity.
Qed.

Lemma failures_nonneg (select : Attempt -> string) (key : string)
    (attempts : list Attempt) (n : Z) :
  (0 <= n)%Z ->
  (0 <= fold_left
          (fun n attempt =>
             if String.eqb (select attempt) key
             then (if snd attempt then 0 else n + 1)%Z
             else n)
          attempts n)%Z.
Proof.
  revert n. induction attempts as [| attempt attempts IH]; intros n Hn;
    [exact Hn |].
  cbn [fold_left]. apply IH.
  destruct (String.eqb (select attempt) key); [| exact Hn].
  destruct (snd attempt); lia.
Qed.

(** X28.  The counters count failures in a row.  After any series of
    attempts on a new tracker, the counter of a user is the number of
    failed attempts of that user since the user's last success, and
    the counter of an address is the number of failed attempts from
    that address since the last success from it, whoever the user was;
    no counter is negative. *)
Theorem login_counters_count_failures (attempts : list Attempt) (key : string) :
  let tracker := record_all attempts init in
  counter key (login_attempts_by_user tracker)
  = failures_in_a_row (fun attempt => fst (fst attempt)) key attempts
  /\ counter key (login_attempts_by_ip tracker)
     = failures_in_a_row (fun attempt => snd (fst attempt)) key attempts
  /\ (0 <= counter key (login_attempts_by_user tracker))%Z
  /\ (0 <= counter key (login_attempts_by_ip tracker))%Z.
Proof.
  intros tracker. subst tracker.
  destruct (record_all_counters attempts init key) as [Hu Hi].
  unfold failures_in_a_row. rewrite Hu, Hi. cbn [counter Py.get init
    login_attempts_by_user login_attempts_by_ip].
  repeat split; try reflexivity; apply failures_nonneg; lia.
Qed.

End LoginTracker.

(** * Properties of [ip_location.py] *)

Section Geolocation.

Import IPLocation.

Lemma ask_names_country (provider : Provider) (address : string)
    (found : GeoLocationData) :
  fst (ask provider address) = Some found -> country found <> EmptyString.
Proof.
  unfold ask.
  destruct (is_available provider) as [[|] |]; cbn; try discriminate.
  destruct (get_location provider address) as [[location |] |]; cbn;
    try discriminate.
  destruct (country location) eqn:E; cbn; [discriminate |].
  intros [= <-]. rewrite E. discriminate.
Qed.

Lemma ask_in_turn_finds (providers : list Provider) (address : string) :
  fst (ask_in_turn providers address true)
  = match find (fun provider => succeeds provider address) providers with
    | Some provider => fst (ask provider address)
    | None => None
    end.
Proof.
  induction providers as [| provider rest IH]; [reflexivity |].
  cbn [ask_in_turn find]. unfold succeeds at 1.
  destruct (ask provider address) as [[found |] lines] eqn:E; cbn [fst].
  - rewrite E. reflexivity.
  - destruct (ask_in_turn rest address true) as [found more].
    cbn [fst] in *. exact IH.
Qed.

Lemma find_app_last {A : Type} (f : A -> bool) (l : list A) (x : A) :
  f x = true ->
  find f (l ++ [x]) = match find f l with Some y => Some y | None => Some x end.
Proof.
  intros Hx. induction l as [| a l IH]; cbn.
  - rewrite Hx. reflexivity.
  - destruct (f a); [reflexivity | exact IH].
Qed.

(** X29.  The fallback of [get_ip_location].  Without providers the
    result is [None].  A location that is returned always names a
    country.  With [retry_on_failure] the result is the answer of the
    first provider, in order, that is available, raises nothing and
    names a country; without it only the first provider is asked.
    With the mock provider last, as [_setup_default_providers] puts it,
    a call that retries never returns [None]: when every provider
    before it fails, the caller gets the simulated location in
    Brazil. *)
Theorem ip_location_fallback (providers : list Provider) (address : string)
    (retry_on_failure : bool) :
  let found := fst (get_ip_location providers address retry_on_failure) in
  (providers = [] -> found = None)
  /\ (forall location : GeoLocationData,
         found = Some location -> country location <> EmptyString)
  /\ (retry_on_failure = true ->
      found = match find (fun provider => succeeds provider address) providers with
              | Some provider => fst (ask provider address)
              | None => None
              end)
  /\ (retry_on_failure = false ->
      forall (first : Provider) (rest : list Provider),
        providers = first :: rest -> found = fst (ask first address))
  /\ (retry_on_failure = true ->
      forall (now : Q) (before : list Provider),
        providers = before ++ [MockGeoProvider now] ->
        found <> None
        /\ (find (fun provider => succeeds provider address) before = None ->
            found = fst (ask (MockGeoProvider now) address)
            /\ option_map country found = Some "Brazil"%string)).
Proof.
  intros found. subst found.
  assert (Hturn : fst (get_ip_location providers address true)
                  = match find (fun provider => succeeds provider address)
                                providers with
                    | Some provider => fst (ask provider address)
                    | None => None
                    end).
  { destruct providers as [| first rest]; [reflexivity |].
    unfold get_ip_location. apply ask_in_turn_finds. }
  split; [intros ->; reflexivity |].
  split; [| split; [| split]].
  - intros location H. destruct providers as [| first rest]; [discriminate |].
    destruct retry_on_failure.
    + rewrite Hturn in H.
      destruct (find _ (first :: rest)) as [provider |]; [| discriminate].
      exact (ask_names_country provider address location H).
    + unfold get_ip_location in H. cbn [ask_in_turn] in H.
      destruct (ask first address) as [[found |] lines] eqn:E;
        cbn [fst] in H; [| discriminate].
      apply (ask_names_country first address). rewrite E. exact H.
  - intros ->. exact Hturn.
  - intros -> first rest ->. unfold get_ip_location. cbn [ask_in_turn].
    destruct (ask first address) as [[found |] lines]; reflexivity.
  - intros -> now before ->. rewrite Hturn.
    rewrite (find_app_last _ before (MockGeoProvider now)) by reflexivity.
    destruct (find _ before) as [provider |] eqn:E.
    + split; [| discriminate].
      apply find_some in E as [_ E]. unfold succeeds in E.
      destruct (fst (ask provider address)); [discriminate | discriminate].
    + split; [discriminate |]. intros _. split; reflexivity.
Qed.

Lemma failed_among_recent (clock : nat -> Q) (k : nat) (objects : Store)
    (attempts : list Ref) :
  (0 <= failed_among objects (recent_attempts clock k objects attempts)
     <= failed_among objects attempts)%Z.
Proof.
  unfold failed_among. revert k.
  induction attempts as [| a rest IH]; intros k; cbn; [lia |].
  specialize (IH (S k)).
  destruct (SessionBehavior.gt _ _); cbn;
    destruct (is_failed (auth_result (objects a))); cbn [List.length]; lia.
Qed.

(** X30.  What [record_auth_attempt] calls consecutive failures.  The
    caller's object is appended to the history of its key, the user
    name or, when that is missing or empty, the address; other
    histories are untouched.  Of the objects only the caller's
    changes, and only in [consecutive_failures]: 0 when the attempt did
    not fail, else one more than the number of failed attempts of the
    last hour in that history, successes between them or not (when the
    whole history is recent, the number of all its failures plus one).
    The history holds the object itself, so entries that are this same
    object show the new count too. *)
Theorem auth_failures_of_the_hour (clock : nat -> Q) (auth_data : Ref)
    (objects : Store) (auth_attempts : Dict (list Ref)) :
  let this := objects auth_data in
  let key := user_key this in
  let history := match Py.get key auth_attempts with
                 | Some history => history
                 | None => []
                 end in
  let out := record_auth_attempt clock auth_data objects auth_attempts in
  let count := consecutive_failures (fst out auth_data) in
  Py.get key (snd out) = Some (history ++ [auth_data])
  /\ (forall other : string,
         other <> key -> Py.get other (snd out) = Py.get other auth_attempts)
  /\ (username this = None \/ username this = Some EmptyString ->
      key = ip_address this)
  /\ (forall name : string,
         username this = Some name -> name <> EmptyString -> key = name)
  /\ fst out auth_data = with_consecutive_failures count this
  /\ (forall r : Ref, r <> auth_data -> fst out r = objects r)
  /\ (auth_result this <> FAILED -> count = 0%Z)
  /\ (auth_result this = FAILED ->
      count
      = (failed_among objects (recent_attempts clock 0 objects history) + 1)%Z
      /\ (1 <= count <= failed_among objects history + 1)%Z
      /\ (recent_attempts clock 0 objects history = history ->
          count = (failed_among objects history + 1)%Z))
  /\ counts_shown (fst out) (history ++ [auth_data])
     = map (fun r => if Nat.eqb r auth_data then count
                     else consecutive_failures (objects r))
           history
       ++ [count].
Proof.
  intros this key history out count. subst count out.
  unfold record_auth_attempt. fold this key history. cbn [fst snd].
  assert (Hself : forall a : AuthenticationData,
             store_set auth_data a objects auth_data = a).
  { intros a. unfold store_set. rewrite Nat.eqb_refl. reflexivity. }
  rewrite !Hself.
  split; [apply dict_get_set_same |].
  split; [intros other Hne; apply dict_get_set_other; exact Hne |].
  split; [intros [H | H]; subst key; unfold user_key; rewrite H; reflexivity |].
  split.
  { intros name H Hname. subst key. unfold user_key. rewrite H.
    destruct name; [congruence | reflexivity]. }
  split; [reflexivity |].
  split.
  { intros r Hr. unfold store_set.
    destruct (Nat.eqb_spec r auth_data); [contradiction | reflexivity]. }
  pose proof (failed_among_recent clock 0 objects history) as Hrange.
  split; [| split].
  - intros H.
    destruct (auth_result this) eqn:E;
      cbn [is_failed consecutive_failures with_consecutive_failures];
      try reflexivity; congruence.
  - intros H. rewrite H. cbn [is_failed consecutive_failures
                              with_consecutive_failures].
    split; [reflexivity |]. split; [lia |]. intros ->. reflexivity.
  - unfold counts_shown. rewrite map_app. cbn [map].
    rewrite Hself. f_equal.
    apply map_ext. intros r. unfold store_set.
    destruct (Nat.eqb r auth_data); reflexivity.
Qed.

(** One failed attempt recorded twice: both entries of the history are
    the one object, and both show 2. *)
Example same_object_recorded_twice :
  let objects : Store := fun _ => sample_attempt "ana" FAILED 100 in
  let clock : nat -> Q := fun _ => 200 in
  let once := record_auth_attempt clock 7%nat objects [] in
  let twice := record_auth_attempt clock 7%nat (fst once) (snd once) in
  Py.get "ana" (snd twice) = Some [7%nat; 7%nat]
  /\ counts_shown (fst twice) [7%nat; 7%nat] = [2%Z; 2%Z].
Proof. vm_compute. split; reflexivity. Qed.

End Geolocation.
